(** * Resilient chat pipeline and security routes: a shallow embedding

    The development embeds, function by function, the TypeScript sources

    - [app/api/cybersecurity/analyze/route.ts]: [POST], [GET],
      [simulateAnalysis], [calculateThreatLevel] (modules [Analyze] and
      [AnalyzeHealth]);
    - [app/api/admin-security/route.ts], the version that holds the mock
      data: the module variables, [generateSecurityReport], the actions
      [block_system], [unblock_system], [generate_report] and [add_alert] of
      [POST], [PUT] and [DELETE] (module [AdminSecurity]); the version that
      is a proxy: [GET] (module [AdminProxy]);
    - [app/api/chat/route.ts]: [POST], [tryFallbackAPI],
      [generateLocalResponse], [GET] (module [Chat]);
    - the route that runs the NetworkX agent: [POST] (module [Networkx]);
    - [lib/api-config.ts]: [apiCall], [chatApiCall],
      [generateLocalChatResponse], [checkApiHealth] (module [ApiConfig]);
    - [app/page.tsx]: [analyzeMessageSecurity], [handleThreatDetected],
      [handleSendMessage], [handleSend] (module [Page]);

    and proves the properties of the specification about them.

    Conventions.  A JavaScript string is a Rocq string holding the UTF-8
    encoding of the text; a number is a binary64 float ([PrimFloat]), or an
    integer where the source only counts; [undefined] is [None]; an
    exception is the [Throw] case of [result]; the network, the clock and
    the process environment are read from an [Env], the clock giving one
    time for a whole run; every [fetch] and every timer wait is recorded, in
    order, in a trace of [event]s.  What is
    written to the console is left out. *)

From Stdlib Require Import String Ascii List ZArith Bool Lia Floats DecimalString Uint63.
Import ListNotations.

Set Warnings "-inexact-float,-register-all".

Local Open Scope string_scope.
Local Open Scope list_scope.

(** ** Strings *)

(** [s.includes(sub)], also [s.indexOf(sub) !== -1]. *)
Fixpoint includes (s sub : string) : bool :=
  String.prefix sub s ||
  match s with
  | EmptyString => false
  | String _ rest => includes rest sub
  end.

Definition is_upper_ascii (c : ascii) : bool :=
  (65 <=? nat_of_ascii c)%nat && (nat_of_ascii c <=? 90)%nat.

Definition lower_ascii_char (c : ascii) : ascii :=
  if is_upper_ascii c then ascii_of_nat (nat_of_ascii c + 32) else c.

(** Case folding of the letters A-Z only: what the [i] flag of a regular
    expression without the [u] flag does to a pattern of ASCII characters
    (a character outside ASCII never folds to an ASCII one there). *)
Fixpoint lower_ascii (s : string) : string :=
  match s with
  | EmptyString => EmptyString
  | String c rest => String (lower_ascii_char c) (lower_ascii rest)
  end.

Definition bytes (l : list nat) : string :=
  string_of_list_ascii (map ascii_of_nat l).

(** The characters of the class [\s], UTF-8 encoded:
    TAB LF VT FF CR SPACE, U+00A0, U+1680, U+2000..U+200A, U+2028, U+2029,
    U+202F, U+205F, U+3000, U+FEFF. *)
Definition white_space : list string :=
  map bytes
    [ [9]; [10]; [11]; [12]; [13]; [32];
      [194; 160]; [225; 154; 128];
      [226; 128; 128]; [226; 128; 129]; [226; 128; 130]; [226; 128; 131];
      [226; 128; 132]; [226; 128; 133]; [226; 128; 134]; [226; 128; 135];
      [226; 128; 136]; [226; 128; 137]; [226; 128; 138];
      [226; 128; 168]; [226; 128; 169]; [226; 128; 175];
      [226; 129; 159]; [227; 128; 128]; [239; 187; 191] ].

Fixpoint drop (n : nat) (s : string) : string :=
  match n, s with
  | S n', String _ rest => drop n' rest
  | _, _ => s
  end.

(** One [\s] at the head of [s], removed. *)
Definition strip_space (s : string) : option string :=
  match find (fun w => String.prefix w s) white_space with
  | Some w => Some (drop (String.length w) s)
  | None => None
  end.

Fixpoint skip_spaces (fuel : nat) (s : string) : string :=
  match fuel with
  | O => s
  | S fuel' =>
      match strip_space s with
      | Some rest => skip_spaces fuel' rest
      | None => s
      end
  end.

(** [a\s+b] matched at the head of [s]; [b] starts with a character that is
    not white space, so the run of [\s] taken is the longest one. *)
Definition match_spaced_here (a b s : string) : bool :=
  String.prefix a s &&
  match strip_space (drop (String.length a) s) with
  | Some rest => String.prefix b (skip_spaces (String.length rest) rest)
  | None => false
  end.

Fixpoint match_spaced (a b s : string) : bool :=
  match_spaced_here a b s ||
  match s with
  | EmptyString => false
  | String _ rest => match_spaced a b rest
  end.

(** The regular expressions of the sources, as tests on a text. *)
Inductive RegExp : Type :=
| Literal (lit : string)              (* /lit/  or /lit/g *)
| LiteralI (lit : string)             (* /lit/i, [lit] in lower case *)
| SpacedI (a b : string).             (* /a\s+b/i, [a] and [b] in lower case *)

(** [p.test(text)] on a regular expression object that was never used. *)
Definition test (p : RegExp) (text : string) : bool :=
  match p with
  | Literal lit => includes text lit
  | LiteralI lit => includes (lower_ascii text) lit
  | SpacedI a b => match_spaced a b (lower_ascii text)
  end.

(** [s.length]: UTF-16 code units of the text encoded in [s]. *)
Fixpoint utf16_length (s : string) : Z :=
  match s with
  | EmptyString => 0
  | String c rest =>
      let b := nat_of_ascii c in
      ((if (b <? 128)%nat then 1
        else if (b <? 192)%nat then 0
        else if (b <? 240)%nat then 1
        else 2) + utf16_length rest)%Z
  end.

(** [String(n)] for an integer [n]. *)
Definition string_of_Z (n : Z) : string := NilZero.string_of_int (Z.to_int n).

Definition quote : string := String (ascii_of_nat 34) EmptyString.

(** The builtins that are not embedded are taken from the platform. *)

(** ** Numbers *)

Definition is_nan (x : float) : bool := negb (PrimFloat.eqb x x).

(** [Math.max(a, b)]. *)
Definition Math_max (a b : float) : float :=
  if is_nan a then a
  else if is_nan b then b
  else if PrimFloat.ltb a b then b
  else if PrimFloat.ltb b a then a
  else if PrimFloat.ltb (1 / a) 0 then b   (* a = -0 *)
  else a.

(** ** JSON values *)

Inductive json : Type :=
| JNull
| JBool (b : bool)
| JNum (x : float)
| JStr (s : string)
| JArr (items : list json)
| JObj (fields : list (string * json)).

(** A JavaScript value read from JSON data: [None] is [undefined]. *)
Definition value : Type := option json.

Fixpoint assoc {A : Type} (k : string) (l : list (string * A)) : option A :=
  match l with
  | [] => None
  | (k', v) :: rest => if String.eqb k k' then Some v else assoc k rest
  end.

(** [!!v] *)
Definition truthy (v : value) : bool :=
  match v with
  | None => false
  | Some JNull => false
  | Some (JBool b) => b
  | Some (JNum x) => negb (PrimFloat.eqb x 0 || is_nan x)
  | Some (JStr s) => negb (String.eqb s "")
  | Some (JArr _) => true
  | Some (JObj _) => true
  end.

(** [a || b] *)
Definition js_or (a b : value) : value := if truthy a then a else b.

(** A value parsed from JSON that has no primitive value: converting it to
    a string, as a template literal does, throws a [TypeError].  An object
    with a key [toString] of its own has no method of that name, no value of
    JSON being callable, and its [valueOf] returns the object; an array is
    joined, which converts each of its elements but [null]. *)
Fixpoint has_no_primitive (v : json) : bool :=
  match v with
  | JObj fields =>
      match assoc "toString" fields with
      | Some _ => true
      | None => false
      end
  | JArr items => existsb has_no_primitive items
  | _ => false
  end.

(** The builtins that are not embedded are taken from the platform. *)
Class Platform : Type := {
  (** [String.prototype.toLowerCase] *)
  toLowerCase : string -> string;
  (** [x => x.toFixed(0)] *)
  toFixed0 : float -> string;
  (** the conversion of a value to a number, as [v > 0.8] and [v * 100] do *)
  ToNumber : value -> float;
  (** the conversion of a value to a string, as a template literal does *)
  ToString : value -> string;
  (** [AbortSignal.timeout(ms)] for an integer [ms]: [None] when it returns
      a signal, the message of the error when it throws *)
  timeout_refusal : Z -> option string;
  ToNumber_number : forall x, ToNumber (Some (JNum x)) = x;
  ToString_string : forall s, ToString (Some (JStr s)) = s;
  (** a delay is accepted when it is an unsigned 32-bit integer, the range
      that the browsers and Node share, and refused when it is negative *)
  timeout_accepted : forall ms, (0 <= ms <= 4294967295)%Z -> timeout_refusal ms = None;
  timeout_refused : forall ms, (ms < 0)%Z -> timeout_refusal ms <> None
}.

(** ** Exceptions, network, clock *)

Inductive JsError : Type := mkError (message : string).

Definition message (e : JsError) : string := let 'mkError m := e in m.

Inductive result (A : Type) : Type :=
| Ok (a : A)
| Throw (e : JsError).
Arguments Ok {A} a.
Arguments Throw {A} e.

Notation "'let!' x ':=' m 'in' k" :=
  (match m with Ok x => k | Throw e => Throw e end)
  (at level 10, x name, m at level 100, k at level 200).

(** [fetch(url, { method, body, signal: AbortSignal.timeout(ms) })] *)
Record FetchRequest : Type := {
  url : string;
  method : string;
  payload : value;            (* the value given to [JSON.stringify], if any *)
  signal : option Z           (* [ms] of [AbortSignal.timeout(ms)], if any *)
}.

Record Response : Type := {
  status : Z;
  statusText : string;
  parsed : result json        (* what [await response.json()] gives *)
}.

(** [response.ok] *)
Definition ok (r : Response) : bool := (200 <=? status r)%Z && (status r <=? 299)%Z.

Inductive event : Type :=
| EvFetch (r : FetchRequest)
| EvSleep (ms : Z).

Record Env : Type := {
  (** the outcome of the [n]-th [fetch] of a run: a rejection (network
      error, abort by the timeout signal) or a response *)
  network : nat -> FetchRequest -> result Response;
  (** [new Date().toISOString()] *)
  date_iso : string;
  (** [Date.now()] *)
  date_now : Z;
  (** [process.env] *)
  process_env : string -> option string
}.

(** Asynchronous code: reads the environment, extends the trace, returns or throws. *)
Definition IO (A : Type) : Type := Env -> list event -> result A * list event.

Definition ret {A} (a : A) : IO A := fun _ tr => (Ok a, tr).

Definition throw {A} (e : JsError) : IO A := fun _ tr => (Throw e, tr).

Definition bind {A B} (m : IO A) (k : A -> IO B) : IO B :=
  fun env tr =>
    match m env tr with
    | (Ok a, tr') => k a env tr'
    | (Throw e, tr') => (Throw e, tr')
    end.

Notation "x <- m ;; k" := (bind m (fun x => k))
  (at level 61, m at next level, right associativity).
Notation "m ;;; k" := (bind m (fun _ => k))
  (at level 61, right associativity).
Notation "' pat <- m ;; k" := (bind m (fun x => match x with pat => k end))
  (at level 61, pat pattern, m at next level, right associativity).

(** [try { m } catch (e) { h e }] *)
Definition try_catch {A} (m : IO A) (h : JsError -> IO A) : IO A :=
  fun env tr =>
    match m env tr with
    | (Ok a, tr') => (Ok a, tr')
    | (Throw e, tr') => h e env tr'
    end.

Definition lift {A} (r : result A) : IO A := fun _ tr => (r, tr).

Definition ask : IO Env := fun env tr => (Ok env, tr).

Definition count_fetch (tr : list event) : nat :=
  length (filter (fun e => match e with EvFetch _ => true | _ => false end) tr).

(** [await fetch(...)] *)
Definition fetch (r : FetchRequest) : IO Response :=
  fun env tr => (network env (count_fetch tr) r, tr ++ [EvFetch r]).

(** [await new Promise(resolve => setTimeout(resolve, ms))] *)
Definition sleep (ms : Z) : IO unit := fun _ tr => (Ok tt, tr ++ [EvSleep ms]).

Definition run {A} (env : Env) (m : IO A) : result A * list event := m env [].

(** [process.env.K || d] *)
Definition env_or (v : option string) (d : string) : string :=
  match v with
  | Some s => if String.eqb s "" then d else s
  | None => d
  end.

(** Reading a property of [undefined] or [null] is a [TypeError]. *)
Definition deref {A} (o : option A) (what : string) : result A :=
  match o with
  | Some a => Ok a
  | None => Throw (mkError ("Cannot read properties of undefined (reading '" ++ what ++ "')"))
  end.

(** [v.k] for data parsed from JSON and a key [k] that no prototype
    defines: the field of an object, [undefined] on any other value but
    [null], where it throws. *)
Definition prop (v : json) (k : string) : result value :=
  match v with
  | JNull => Throw (mkError ("Cannot read properties of null (reading '" ++ k ++ "')"))
  | JObj fields => Ok (assoc k fields)
  | _ => Ok None
  end.

(** [v?.k] on a value that may be [undefined] or [null]. *)
Definition opt_prop (v : value) (k : string) : value :=
  match v with
  | Some (JObj fields) => assoc k fields
  | _ => None
  end.

(** [NextResponse.json(body, { status })] *)
Record NextResponse (B : Type) : Type := {
  http_status : Z;
  body : B
}.
Arguments http_status {B} _.
Arguments body {B} _.

(** [a !== s] and [a === s] for [a] a string or [undefined]. *)
Definition strict_neq (a : option string) (s : string) : bool :=
  match a with
  | Some x => negb (String.eqb x s)
  | None => true
  end.

Definition strict_eq (a : option string) (s : string) : bool :=
  match a with
  | Some x => String.eqb x s
  | None => false
  end.

(** [l.indexOf(s) !== -1] on an array of strings. *)
Definition contains (l : list string) (s : string) : bool :=
  existsb (String.eqb s) l.

(** * app/api/cybersecurity/analyze/route.ts *)

Module Analyze.

Record SecurityAnalysisRequest : Type := {
  text : string;
  models : option (list string)
}.

Record VulnerabilityResult : Type := {
  vulnerability_type : string;
  vulnerability_confidence : float
}.

Record NetworkResult : Type := {
  traffic_type : string;
  network_confidence : float
}.

Record IntentResult : Type := {
  intent : string;
  intent_confidence : float
}.

Record SimulationResults : Type := {
  timestamp : string;
  text_length : Z;
  models_used : list string;
  vulnerability_classifier : option VulnerabilityResult;
  network_analyzer : option NetworkResult;
  intent_classifier : option IntentResult;
  overall_threat_level : option string
}.

Record Patterns : Type := {
  xss : list RegExp;
  sql : list RegExp;
  path : list RegExp;
  network_patterns : list RegExp;
  malicious : list RegExp
}.

(** The object is built anew by every call of [simulateAnalysis], so the
    one expression with the [g] flag is tested with [lastIndex] 0. *)
Definition patterns : Patterns := {|
  xss := [LiteralI "<script"; LiteralI "onerror="; LiteralI "<iframe"; LiteralI "javascript:"];
  sql := [SpacedI "union" "select"; SpacedI "drop" "table"; SpacedI "or" "1=1"; LiteralI "';"];
  path := [Literal "../"; LiteralI "%2e%2e"; LiteralI "etc/passwd"];
  network_patterns := [LiteralI "ddos"; SpacedI "port" "scan"; SpacedI "brute" "force"];
  malicious := [LiteralI "hack"; LiteralI "exploit"; LiteralI "bypass"; LiteralI "attack"]
|}.

(** [ps.some(p => p.test(text))] *)
Definition some_test (ps : list RegExp) (text : string) : bool :=
  existsb (fun p => test p text) ps.

(** The sum [threatScore] of [calculateThreatLevel], before the thresholds.
    [results] has type [any] there: the guards use [?.], the reads of
    [confidence] do not. *)
Definition threatScore (results : SimulationResults) : result float :=
  let threatScore := 0%float in
  let! threatScore :=
    if strict_neq (option_map vulnerability_type (vulnerability_classifier results)) "SAFE"
    then let! c := deref (vulnerability_classifier results) "confidence" in
         Ok (threatScore + vulnerability_confidence c * 3)%float
    else Ok threatScore in
  let! threatScore :=
    if strict_neq (option_map traffic_type (network_analyzer results)) "NORMAL"
    then let! c := deref (network_analyzer results) "confidence" in
         Ok (threatScore + network_confidence c * 2)%float
    else Ok threatScore in
  let! threatScore :=
    if strict_eq (option_map intent (intent_classifier results)) "Malicious"
    then let! c := deref (intent_classifier results) "confidence" in
         Ok (threatScore + intent_confidence c * 2.5)%float
    else if strict_eq (option_map intent (intent_classifier results)) "Suspicious"
    then let! c := deref (intent_classifier results) "confidence" in
         Ok (threatScore + intent_confidence c * 1)%float
    else Ok threatScore in
  Ok threatScore.

(** The thresholds that end [calculateThreatLevel]. *)
Definition threat_level (threatScore : float) : string :=
  if (2.5 <=? threatScore)%float then "critical"
  else if (1.5 <=? threatScore)%float then "high"
  else if (0.5 <=? threatScore)%float then "medium"
  else if (0 <? threatScore)%float then "low"
  else "safe".

Definition calculateThreatLevel (results : SimulationResults) : result string :=
  let! score := threatScore results in
  Ok (threat_level score).

Section Simulation.
Context {platform : Platform}.

Definition classify_vulnerability (text : string) : VulnerabilityResult :=
  if some_test (xss patterns) text then
    {| vulnerability_type := "XSS"; vulnerability_confidence := 0.85 |}
  else if some_test (sql patterns) text then
    {| vulnerability_type := "SQL_INJECTION"; vulnerability_confidence := 0.82 |}
  else if some_test (path patterns) text then
    {| vulnerability_type := "PATH_TRAVERSAL"; vulnerability_confidence := 0.80 |}
  else
    {| vulnerability_type := "SAFE"; vulnerability_confidence := 0.95 |}.

Definition classify_network (text : string) : NetworkResult :=
  if includes (toLowerCase text) "ddos" then
    {| traffic_type := "DDOS"; network_confidence := 0.88 |}
  else if includes (toLowerCase text) "port scan" then
    {| traffic_type := "PORT_SCAN"; network_confidence := 0.85 |}
  else if includes (toLowerCase text) "brute force" || includes (toLowerCase text) "failed login" then
    {| traffic_type := "BRUTE_FORCE"; network_confidence := 0.83 |}
  else
    {| traffic_type := "NORMAL"; network_confidence := 0.90 |}.

Definition maliciousCount (text : string) : nat :=
  length (filter (fun p => test p text) (malicious patterns)).

Definition classify_intent (text : string) : IntentResult :=
  if (2 <=? maliciousCount text)%nat then
    {| intent := "Malicious"; intent_confidence := 0.75 |}
  else if (maliciousCount text =? 1)%nat then
    {| intent := "Suspicious"; intent_confidence := 0.65 |}
  else
    {| intent := "Legitimate"; intent_confidence := 0.80 |}.

Definition simulateAnalysis (text : string) (models : list string) : IO SimulationResults :=
  env <- ask ;;
  let results := {|
    timestamp := date_iso env;
    text_length := utf16_length text;
    models_used := models;
    vulnerability_classifier :=
      if contains models "vulnerability_classifier"
      then Some (classify_vulnerability text) else None;
    network_analyzer :=
      if contains models "network_analyzer"
      then Some (classify_network text) else None;
    intent_classifier :=
      if contains models "intent_classifier"
      then Some (classify_intent text) else None;
    overall_threat_level := None
  |} in
  level <- lift (calculateThreatLevel results) ;;
  ret {|
    timestamp := timestamp results;
    text_length := text_length results;
    models_used := models_used results;
    vulnerability_classifier := vulnerability_classifier results;
    network_analyzer := network_analyzer results;
    intent_classifier := intent_classifier results;
    overall_threat_level := Some level
  |}.

Definition default_models : list string :=
  ["vulnerability_classifier"; "network_analyzer"; "intent_classifier"].

(** [models = [...]] in the destructuring of the body. *)
Definition models_or_default (models : option (list string)) : list string :=
  match models with
  | Some m => m
  | None => default_models
  end.

Definition getPythonServerUrl (env : Env) : string :=
  match process_env env "NODE_ENV" with
  | Some "development" => "http://localhost:5000"
  | _ => env_or (process_env env "PYTHON_SECURITY_SERVER_URL") "http://localhost:5000"
  end.

Inductive Body : Type :=
| TextRequired                          (* { error: "Text is required" } *)
| PythonModels (analysis : json)        (* { ...analysis, api_version, source: "python_models" } *)
| Simulation (r : SimulationResults)    (* { ...simulatedResults, api_version, source: "simulation", warning } *)
| InternalServerError.                  (* { error: "Internal server error" } *)

Definition analyze_request (pythonServerUrl text : string) (models : list string) : FetchRequest := {|
  url := pythonServerUrl ++ "/analyze";
  method := "POST";
  payload := Some (JObj [("text", JStr text); ("models", JArr (map JStr models))]);
  signal := None
|}.

(** The log of a threat, [if (analysis.overall_threat_level &&
    analysis.overall_threat_level !== "safe") console.log(`... ${analysis.
    overall_threat_level}`, ...)]: nothing but what it throws, when the level
    it puts in the template literal has no primitive value. *)
Definition threat_log (level : value) : result unit :=
  match level with
  | Some v =>
      if truthy level
         && negb (match v with JStr s => String.eqb s "safe" | _ => false end)
         && has_no_primitive v
      then Throw (mkError "Cannot convert object to primitive value")
      else Ok tt
  | None => Ok tt
  end.

(** [request.json()] is given as its outcome. *)
Definition POST (request : result SecurityAnalysisRequest) : IO (NextResponse Body) :=
  try_catch
    (body <- lift request ;;
     let text := text body in
     let models := models_or_default (models body) in
     if String.eqb text "" then
       ret {| http_status := 400; body := TextRequired |}
     else
       env <- ask ;;
       let pythonServerUrl := getPythonServerUrl env in
       try_catch
         (pythonResponse <- fetch (analyze_request pythonServerUrl text models) ;;
          if ok pythonResponse then
            analysis <- lift (parsed pythonResponse) ;;
            (* the first read of [analysis.overall_threat_level] *)
            level <- lift (prop analysis "overall_threat_level") ;;
            _ <- lift (threat_log level) ;;
            ret {| http_status := 200; body := PythonModels analysis |}
          else
            throw (mkError ("Python server error: " ++ string_of_Z (status pythonResponse))))
         (fun pythonError =>
            simulatedResults <- simulateAnalysis text models ;;
            ret {| http_status := 200; body := Simulation simulatedResults |}))
    (fun error => ret {| http_status := 500; body := InternalServerError |}).

End Simulation.

End Analyze.

(** * app/api/admin-security/route.ts (the version that holds the mock data) *)

Module AdminSecurity.

Inductive ThreatLevel : Type := safe | warning | danger.
Inductive ModelStatus : Type := active | inactive | error.

(** The interface [SecurityAlert] declares [type] and [severity] as unions
    of string literals and [message], [action_taken] and [user_session] as
    strings, but [add_alert] stores what the body of the request holds,
    unchecked: in the store these fields are JSON values. *)
Definition AlertType : Type := json.
Definition vulnerability : AlertType := JStr "vulnerability".
Definition network : AlertType := JStr "network".
Definition intent : AlertType := JStr "intent".
Definition system : AlertType := JStr "system".

Definition Severity : Type := json.
Definition low : Severity := JStr "low".
Definition medium : Severity := JStr "medium".
Definition high : Severity := JStr "high".
Definition critical : Severity := JStr "critical".

Module SystemState.
Record models_status_t : Type := {
  vulnerability_classifier : ModelStatus;
  network_analyzer : ModelStatus;
  intent_classifier : ModelStatus
}.
Record t : Type := {
  blocked : bool;
  threat_level : ThreatLevel;
  active_threats : list json;
  last_scan : string;
  models_status : models_status_t
}.
End SystemState.

Module SecurityAlert.
Record t : Type := {
  id : string;
  type : AlertType;
  severity : Severity;
  message : json;
  timestamp : string;
  action_taken : json;
  details : value;
  user_session : value
}.
End SecurityAlert.

Module UserActivity.
Record t : Type := {
  session_id : string;
  messages_count : Z;
  last_activity : string;
  threat_score : float;
  blocked : bool;
  location : option string
}.
End UserActivity.

(** The module-level variables [systemState], [mockAlerts], [userActivities]. *)
Record Store : Type := {
  systemState : SystemState.t;
  mockAlerts : list SecurityAlert.t;
  userActivities : list UserActivity.t
}.

(** Their values when the module is loaded; [stamp d] is
    [new Date(Date.now() - d).toISOString()] at that time. *)
Definition initial_store (stamp : Z -> string) : Store := {|
  systemState := {|
    SystemState.blocked := false;
    SystemState.threat_level := safe;
    SystemState.active_threats := [];
    SystemState.last_scan := stamp 0%Z;
    SystemState.models_status := {|
      SystemState.vulnerability_classifier := active;
      SystemState.network_analyzer := active;
      SystemState.intent_classifier := active
    |}
  |};
  mockAlerts := [
    {| SecurityAlert.id := "alert_001";
       SecurityAlert.type := vulnerability;
       SecurityAlert.severity := critical;
       SecurityAlert.message := JStr "Tentative d'injection SQL détectée";
       SecurityAlert.timestamp := stamp 300000%Z;
       SecurityAlert.action_taken := JStr "Requête bloquée automatiquement";
       SecurityAlert.details :=
         Some (JObj [("vulnerability_type", JStr "SQL_INJECTION"); ("confidence", JNum 0.92)]);
       SecurityAlert.user_session := Some (JStr "user_123") |};
    {| SecurityAlert.id := "alert_002";
       SecurityAlert.type := intent;
       SecurityAlert.severity := high;
       SecurityAlert.message := JStr "Intention malveillante détectée";
       SecurityAlert.timestamp := stamp 600000%Z;
       SecurityAlert.action_taken := JStr "Session utilisateur surveillée";
       SecurityAlert.details :=
         Some (JObj [("intent", JStr "Malicious"); ("confidence", JNum 0.87)]);
       SecurityAlert.user_session := Some (JStr "user_456") |};
    {| SecurityAlert.id := "alert_003";
       SecurityAlert.type := network;
       SecurityAlert.severity := medium;
       SecurityAlert.message := JStr "Trafic réseau suspect détecté";
       SecurityAlert.timestamp := stamp 900000%Z;
       SecurityAlert.action_taken := JStr "Surveillance renforcée activée";
       SecurityAlert.details :=
         Some (JObj [("traffic_type", JStr "SUSPICIOUS"); ("confidence", JNum 0.75)]);
       SecurityAlert.user_session := None |} ];
  userActivities := [
    {| UserActivity.session_id := "user_123";
       UserActivity.messages_count := 15;
       UserActivity.last_activity := stamp 120000%Z;
       UserActivity.threat_score := 0.8;
       UserActivity.blocked := true;
       UserActivity.location := Some "France" |};
    {| UserActivity.session_id := "user_456";
       UserActivity.messages_count := 8;
       UserActivity.last_activity := stamp 300000%Z;
       UserActivity.threat_score := 0.9;
       UserActivity.blocked := true;
       UserActivity.location := Some "Unknown" |};
    {| UserActivity.session_id := "user_789";
       UserActivity.messages_count := 3;
       UserActivity.last_activity := stamp 60000%Z;
       UserActivity.threat_score := 0.1;
       UserActivity.blocked := false;
       UserActivity.location := Some "Maroc" |} ]
|}.

Definition API_BASE_URL (env : Env) : string :=
  env_or (process_env env "BACKEND_URL") "http://localhost:8000".

(** The bodies of the answers of the two actions. *)
Inductive Body : Type :=
| BlockSuccess (system_state : SystemState.t)    (* { success, message: "Système bloqué avec succès", system_state } *)
| BlockError                                     (* { error: "Erreur lors du blocage" } *)
| UnblockSuccess (system_state : SystemState.t)  (* { success, message: "Système débloqué avec succès", system_state } *)
| UnblockError.                                  (* { error: "Erreur lors du déblocage" } *)

(** [s || d] on a string that may be missing. *)
Definition or_string (s : option string) (d : string) : string :=
  match s with
  | Some x => if String.eqb x "" then d else x
  | None => d
  end.

Definition block_request (env : Env) (reason severity : option string) : FetchRequest := {|
  url := API_BASE_URL env ++ "/api/cybersecurity/block";
  method := "POST";
  payload := Some (JObj [
    ("reason", JStr (or_string reason "Blocage manuel par administrateur"));
    ("severity", JStr (or_string severity "critical"))]);
  signal := None
|}.

(** [case "block_system"] of [POST], for a body [{ action, reason, severity }]. *)
Definition block_system (reason severity : option string) (st : Store)
  : IO (NextResponse Body * Store) :=
  try_catch
    (env <- ask ;;
     response <- fetch (block_request env reason severity) ;;
     let systemState' := {|
       SystemState.blocked := true;
       SystemState.threat_level := danger;
       SystemState.active_threats := SystemState.active_threats (systemState st);
       SystemState.last_scan := SystemState.last_scan (systemState st);
       SystemState.models_status := SystemState.models_status (systemState st)
     |} in
     let blockAlert := {|
       SecurityAlert.id := "alert_" ++ string_of_Z (date_now env);
       SecurityAlert.type := system;
       SecurityAlert.severity := critical;
       SecurityAlert.message := JStr ("Système bloqué: " ++ or_string reason "Blocage manuel");
       SecurityAlert.timestamp := date_iso env;
       SecurityAlert.action_taken := JStr "Système mis en mode sécurisé";
       SecurityAlert.details := Some (JObj [("admin_action", JBool true)]);
       SecurityAlert.user_session := None
     |} in
     ret ({| http_status := 200; body := BlockSuccess systemState' |},
          {| systemState := systemState';
             mockAlerts := blockAlert :: mockAlerts st;
             userActivities := userActivities st |}))
    (fun error => ret ({| http_status := 500; body := BlockError |}, st)).

(** The body of [userActivities.forEach] in [case "unblock_system"]. *)
Definition unblock_user (user : UserActivity.t) : UserActivity.t :=
  if UserActivity.blocked user then {|
    UserActivity.session_id := UserActivity.session_id user;
    UserActivity.messages_count := UserActivity.messages_count user;
    UserActivity.last_activity := UserActivity.last_activity user;
    UserActivity.threat_score := Math_max 0.1 (UserActivity.threat_score user - 0.3);
    UserActivity.blocked := false;
    UserActivity.location := UserActivity.location user
  |} else user.

Definition unblock_request (env : Env) : FetchRequest := {|
  url := API_BASE_URL env ++ "/api/cybersecurity/unblock";
  method := "POST";
  payload := None;
  signal := None
|}.

(** [case "unblock_system"] of [POST]. *)
Definition unblock_system (st : Store) : IO (NextResponse Body * Store) :=
  try_catch
    (env <- ask ;;
     _ <- fetch (unblock_request env) ;;
     let systemState' := {|
       SystemState.blocked := false;
       SystemState.threat_level := safe;
       SystemState.active_threats := [];
       SystemState.last_scan := SystemState.last_scan (systemState st);
       SystemState.models_status := SystemState.models_status (systemState st)
     |} in
     ret ({| http_status := 200; body := UnblockSuccess systemState' |},
          {| systemState := systemState';
             mockAlerts := mockAlerts st;
             userActivities := map unblock_user (userActivities st) |}))
    (fun error => ret ({| http_status := 500; body := UnblockError |}, st)).

(** ** The report *)

(** [v === s] for a string literal [s]: a string, and the same one. *)
Definition strict_equal (v s : json) : bool :=
  match v, s with
  | JStr x, JStr y => String.eqb x y
  | _, _ => false
  end.

Definition Severity_eqb (a b : Severity) : bool := strict_equal a b.

Definition AlertType_eqb (a b : AlertType) : bool := strict_equal a b.

(** [mockAlerts.filter(a => a.severity === s).length] *)
Definition count_severity (s : Severity) (alerts : list SecurityAlert.t) : nat :=
  length (filter (fun a => Severity_eqb (SecurityAlert.severity a) s) alerts).

(** [mockAlerts.filter(a => a.type === t).length] *)
Definition count_type (t : AlertType) (alerts : list SecurityAlert.t) : nat :=
  length (filter (fun a => AlertType_eqb (SecurityAlert.type a) t) alerts).

(** The alerts that none of the four counts by severity holds. *)
Definition uncounted_severity (alerts : list SecurityAlert.t) : nat :=
  length (filter (fun a => negb (Severity_eqb (SecurityAlert.severity a) critical
                                 || Severity_eqb (SecurityAlert.severity a) high
                                 || Severity_eqb (SecurityAlert.severity a) medium
                                 || Severity_eqb (SecurityAlert.severity a) low))
            alerts).

(** The alerts that none of the three counts by type holds: those of type
    system, and those of a type that the interface does not declare. *)
Definition uncounted_type (alerts : list SecurityAlert.t) : nat :=
  length (filter (fun a => negb (AlertType_eqb (SecurityAlert.type a) vulnerability
                                 || AlertType_eqb (SecurityAlert.type a) network
                                 || AlertType_eqb (SecurityAlert.type a) intent))
            alerts).

(** A value that has the method [includes]. *)
Definition has_includes (v : json) : bool :=
  match v with
  | JStr _ | JArr _ => true
  | _ => false
  end.

(** [systemState.threat_level.toUpperCase()] *)
Definition threat_level_upper (l : ThreatLevel) : string :=
  match l with
  | safe => "SAFE"
  | warning => "WARNING"
  | danger => "DANGER"
  end.

Module Report.
Record executive_summary_t : Type := {
  total_alerts : nat;
  critical_threats : nat;
  blocked_users : nat;
  system_status : string;
  threat_level : string
}.
Record by_severity_t : Type := {
  critical : nat;
  high : nat;
  medium : nat;
  low : nat
}.
Record by_type_t : Type := {
  vulnerability : nat;
  network : nat;
  intent : nat
}.
Record alerts_breakdown_t : Type := {
  by_severity : by_severity_t;
  by_type : by_type_t
}.
Record user_activities_t : Type := {
  total_sessions : nat;
  active_sessions : nat;
  blocked_sessions : nat;
  high_risk_sessions : nat;
  detailed_activities : list UserActivity.t
}.
Record model_performance_t : Type := {
  status : ModelStatus;
  accuracy : string;
  detections : nat;
  last_update : string
}.
Record ai_models_performance_t : Type := {
  vulnerability_classifier : model_performance_t;
  network_analyzer : model_performance_t;
  intent_classifier : model_performance_t
}.
Record security_metrics_t : Type := {
  threats_blocked : nat;
  false_positives : nat;
  response_time_avg : string;
  uptime : string
}.
Record t : Type := {
  generated_at : string;
  generated_by : string;
  report_id : string;
  executive_summary : executive_summary_t;
  system_status_of : SystemState.t;        (* the field [system_status] of the report *)
  alerts_breakdown : alerts_breakdown_t;
  user_activities : user_activities_t;
  ai_models_performance : ai_models_performance_t;
  detailed_alerts : list SecurityAlert.t;
  security_metrics : security_metrics_t;
  recommendations : list string;
  next_actions : list string
}.
End Report.

(** [a.action_taken.includes(sub)]: the method of a string or of an array;
    no other value has it, and calling it is a [TypeError]. *)
Definition action_includes (action_taken : json) (sub : string) : result bool :=
  match action_taken with
  | JStr s => Ok (includes s sub)
  | JArr items => Ok (existsb (fun item => strict_equal item (JStr sub)) items)
  | JNull => Throw (mkError "Cannot read properties of null (reading 'includes')")
  | _ => Throw (mkError "a.action_taken.includes is not a function")
  end.

(** [mockAlerts.filter(a => a.action_taken.includes("bloqué")).length]: the
    first alert on which the test throws ends the count. *)
Fixpoint count_blocked (alerts : list SecurityAlert.t) : result nat :=
  match alerts with
  | [] => Ok O
  | a :: rest =>
      let! hit := action_includes (SecurityAlert.action_taken a) "bloqué" in
      let! n := count_blocked rest in
      Ok (if hit then S n else n)
  end.

(** The report, or the error that the count of [threats_blocked] throws:
    with a system state and sessions of the declared types, nothing else in
    the object literal throws. *)
Definition generateSecurityReport (env : Env) (st : Store) : result Report.t :=
  let! threats_blocked := count_blocked (mockAlerts st) in
  Ok {|
  Report.generated_at := date_iso env;
  Report.generated_by := "Security Admin System";
  Report.report_id := "SEC_RPT_" ++ string_of_Z (date_now env);
  Report.executive_summary := {|
    Report.total_alerts := length (mockAlerts st);
    Report.critical_threats := count_severity critical (mockAlerts st);
    Report.blocked_users := length (filter UserActivity.blocked (userActivities st));
    Report.system_status :=
      if SystemState.blocked (systemState st) then "BLOCKED" else "OPERATIONAL";
    Report.threat_level := threat_level_upper (SystemState.threat_level (systemState st))
  |};
  Report.system_status_of := systemState st;
  Report.alerts_breakdown := {|
    Report.by_severity := {|
      Report.critical := count_severity critical (mockAlerts st);
      Report.high := count_severity high (mockAlerts st);
      Report.medium := count_severity medium (mockAlerts st);
      Report.low := count_severity low (mockAlerts st)
    |};
    Report.by_type := {|
      Report.vulnerability := count_type vulnerability (mockAlerts st);
      Report.network := count_type network (mockAlerts st);
      Report.intent := count_type intent (mockAlerts st)
    |}
  |};
  Report.user_activities := {|
    Report.total_sessions := length (userActivities st);
    Report.active_sessions :=
      length (filter (fun u => negb (UserActivity.blocked u)) (userActivities st));
    Report.blocked_sessions := length (filter UserActivity.blocked (userActivities st));
    Report.high_risk_sessions :=
      length (filter (fun u => (0.7 <? UserActivity.threat_score u)%float) (userActivities st));
    Report.detailed_activities := userActivities st
  |};
  Report.ai_models_performance := {|
    Report.vulnerability_classifier := {|
      Report.status := SystemState.vulnerability_classifier
                         (SystemState.models_status (systemState st));
      Report.accuracy := "99.2%";
      Report.detections := count_type vulnerability (mockAlerts st);
      Report.last_update := SystemState.last_scan (systemState st)
    |};
    Report.network_analyzer := {|
      Report.status := SystemState.network_analyzer
                         (SystemState.models_status (systemState st));
      Report.accuracy := "97.8%";
      Report.detections := count_type network (mockAlerts st);
      Report.last_update := SystemState.last_scan (systemState st)
    |};
    Report.intent_classifier := {|
      Report.status := SystemState.intent_classifier
                         (SystemState.models_status (systemState st));
      Report.accuracy := "95.4%";
      Report.detections := count_type intent (mockAlerts st);
      Report.last_update := SystemState.last_scan (systemState st)
    |}
  |};
  Report.detailed_alerts := mockAlerts st;
  Report.security_metrics := {|
    Report.threats_blocked := threats_blocked;
    Report.false_positives := 2;
    Report.response_time_avg := "1.2s";
    Report.uptime := "99.98%"
  |};
  Report.recommendations := [
    "Maintenir la surveillance accrue des sessions à haut risque";
    "Considérer l'ajout de règles de filtrage supplémentaires pour les injections SQL";
    "Planifier une formation de sensibilisation à la sécurité pour les utilisateurs";
    "Évaluer l'efficacité des modèles IA et envisager des mises à jour";
    "Implémenter des alertes en temps réel pour les administrateurs";
    "Renforcer les politiques de mots de passe et d'authentification" ];
  Report.next_actions := [
    "Révision des politiques de sécurité dans 30 jours";
    "Mise à jour des modèles de détection prévue";
    "Audit de sécurité complet recommandé";
    "Formation équipe sécurité planifiée" ]
  |}.

(** [case "generate_report"] of [POST]. *)
Inductive ReportBody : Type :=
| ReportReady (report : Report.t)   (* { success, report, download_ready: true } *)
| ReportError.                      (* { error: "Erreur lors de la génération du rapport" } *)

Definition generate_report (st : Store) : IO (NextResponse ReportBody) :=
  try_catch
    (env <- ask ;;
     report <- lift (generateSecurityReport env st) ;;
     ret {| http_status := 200; body := ReportReady report |})
    (fun error => ret {| http_status := 500; body := ReportError |}).

(** ** add_alert *)

(** The fields of the body that [case "add_alert"] reads: any JSON value,
    or [None] for a field that is missing. *)
Record NewAlert : Type := {
  new_type : value;
  new_severity : value;
  new_message : value;
  new_action_taken : value;
  new_details : value;
  new_user_session : value
}.

(** [v || d] where [d] is truthy. *)
Definition or_else (v : value) (d : json) : json :=
  match v with
  | Some x => if truthy v then x else d
  | None => d
  end.

(** [{ success, alert, total_alerts }] *)
Record AlertAdded : Type := {
  alert : SecurityAlert.t;
  total_alerts : nat
}.

(** [case "add_alert"] of [POST]. *)
Definition add_alert (body : NewAlert) (st : Store) : IO (NextResponse AlertAdded * Store) :=
  env <- ask ;;
  let newAlert := {|
    SecurityAlert.id := "alert_" ++ string_of_Z (date_now env);
    SecurityAlert.type := or_else (new_type body) vulnerability;
    SecurityAlert.severity := or_else (new_severity body) medium;
    SecurityAlert.message := or_else (new_message body) (JStr "Nouvelle menace détectée");
    SecurityAlert.timestamp := date_iso env;
    SecurityAlert.action_taken := or_else (new_action_taken body) (JStr "Alerte créée");
    SecurityAlert.details := js_or (new_details body) (Some (JObj []));
    SecurityAlert.user_session := new_user_session body
  |} in
  let mockAlerts' := newAlert :: mockAlerts st in
  ret ({| http_status := 200;
          body := {| alert := newAlert; total_alerts := length mockAlerts' |} |},
       {| systemState := systemState st;
          mockAlerts := mockAlerts';
          userActivities := userActivities st |}).

(** ** PUT *)

(** [settings], with the types that the state declares for what it is
    assigned to; a field is [None] when it is missing. *)
Record ModelsUpdate : Type := {
  vulnerability_classifier_opt : option ModelStatus;
  network_analyzer_opt : option ModelStatus;
  intent_classifier_opt : option ModelStatus
}.

Record Settings : Type := {
  settings_models_status : option ModelsUpdate;
  settings_threat_level : option ThreatLevel;
  settings_session_id : option string;
  settings_blocked : option bool;
  settings_threat_score : option float
}.

Record PutRequest : Type := {
  config_type : option string;
  settings : option Settings
}.

Inductive PutBody : Type :=
| ConfigUpdated (updated_state : SystemState.t)
    (* { success, message: "Configuration mise à jour", updated_state } *)
| ConfigUnknown      (* { error: "Type de configuration non reconnu" } *)
| PutError.          (* { error: "Erreur lors de la mise à jour" } *)

Definition or_status (o : option ModelStatus) (d : ModelStatus) : ModelStatus :=
  match o with
  | Some s => s
  | None => d
  end.

(** [{ ...systemState.models_status, ...settings.models_status }] *)
Definition merge_models (old : SystemState.models_status_t) (new : ModelsUpdate)
  : SystemState.models_status_t := {|
  SystemState.vulnerability_classifier :=
    or_status (vulnerability_classifier_opt new) (SystemState.vulnerability_classifier old);
  SystemState.network_analyzer :=
    or_status (network_analyzer_opt new) (SystemState.network_analyzer old);
  SystemState.intent_classifier :=
    or_status (intent_classifier_opt new) (SystemState.intent_classifier old)
|}.

(** [userActivities.findIndex(u => u.session_id === id)]; [None] is -1. *)
Fixpoint findIndex (id : string) (users : list UserActivity.t) : option nat :=
  match users with
  | [] => None
  | u :: rest =>
      if String.eqb (UserActivity.session_id u) id then Some O
      else option_map S (findIndex id rest)
  end.

(** The two assignments to [userActivities[userIndex]]. *)
Definition update_user (blocked : bool) (threat_score : option float) (u : UserActivity.t)
  : UserActivity.t := {|
  UserActivity.session_id := UserActivity.session_id u;
  UserActivity.messages_count := UserActivity.messages_count u;
  UserActivity.last_activity := UserActivity.last_activity u;
  UserActivity.threat_score :=
    match threat_score with
    | Some score => score
    | None => UserActivity.threat_score u
    end;
  UserActivity.blocked := blocked;
  UserActivity.location := UserActivity.location u
|}.

(** [users[i] = f(users[i])] for an index in range. *)
Fixpoint update_at (i : nat) (f : UserActivity.t -> UserActivity.t)
    (users : list UserActivity.t) : list UserActivity.t :=
  match users, i with
  | [], _ => []
  | u :: rest, O => f u :: rest
  | u :: rest, S i' => u :: update_at i' f rest
  end.

Definition with_systemState (s : SystemState.t) (st : Store) : Store := {|
  systemState := s;
  mockAlerts := mockAlerts st;
  userActivities := userActivities st
|}.

(** The [switch] of [PUT]: the store after it, or [None] for its [default]
    branch; reading a field of [settings] throws when there are none. *)
Definition configure (config_type : option string) (settings : option Settings) (st : Store)
  : result (option Store) :=
  match config_type with
  | Some "models" =>
      let! settings := deref settings "models_status" in
      match settings_models_status settings with
      | Some models_status =>
          Ok (Some (with_systemState {|
            SystemState.blocked := SystemState.blocked (systemState st);
            SystemState.threat_level := SystemState.threat_level (systemState st);
            SystemState.active_threats := SystemState.active_threats (systemState st);
            SystemState.last_scan := SystemState.last_scan (systemState st);
            SystemState.models_status :=
              merge_models (SystemState.models_status (systemState st)) models_status
          |} st))
      | None => Ok (Some st)
      end
  | Some "threat_level" =>
      let! settings := deref settings "threat_level" in
      match settings_threat_level settings with
      | Some threat_level =>
          Ok (Some (with_systemState {|
            SystemState.blocked := SystemState.blocked (systemState st);
            SystemState.threat_level := threat_level;
            SystemState.active_threats := SystemState.active_threats (systemState st);
            SystemState.last_scan := SystemState.last_scan (systemState st);
            SystemState.models_status := SystemState.models_status (systemState st)
          |} st))
      | None => Ok (Some st)
      end
  | Some "user_session" =>
      let! settings := deref settings "session_id" in
      match settings_session_id settings, settings_blocked settings with
      | Some session_id, Some blocked =>
          if String.eqb session_id "" then Ok (Some st)
          else
            match findIndex session_id (userActivities st) with
            | Some userIndex =>
                Ok (Some {|
                  systemState := systemState st;
                  mockAlerts := mockAlerts st;
                  userActivities :=
                    update_at userIndex (update_user blocked (settings_threat_score settings))
                      (userActivities st)
                |})
            | None => Ok (Some st)
            end
      | _, _ => Ok (Some st)
      end
  | _ => Ok None
  end.

(** [request.json()] is given as its outcome. *)
Definition PUT (request : result PutRequest) (st : Store) : IO (NextResponse PutBody * Store) :=
  try_catch
    (body <- lift request ;;
     configured <- lift (configure (config_type body) (settings body) st) ;;
     match configured with
     | Some st' =>
         ret ({| http_status := 200; body := ConfigUpdated (systemState st') |}, st')
     | None => ret ({| http_status := 400; body := ConfigUnknown |}, st)
     end)
    (fun error => ret ({| http_status := 500; body := PutError |}, st)).

(** ** DELETE *)

Inductive DeleteBody : Type :=
| AlertsCleared      (* { success, message: "Toutes les alertes ont été supprimées" } *)
| AlertDeleted       (* { success, message: "Alerte supprimée avec succès" } *)
| AlertNotFound      (* { error: "Alerte non trouvée" } *)
| SystemReset        (* { success, message: "Système réinitialisé avec succès" } *)
| ActionUnknown.     (* { error: "Action non reconnue" } *)

(** The body of [userActivities.forEach] in [case "reset_system"]. *)
Definition reset_user (user : UserActivity.t) : UserActivity.t := {|
  UserActivity.session_id := UserActivity.session_id user;
  UserActivity.messages_count := UserActivity.messages_count user;
  UserActivity.last_activity := UserActivity.last_activity user;
  UserActivity.threat_score := 0.1;
  UserActivity.blocked := false;
  UserActivity.location := UserActivity.location user
|}.

(** [action] and [alertId] are [searchParams.get(...)]: a string, or [None]
    for [null].  The answer is [None] where the handler leaves its [switch]
    by [break] and returns nothing. *)
Definition DELETE (action alertId : option string) (st : Store)
  : IO (option (NextResponse DeleteBody) * Store) :=
  match action with
  | Some "clear_alerts" =>
      ret (Some {| http_status := 200; body := AlertsCleared |},
           {| systemState := systemState st;
              mockAlerts := [];
              userActivities := userActivities st |})
  | Some "delete_alert" =>
      match alertId with
      | Some alertId =>
          if String.eqb alertId "" then ret (None, st)
          else
            let initialLength := length (mockAlerts st) in
            let mockAlerts' :=
              filter (fun alert => negb (String.eqb (SecurityAlert.id alert) alertId))
                (mockAlerts st) in
            let st' := {| systemState := systemState st;
                          mockAlerts := mockAlerts';
                          userActivities := userActivities st |} in
            if (length mockAlerts' <? initialLength)%nat then
              ret (Some {| http_status := 200; body := AlertDeleted |}, st')
            else
              ret (Some {| http_status := 404; body := AlertNotFound |}, st')
      | None => ret (None, st)
      end
  | Some "reset_system" =>
      env <- ask ;;
      ret (Some {| http_status := 200; body := SystemReset |},
           {| systemState := {|
                SystemState.blocked := false;
                SystemState.threat_level := safe;
                SystemState.active_threats := [];
                SystemState.last_scan := date_iso env;
                SystemState.models_status := {|
                  SystemState.vulnerability_classifier := active;
                  SystemState.network_analyzer := active;
                  SystemState.intent_classifier := active
                |}
              |};
              mockAlerts := [];
              userActivities := map reset_user (userActivities st) |})
  | _ => ret (Some {| http_status := 400; body := ActionUnknown |}, st)
  end.

(** ** Any request that changes the store *)

Inductive Operation : Type :=
| BlockSystem (reason severity : option string)
| UnblockSystem
| AddAlert (body : NewAlert)
| Put (request : result PutRequest)
| Delete (action alertId : option string).

(** The store after a request. *)
Definition perform (op : Operation) (st : Store) : IO Store :=
  match op with
  | BlockSystem reason severity => '(_, st') <- block_system reason severity st ;; ret st'
  | UnblockSystem => '(_, st') <- unblock_system st ;; ret st'
  | AddAlert body => '(_, st') <- add_alert body st ;; ret st'
  | Put request => '(_, st') <- PUT request st ;; ret st'
  | Delete action alertId => '(_, st') <- DELETE action alertId st ;; ret st'
  end.

End AdminSecurity.

(** * app/api/chat/route.ts *)

Module Chat.

(** An object literal, entry by entry: [...v] or [k: v]. *)
Inductive entry : Type :=
| Spread (v : value)
| Field (k : string) (v : value).

(** The value of key [k] in the object a literal builds, for a key that is
    not an array index: the last entry that defines [k] wins. *)
Fixpoint lookup_rev (k : string) (rev_entries : list entry) : value :=
  match rev_entries with
  | [] => None
  | Field k' v :: rest => if String.eqb k k' then v else lookup_rev k rest
  | Spread (Some (JObj fields)) :: rest =>
      match assoc k fields with
      | Some v => Some v
      | None => lookup_rev k rest
      end
  | Spread _ :: rest => lookup_rev k rest
  end.

Definition lookup (k : string) (entries : list entry) : value :=
  lookup_rev k (rev entries).

Record ChatResponse : Type := {
  content : value;
  metadata : list entry
}.

(** [metadata.source] of an answer. *)
Definition source (r : NextResponse ChatResponse) : value :=
  lookup "source" (metadata (body r)).

Record AdaptedBody : Type := {
  query : string;
  session_id : json
}.

Definition json_of_adapted (b : AdaptedBody) : json :=
  JObj [("query", JStr (query b)); ("session_id", session_id b)].

Definition API_BASE_URL (env : Env) : string :=
  env_or (process_env env "BACKEND_URL")
    (env_or (process_env env "NEXT_PUBLIC_API_URL") "http://localhost:8000").

Definition primary_request (env : Env) (adaptedBody : AdaptedBody) : FetchRequest := {|
  url := API_BASE_URL env ++ "/api/agentic/chat";
  method := "POST";
  payload := Some (json_of_adapted adaptedBody);
  signal := Some 30000%Z
|}.

Definition fallback_request (adaptedBody : AdaptedBody) : FetchRequest := {|
  url := "http://localhost:3000/api/agentic-networkx";
  method := "POST";
  payload := Some (json_of_adapted adaptedBody);
  signal := Some 15000%Z
|}.

Definition pricing_template : string :=
  "🏷️ **Tarifs TeamSquare :**

💰 **Starter** : 9€/mois par utilisateur
   • Jusqu'à 10 utilisateurs
   • 5GB de stockage
   • Support email

💰 **Professional** : 19€/mois par utilisateur  
   • Utilisateurs illimités
   • 100GB de stockage
   • Support prioritaire

💰 **Enterprise** : Sur devis
   • Tout du plan Pro
   • Stockage illimité
   • Support dédié

Quel plan vous intéresse le plus ?".

Definition features_template : string :=
  "🚀 **Fonctionnalités TeamSquare :**

**Collaboration :**
• Chat en temps réel
• Partage de fichiers sécurisé
• Espaces de travail collaboratifs

**Gestion de projet :**
• Suivi des tâches
• Planification d'équipe
• Rapports de progression

**Communication :**
• Visioconférences intégrées
• Notifications intelligentes

Quelle fonctionnalité vous intéresse le plus ?".

Definition greeting_template : string :=
  "Bonjour ! 👋 Je suis l'assistant TeamSquare. Comment puis-je vous aider aujourd'hui ? Je peux vous renseigner sur nos tarifs, fonctionnalités, ou toute autre question.".

Definition about_template : string :=
  "**TeamSquare** est une plateforme de collaboration moderne qui aide les équipes à :

🤝 **Collaborer efficacement** avec des outils intégrés
📊 **Gérer leurs projets** de manière intuitive
💬 **Communiquer en temps réel** 
🔒 **Sécuriser leurs données** avec un niveau entreprise

Notre mission est de simplifier le travail d'équipe et d'améliorer la productivité.

Que souhaitez-vous savoir de plus ?".

Definition generic_template (query : string) : string :=
  "Merci pour votre question : " ++ quote ++ query ++ quote ++ "

Je suis l'assistant TeamSquare et je peux vous aider avec :
• 💰 Informations sur nos tarifs
• 🚀 Présentation des fonctionnalités
• 📞 Support technique
• 🏢 Solutions entreprise

En raison d'un problème technique temporaire, je fonctionne en mode simplifié. N'hésitez pas à reformuler votre question ou à être plus spécifique.".

Section Route.
Context {platform : Platform}.

(** The text that [generateLocalResponse] puts in [response]. *)
Definition local_text (query : string) : string :=
  let queryLower := toLowerCase query in
  if includes queryLower "prix" || includes queryLower "tarif" || includes queryLower "coût" then
    pricing_template
  else if includes queryLower "fonctionnalité" || includes queryLower "feature"
          || includes queryLower "fonction" then
    features_template
  else if includes queryLower "bonjour" || includes queryLower "salut"
          || includes queryLower "hello" then
    greeting_template
  else if includes queryLower "teamsquare" || includes queryLower "team square" then
    about_template
  else
    generic_template query.

Definition generateLocalResponse (query : string) (session_id : json)
  : IO (NextResponse ChatResponse) :=
  env <- ask ;;
  ret {| http_status := 200;
         body := {|
           content := Some (JStr (local_text query));
           metadata := [
             Field "source" (Some (JStr "local_fallback"));
             Field "session_id" (Some session_id);
             Field "timestamp" (Some (JStr (date_iso env)));
             Field "fallback_reason" (Some (JStr "Backend unavailable"));
             Field "local_generation" (Some (JBool true)) ]
         |} |}.

Definition tryFallbackAPI (adaptedBody : AdaptedBody) : IO (NextResponse ChatResponse) :=
  answered <-
    try_catch
      (fallbackResponse <- fetch (fallback_request adaptedBody) ;;
       if ok fallbackResponse then
         fallbackData <- lift (parsed fallbackResponse) ;;
         content <- lift (prop fallbackData "content") ;;
         metadata <- lift (prop fallbackData "metadata") ;;
         ret (Some {|
           http_status := 200%Z;
           body := {|
             content := content;
             metadata := [
               Spread metadata;
               Field "source" (Some (JStr "fallback_api"));
               Field "fallback_used" (Some (JBool true)) ]
           |} |})
       else ret None)
      (fun fallbackError => ret None) ;;
  match answered with
  | Some response => ret response
  | None => generateLocalResponse (query adaptedBody) (session_id adaptedBody)
  end.

(** [body.message?.substring(0, 50)]: a call of [undefined] when the message
    is neither missing nor a string. *)
Definition substring_call (message : value) : result unit :=
  match message with
  | None | Some JNull | Some (JStr _) => Ok tt
  | Some _ => Throw (mkError "body.message?.substring is not a function")
  end.

Definition is_string (v : value) : bool :=
  match v with
  | Some (JStr _) => true
  | _ => false
  end.

Definition is_undefined (v : value) : bool :=
  match v with
  | None => true
  | Some _ => false
  end.

(** A value that was checked to be a string. *)
Definition as_string (v : value) : string :=
  match v with
  | Some (JStr s) => s
  | _ => ""
  end.

(** [body.session_id || "default"] *)
Definition session_or_default (session_id : value) : json :=
  match js_or session_id (Some (JStr "default")) with
  | Some v => v
  | None => JStr "default"
  end.

(** [request.json()] is given as its outcome; every value thrown is an
    [Error].  [response.text()], read only to be logged before the fallback
    is tried, is left out: were it to reject, the handler of the same [try]
    tries the fallback as well. *)
Definition POST (request : result json) : IO (NextResponse ChatResponse) :=
  try_catch
    (body <- lift request ;;
     message <- lift (prop body "message") ;;
     _ <- lift (substring_call message) ;;
     session_id <- lift (prop body "session_id") ;;
     if negb (truthy message) || negb (is_string message) then
       ret {| http_status := 400;
              body := {|
                content := Some (JStr "Message invalide. Veuillez saisir un message valide.");
                metadata := [
                  Field "error" (Some (JStr "Invalid message format"));
                  Field "source" (Some (JStr "validation")) ]
              |} |}
     else
       env <- ask ;;
       let adaptedBody := {|
         query := as_string message;
         session_id := session_or_default session_id
       |} in
       try_catch
         (response <- fetch (primary_request env adaptedBody) ;;
          if negb (ok response) then
            tryFallbackAPI adaptedBody
          else
            data <- lift (parsed response) ;;
            content <- lift (prop data "content") ;;
            metadata <- lift (prop data "metadata") ;;
            if negb (truthy (Some data)) || is_undefined content then
              tryFallbackAPI adaptedBody
            else
              ret {| http_status := 200;
                     body := {|
                       content := content;
                       metadata := [
                         Spread metadata;
                         Field "source"
                           (js_or (opt_prop metadata "source") (Some (JStr "agentic_agent")));
                         Field "timestamp" (Some (JStr (date_iso env)));
                         Field "api_version" (Some (JStr "1.0.0")) ]
                     |} |})
         (fun fetchError => tryFallbackAPI adaptedBody))
    (fun error =>
       env <- ask ;;
       ret {| http_status := 500;
              body := {|
                content := Some (JStr "Désolé, je rencontre un problème technique. Veuillez réessayer dans quelques instants.");
                metadata := [
                  Field "error" (Some (JStr (message error)));
                  Field "source" (Some (JStr "error_handler"));
                  Field "timestamp" (Some (JStr (date_iso env))) ]
              |} |}).

End Route.

(** ** GET: the health of the backend *)

Inductive HealthBody : Type :=
| Healthy (backend_status : json) (api_base_url : string)
    (* { status: "healthy", backend_status, api_base_url } *)
| Degraded (error : string) (api_base_url : string).
    (* { status: "degraded", error, fallback_available: true, api_base_url } *)

Definition health_request (env : Env) : FetchRequest := {|
  url := API_BASE_URL env ++ "/api/agentic/health";
  method := "GET";
  payload := None;
  signal := Some 5000%Z
|}.

Definition GET : IO (NextResponse HealthBody) :=
  try_catch
    (env <- ask ;;
     response <- fetch (health_request env) ;;
     if ok response then
       data <- lift (parsed response) ;;
       ret {| http_status := 200%Z; body := Healthy data (API_BASE_URL env) |}
     else
       throw (mkError ("Backend health check failed: " ++ string_of_Z (status response))))
    (fun error =>
       env <- ask ;;
       ret {| http_status := 503%Z; body := Degraded (message error) (API_BASE_URL env) |}).

End Chat.

(** * lib/api-config.ts: the transport wrapper [apiCall] *)

Module ApiConfig.

Record ApiConfig : Type := {
  baseUrl : string;
  timeout : Z;
  retries : Z;
  retryDelay : Z
}.

(** [Partial<ApiConfig>] *)
Record PartialConfig : Type := {
  baseUrl_opt : option string;
  timeout_opt : option Z;
  retries_opt : option Z;
  retryDelay_opt : option Z
}.




Definition DEFAULT_API_CONFIG (env : Env) : ApiConfig := {|
  baseUrl := env_or (process_env env "BACKEND_URL")
               (env_or (process_env env "NEXT_PUBLIC_API_URL") "http://localhost:8000");
  timeout := 30000;
  retries := 2;
  retryDelay := 1000
|}.

Definition or_default {A} (o : option A) (d : A) : A :=
  match o with
  | Some a => a
  | None => d
  end.







Section Call.
Context {platform : Platform}.




End Call.

(** ** chatApiCall *)

Definition API_ENDPOINTS_HEALTH : string := "/api/agentic/health".



(** [config = {}] *)
Definition no_config : PartialConfig := {|
  baseUrl_opt := None;
  timeout_opt := None;
  retries_opt := None;
  retryDelay_opt := None
|}.






Module Health.
Record t : Type := {
  backend : bool;
  fallback : bool;
  timestamp : string
}.
End Health.

Definition backend_health_request (env : Env) : FetchRequest := {|
  url := baseUrl (DEFAULT_API_CONFIG env) ++ API_ENDPOINTS_HEALTH;
  method := "GET";
  payload := None;
  signal := Some 5000%Z
|}.

Definition fallback_health_request : FetchRequest := {|
  url := "/api/agentic-networkx";
  method := "GET";
  payload := None;
  signal := Some 5000%Z
|}.

(** One [try { results.x = (await fetch(...)).ok } catch { results.x = false }]. *)
Definition probe (req : FetchRequest) : IO bool :=
  try_catch
    (response <- fetch req ;;
     ret (ok response))
    (fun _ => ret false).

Definition checkApiHealth : IO Health.t :=
  env <- ask ;;
  let timestamp := date_iso env in
  backend <- probe (backend_health_request env) ;;
  fallback <- probe fallback_health_request ;;
  ret {| Health.backend := backend;
         Health.fallback := fallback;
         Health.timestamp := timestamp |}.

Section ChatCall.
Context {platform : Platform}.




End ChatCall.

End ApiConfig.

(** * app/api/cybersecurity/analyze/route.ts: GET *)

Module AnalyzeHealth.

Definition health_request (pythonServerUrl : string) : FetchRequest := {|
  url := pythonServerUrl ++ "/health";
  method := "GET";
  payload := None;
  signal := None
|}.

(** The body of the answer is an object literal, given entry by entry. *)
Definition GET : IO (NextResponse (list Chat.entry)) :=
  env <- ask ;;
  let pythonServerUrl := Analyze.getPythonServerUrl env in
  try_catch
    (response <- fetch (health_request pythonServerUrl) ;;
     if ok response then
       health <- lift (parsed response) ;;
       ret {| http_status := 200%Z;
              body := [ Chat.Field "status" (Some (JStr "connected"));
                        Chat.Field "python_server" (Some (JStr pythonServerUrl));
                        Chat.Spread (Some health) ] |}
     else
       throw (mkError "Python server not responding"))
    (fun error =>
       ret {| http_status := 200%Z;
              body := [ Chat.Field "status" (Some (JStr "disconnected"));
                        Chat.Field "python_server" (Some (JStr pythonServerUrl));
                        Chat.Field "error"
                          (Some (JStr "Python server unavailable - using simulation mode")) ] |}).

End AnalyzeHealth.

(** * app/api/admin-security/route.ts, the version that is a proxy: GET *)

Module AdminProxy.

Definition FASTAPI_URL (env : Env) : string :=
  env_or (process_env env "NEXT_PUBLIC_API_URL") "http://localhost:8000".

(** [queryString] is [request.nextUrl.searchParams.toString()]. *)
Definition get_request (env : Env) (queryString : string) : FetchRequest := {|
  url := FASTAPI_URL env ++ "/api/admin-security"
         ++ (if String.eqb queryString "" then "" else "?" ++ queryString);
  method := "GET";
  payload := None;
  signal := None
|}.

Definition active_models : json :=
  JObj [("vulnerability_classifier", JStr "active");
        ("network_analyzer", JStr "active");
        ("intent_classifier", JStr "active")].

(** [o.k = v] on the fields of an object, in the order that
    [JSON.stringify] writes them: the value of a key that is there is
    replaced where it stands, a new key comes last. *)
Fixpoint set_field (k : string) (v : json) (fields : list (string * json))
  : list (string * json) :=
  match fields with
  | [] => [(k, v)]
  | (k', v') :: rest =>
      if String.eqb k k' then (k, v) :: rest else (k', v') :: set_field k v rest
  end.

(** [if (data.system_state && !data.system_state.models_status)
      data.system_state.models_status = {...}], and [data] afterwards.  The
    module is in strict mode: the assignment throws on a number, a string
    or [true]; on an array it sets a property that [JSON.stringify] leaves
    out. *)
Definition ensure_models_status (data : json) : result json :=
  let! system_state := prop data "system_state" in
  if truthy system_state && negb (truthy (opt_prop system_state "models_status")) then
    match data, system_state with
    | JObj fields, Some (JObj state) =>
        Ok (JObj (set_field "system_state"
                    (JObj (set_field "models_status" active_models state)) fields))
    | _, Some (JArr _) => Ok data
    | _, _ => Throw (mkError "Cannot create property 'models_status'")
    end
  else Ok data.

(** The answer when the server cannot be had: an empty state. *)
Definition unavailable (env : Env) : json :=
  JObj [("system_state",
         JObj [("blocked", JBool false);
               ("threat_level", JStr "safe");
               ("block_reason", JNull);
               ("last_block_time", JNull);
               ("active_sessions", JObj []);
               ("total_threats_detected", JNum 0);
               ("last_scan", JStr (date_iso env));
               ("active_threats", JArr []);
               ("models_status",
                JObj [("vulnerability_classifier", JStr "inactive");
                      ("network_analyzer", JStr "inactive");
                      ("intent_classifier", JStr "inactive")])]);
        ("alerts", JArr []);
        ("user_activities", JArr []);
        ("timestamp", JStr (date_iso env));
        ("error", JStr "FastAPI server not available");
        ("fastapi_url", JStr (FASTAPI_URL env))].

Definition GET (queryString : string) : IO (NextResponse json) :=
  try_catch
    (env <- ask ;;
     response <- fetch (get_request env queryString) ;;
     if negb (ok response) then
       throw (mkError ("FastAPI responded with status: " ++ string_of_Z (status response)))
     else
       data <- lift (parsed response) ;;
       data <- lift (ensure_models_status data) ;;
       ret {| http_status := 200%Z; body := data |})
    (fun error =>
       env <- ask ;;
       ret {| http_status := 200%Z; body := unavailable env |}).

End AdminProxy.

(** * The route that runs the NetworkX agent: POST *)

Module Networkx.

(** What the route takes from the process it runs in: the outcome of
    [execAsync(command)], [stdout] and [stderr] or a rejection;
    [JSON.parse]; [Number.parseFloat]. *)
Class Runtime : Type := {
  execAsync : string -> result (string * string);
  JSON_parse : string -> result json;
  parseFloat : string -> float
}.

Definition backslash : ascii := ascii_of_nat 92.
Definition apostrophe : ascii := ascii_of_nat 39.
Definition newline : string := String (ascii_of_nat 10) EmptyString.

(** [s.replace(/'/g, "\\'")] *)
Fixpoint escape_quotes (s : string) : string :=
  match s with
  | EmptyString => EmptyString
  | String c rest =>
      if Ascii.eqb c apostrophe
      then String backslash (String apostrophe (escape_quotes rest))
      else String c (escape_quotes rest)
  end.

(** [name.replace(/'/g, "\\'")] on the value [v] of the variable [name]:
    only a string has the method; the [TypeError] names the call, or the
    property read on [null]. *)
Definition replace_quotes (name : string) (v : value) : result string :=
  match v with
  | Some (JStr s) => Ok (escape_quotes s)
  | Some JNull =>
      Throw (mkError "Cannot read properties of null (reading 'replace')")
  | None =>
      Throw (mkError "Cannot read properties of undefined (reading 'replace')")
  | Some _ => Throw (mkError (name ++ ".replace is not a function"))
  end.

(** The template of the command, around the two escaped texts. *)
Definition command_head : string :=
  "python -c " ++ quote ++ "
import sys
sys.path.append('.')
from agents.support_agent.agentic_support_agent_networkx import AgenticSupportAgentNetworkX
agent = AgenticSupportAgentNetworkX()
response = agent.process_query('".

Definition command_tail : string :=
  "')
confidence = agent.last_confidence_score
stats = agent.get_stats()
print('RESPONSE_START')
print(response)
print('RESPONSE_END')
print('CONFIDENCE_START')
print(confidence)
print('CONFIDENCE_END')
print('STATS_START')
import json
print(json.dumps(stats))
print('STATS_END')
" ++ quote.

Definition command (query session_id : string) : string :=
  command_head ++ query ++ "', '" ++ session_id ++ command_tail.

(** The text before and the text after the first occurrence of [marker]. *)
Fixpoint split_at (marker s : string) : option (string * string) :=
  if String.prefix marker s then Some (EmptyString, drop (String.length marker) s)
  else
    match s with
    | EmptyString => None
    | String c rest =>
        match split_at marker rest with
        | Some (before, after) => Some (String c before, after)
        | None => None
        end
    end.

(** The group of [stdout.match(/NAME_START\n([\s\S]*?)\nNAME_END/)]: the
    text between the first [NAME_START\n] and the first [\nNAME_END] after
    it. *)
Definition section_of (name stdout : string) : option string :=
  match split_at (name ++ "_START" ++ newline) stdout with
  | Some (_, rest) =>
      match split_at (newline ++ name ++ "_END") rest with
      | Some (group, _) => Some group
      | None => None
      end
  | None => None
  end.

Record Metadata : Type := {
  confidence : float;
  sources_count : value;
  graph_hits : value;
  memory_hits : value;
  response_time : value;
  provider : string;
  memory_context_used : bool;
  session_id : string;
  timestamp : string
}.

Inductive Body : Type :=
| Reply (content : string) (metadata : Metadata)   (* { content, metadata } *)
| QueryRequired                     (* { error: "Query parameter is required" } *)
| Failed (details : string).        (* { error: "Failed to process request", details } *)

Definition apology : string := "Désolé, je n'ai pas pu générer de réponse.".

(** [session_id = "default"] in the destructuring of the body: the default
    stands for [undefined] only. *)
Definition or_default (session_id : value) : value :=
  match session_id with
  | None => Some (JStr "default")
  | Some v => Some v
  end.

Section Route.
Context {runtime : Runtime}.

(** [request.json()] is given as its outcome. *)
Definition POST (request : result json) : IO (NextResponse Body) :=
  try_catch
    (body <- lift request ;;
     query <- lift (prop body "query") ;;
     session_id <- lift (prop body "session_id") ;;
     let session_id := or_default session_id in
     if negb (truthy query) then
       ret {| http_status := 400; body := QueryRequired |}
     else
       escaped_query <- lift (replace_quotes "query" query) ;;
       escaped_session <- lift (replace_quotes "session_id" session_id) ;;
       '(stdout, stderr) <- lift (execAsync (command escaped_query escaped_session)) ;;
       let response :=
         match section_of "RESPONSE" stdout with
         | Some group => group
         | None => apology
         end in
       let confidence :=
         match section_of "CONFIDENCE" stdout with
         | Some group => parseFloat group
         | None => 0%float
         end in
       stats <- lift (match section_of "STATS" stdout with
                      | Some group => JSON_parse group
                      | None => Ok (JObj [])
                      end) ;;
       vector_hits <- lift (prop stats "vector_hits") ;;
       graph_hits <- lift (prop stats "graph_hits") ;;
       memory_hits <- lift (prop stats "memory_hits") ;;
       avg_response_time <- lift (prop stats "avg_response_time") ;;
       env <- ask ;;
       ret {| http_status := 200;
              body := Reply response {|
                confidence := confidence;
                sources_count := js_or vector_hits (Some (JNum 0));
                graph_hits := js_or graph_hits (Some (JNum 0));
                memory_hits := js_or memory_hits (Some (JNum 0));
                response_time := js_or avg_response_time (Some (JNum 0));
                provider := "networkx_hybrid";
                memory_context_used := true;
                session_id :=
                  match session_id with
                  | Some (JStr s) => s
                  | _ => EmptyString
                  end;
                timestamp := date_iso env
              |} |})
    (fun error =>
       ret {| http_status := 500; body := Failed (message error) |}).

End Route.

End Networkx.

(** * app/page.tsx: the handlers that send a message *)

Module Page.

Inductive ThreatLevel : Type := safe | warning | danger.
Inductive AlertType : Type := vulnerability | network | intent.
Inductive Severity : Type := low | medium | high | critical.

Module SecurityAlert.
Record t : Type := {
  id : string;
  type : AlertType;
  severity : Severity;
  message : string;
  timestamp : string;
  action_taken : string
}.
End SecurityAlert.

Module Message.
Inductive Sender : Type := user | assistant | security.
Record t : Type := {
  id : string;
  content : value;            (* a string, or what the reply of a route holds *)
  sender : Sender;
  timestamp : string;
  agent : option string;
  metadata : value
}.
End Message.

(** The state of the component [Home] that the handlers read or set. *)
Record State : Type := {
  messages : list Message.t;
  selectedAgent : string;
  isSystemBlocked : bool;
  securityAlerts : list SecurityAlert.t;
  threatLevel : ThreatLevel;
  isAnalyzing : bool
}.

Definition initial_state : State := {|
  messages := [];
  selectedAgent := "support";
  isSystemBlocked := false;
  securityAlerts := [];
  threatLevel := safe;
  isAnalyzing := false
|}.

Definition setIsAnalyzing (b : bool) (s : State) : State := {|
  messages := messages s;
  selectedAgent := selectedAgent s;
  isSystemBlocked := isSystemBlocked s;
  securityAlerts := securityAlerts s;
  threatLevel := threatLevel s;
  isAnalyzing := b
|}.

Record SecurityCheck : Type := {
  hasThreats : bool;
  alerts : list SecurityAlert.t;
  analysis : json
}.

Definition analyze_request (message : string) : FetchRequest := {|
  url := "/api/cybersecurity/analyze";
  method := "POST";
  payload := Some (JObj [
    ("text", JStr message);
    ("models", JArr [JStr "vulnerability_classifier"; JStr "network_analyzer";
                     JStr "intent_classifier"])]);
  signal := None
|}.

Definition chat_request (message : string) (s : State) (analysis : json) : FetchRequest := {|
  url := "/api/chat";
  method := "POST";
  payload := Some (JObj [
    ("message", JStr message);
    ("agent", JStr (selectedAgent s));
    ("session_id", JStr "default");
    ("security_analysis", analysis)]);
  signal := None
|}.

(** [v === s] and [v !== s] for a value read from JSON data. *)
Definition is_str (v : value) (s : string) : bool :=
  match v with
  | Some (JStr x) => String.eqb x s
  | _ => false
  end.

Section Handlers.
Context {platform : Platform}.

(** The alerts that [analyzeMessageSecurity] pushes for an analysis. *)
Definition alerts_of (env : Env) (analysis : json) : result (list SecurityAlert.t) :=
  let! vulnerabilityResult := prop analysis "vulnerability_classifier" in
  let! networkResult := prop analysis "network_analyzer" in
  let! intentResult := prop analysis "intent_classifier" in
  Ok ((if truthy vulnerabilityResult
          && negb (is_str (opt_prop vulnerabilityResult "vulnerability_type") "SAFE")
       then [ {| SecurityAlert.id := string_of_Z (date_now env);
                 SecurityAlert.type := vulnerability;
                 SecurityAlert.severity :=
                   if (0.8 <? ToNumber (opt_prop vulnerabilityResult "confidence"))%float
                   then critical else high;
                 SecurityAlert.message :=
                   "Vulnérabilité détectée: "
                     ++ ToString (opt_prop vulnerabilityResult "vulnerability_type");
                 SecurityAlert.timestamp := date_iso env;
                 SecurityAlert.action_taken := "Message bloqué et agent support notifié" |} ]
       else [])
      ++
      (if truthy networkResult
          && negb (is_str (opt_prop networkResult "traffic_type") "NORMAL")
       then [ {| SecurityAlert.id := string_of_Z (date_now env + 1);
                 SecurityAlert.type := network;
                 SecurityAlert.severity :=
                   if is_str (opt_prop networkResult "traffic_type") "DDOS"
                   then critical else high;
                 SecurityAlert.message :=
                   "Activité réseau suspecte: "
                     ++ ToString (opt_prop networkResult "traffic_type");
                 SecurityAlert.timestamp := date_iso env;
                 SecurityAlert.action_taken := "Surveillance réseau activée" |} ]
       else [])
      ++
      (if truthy intentResult && is_str (opt_prop intentResult "intent") "Malicious"
       then [ {| SecurityAlert.id := string_of_Z (date_now env + 2);
                 SecurityAlert.type := intent;
                 SecurityAlert.severity :=
                   if (0.5 <? ToNumber (opt_prop intentResult "confidence"))%float
                   then high else medium;
                 SecurityAlert.message :=
                   "Intention malveillante détectée (confiance: "
                     ++ toFixed0 (ToNumber (opt_prop intentResult "confidence") * 100)%float
                     ++ "%)";
                 SecurityAlert.timestamp := date_iso env;
                 SecurityAlert.action_taken := "Conversation surveillée" |} ]
       else [])).

(** [hasThreats] is set exactly when an alert is pushed. *)
Definition check_of (analysis : json) (alerts : list SecurityAlert.t) : SecurityCheck := {|
  hasThreats := negb (Nat.eqb (length alerts) 0);
  alerts := alerts;
  analysis := analysis
|}.

Definition analyzeMessageSecurity (message : string) (s : State)
  : IO (SecurityCheck * State) :=
  let s := setIsAnalyzing true s in
  returned <-
    try_catch
      (response <- fetch (analyze_request message) ;;
       if ok response then
         analysis <- lift (parsed response) ;;
         env <- ask ;;
         alerts <- lift (alerts_of env analysis) ;;
         ret (Some (check_of analysis alerts))
       else ret None)
      (fun error => ret None) ;;
  let s := setIsAnalyzing false s in
  match returned with
  | Some check => ret (check, s)
  | None => ret ({| hasThreats := false; alerts := []; analysis := JNull |}, s)
  end.

(** [alert.severity === "critical"] *)
Definition is_critical (alert : SecurityAlert.t) : bool :=
  match SecurityAlert.severity alert with
  | critical => true
  | _ => false
  end.

Definition handleThreatDetected (env : Env) (alert : SecurityAlert.t) (s : State) : State :=
  if is_critical alert then {|
    messages := messages s ++ [ {|
      Message.id := string_of_Z (date_now env);
      Message.content :=
        Some (JStr ("🚨 ALERTE SÉCURITÉ: " ++ SecurityAlert.message alert
          ++ "

⚠️ Le système a été verrouillé par mesure de sécurité. L'agent support a été notifié et la conversation est suspendue.

📊 Un rapport détaillé a été généré."));
      Message.sender := Message.security;
      Message.timestamp := date_iso env;
      Message.agent := Some "security";
      Message.metadata :=
        Some (JObj [("threat_level", JStr "danger"); ("source", JStr "security_ai")])
    |} ];
    selectedAgent := selectedAgent s;
    isSystemBlocked := true;
    securityAlerts := alert :: securityAlerts s;
    threatLevel := danger;
    isAnalyzing := isAnalyzing s
  |} else {|
    messages := messages s;
    selectedAgent := selectedAgent s;
    isSystemBlocked := isSystemBlocked s;
    securityAlerts := alert :: securityAlerts s;
    threatLevel := threatLevel s;
    isAnalyzing := isAnalyzing s
  |}.

Definition security_block : json :=
  JObj [("content", JStr "Message bloqué pour des raisons de sécurité.");
        ("metadata", JObj [("source", JStr "security_block"); ("threat_level", JStr "danger")])].

Definition security_mode : json :=
  JObj [("content", JStr "Le système est actuellement en mode sécurisé. Veuillez patienter.");
        ("metadata", JObj [("source", JStr "security_mode")])].

(** [handleSendMessage(message)] run in a render whose state is [s]: the
    variables it reads ([isSystemBlocked], [selectedAgent]) are those of
    [s]; the state it returns is [s] after the updates it has queued. *)
Definition handleSendMessage (message : string) (s : State) : IO (json * State) :=
  '(securityCheck, s') <- analyzeMessageSecurity message s ;;
  env <- ask ;;
  let s' :=
    if hasThreats securityCheck
    then fold_left (fun st alert => handleThreatDetected env alert st) (alerts securityCheck) s'
    else s' in
  if hasThreats securityCheck && existsb is_critical (alerts securityCheck) then
    ret (security_block, s')
  else
    answered <-
      (if negb (isSystemBlocked s) then
         try_catch
           (response <- fetch (chat_request message s (analysis securityCheck)) ;;
            if ok response then
              data <- lift (parsed response) ;;
              ret (Some data)
            else ret None)
           (fun error => ret None)
       else ret None) ;;
    match answered with
    | Some data => ret (data, s')
    | None => ret (security_mode, s')
    end.

(** ** handleSend *)

(** The state of [Home] with the two variables that only [handleSend]
    reads: the text of the input field and [isLoading]. *)
Record Home : Type := {
  state : State;
  input : string;
  isLoading : bool
}.

(** [!input.trim()]: the text is empty once the white space is trimmed. *)
Definition is_blank (text : string) : bool :=
  String.eqb (skip_spaces (String.length text) text) "".

(** [setMessages(prev => [...prev, m])] *)
Definition push (m : Message.t) (s : State) : State := {|
  messages := messages s ++ [m];
  selectedAgent := selectedAgent s;
  isSystemBlocked := isSystemBlocked s;
  securityAlerts := securityAlerts s;
  threatLevel := threatLevel s;
  isAnalyzing := isAnalyzing s
|}.

(** [handleSend()] run in a render whose state is [h], the only caller of
    [handleSendMessage]: the key Enter and the button of the form call it.
    It returns the state after the updates it has queued.  The [try] covers
    the call of [handleSendMessage], which does not throw, and the reading
    of its reply, which throws on [null]; the [finally] sets [isLoading]
    back. *)
Definition handleSend (h : Home) : IO Home :=
  if is_blank (input h) || isLoading h || isSystemBlocked (state h) then ret h
  else
    env <- ask ;;
    let userMessage := {|
      Message.id := string_of_Z (date_now env);
      Message.content := Some (JStr (input h));
      Message.sender := Message.user;
      Message.timestamp := date_iso env;
      Message.agent := None;
      Message.metadata := None
    |} in
    let queued := push userMessage (state h) in
    s' <-
      try_catch
        ('(response, s') <- handleSendMessage (input h) queued ;;
         try_catch
           (content <- lift (prop response "content") ;;
            metadata <- lift (prop response "metadata") ;;
            let assistantMessage := {|
              Message.id := string_of_Z (date_now env + 1);
              Message.content := content;
              Message.sender := Message.assistant;
              Message.timestamp := date_iso env;
              Message.agent := Some (selectedAgent (state h));
              Message.metadata := metadata
            |} in
            ret (push assistantMessage s'))
           (fun error => ret s'))
        (fun error => ret queued) ;;
    ret {| state := s'; input := ""; isLoading := false |}.

(** The runs of the component: from a state to the states that a call of
    [handleThreatDetected] (by this file or through the prop
    [onThreatDetected]), a call of [handleSendMessage], or the setters of
    the other fields lead to. *)
Inductive leads_to (s : State) : State -> Prop :=
| leads_to_itself : leads_to s s
| leads_to_threat (env : Env) (alert : SecurityAlert.t) (t : State) :
    leads_to s t ->
    leads_to s (handleThreatDetected env alert t)
| leads_to_send (env : Env) (message : string) (t t' : State)
    (reply : json) (calls : list event) :
    leads_to s t ->
    run env (handleSendMessage message t) = (Ok (reply, t'), calls) ->
    leads_to s t'
| leads_to_other (t : State) (messages' : list Message.t) (selectedAgent' : string)
    (isAnalyzing' : bool) :
    leads_to s t ->
    leads_to s {| messages := messages';
                  selectedAgent := selectedAgent';
                  isSystemBlocked := isSystemBlocked t;
                  securityAlerts := securityAlerts t;
                  threatLevel := threatLevel t;
                  isAnalyzing := isAnalyzing' |}.

End Handlers.

End Page.

(** * The process that serves the routes *)

Module Server.

Inductive Request : Type :=
| ChatPOST (request : result json)
| AnalyzePOST (request : result Analyze.SecurityAnalysisRequest)
| AdminBlock (reason severity : option string)
| AdminUnblock.

Inductive Answer : Type :=
| ChatAnswer (response : NextResponse Chat.ChatResponse)
| AnalyzeAnswer (response : NextResponse Analyze.Body)
| AdminAnswer (response : NextResponse AdminSecurity.Body).

(** One request served with the variables of the admin-security module in
    [st].  That module exports its handlers only, and the chat and analyze
    modules import nothing from it: their handlers neither read nor write
    [st]. *)
Definition serve {platform : Platform} (req : Request) (st : AdminSecurity.Store)
  : IO (Answer * AdminSecurity.Store) :=
  match req with
  | ChatPOST request =>
      response <- Chat.POST request ;;
      ret (ChatAnswer response, st)
  | AnalyzePOST request =>
      response <- Analyze.POST request ;;
      ret (AnalyzeAnswer response, st)
  | AdminBlock reason severity =>
      '(response, st') <- AdminSecurity.block_system reason severity st ;;
      ret (AdminAnswer response, st')
  | AdminUnblock =>
      '(response, st') <- AdminSecurity.unblock_system st ;;
      ret (AdminAnswer response, st')
  end.


(** [NextResponse.json({ ...simulatedResults, api_version, source, warning })]
    as the page parses it: a key whose value is [undefined] is not written. *)
Definition json_of_simulation (r : Analyze.SimulationResults) : json :=
  JObj (
    [("timestamp", JStr (Analyze.timestamp r));
     ("text_length", JNum (PrimFloat.of_uint63 (Uint63.of_Z (Analyze.text_length r))));
     ("models_used", JArr (map JStr (Analyze.models_used r)))]
    ++ match Analyze.vulnerability_classifier r with
       | Some v => [("vulnerability_classifier",
                     JObj [("vulnerability_type", JStr (Analyze.vulnerability_type v));
                           ("confidence", JNum (Analyze.vulnerability_confidence v))])]
       | None => []
       end
    ++ match Analyze.network_analyzer r with
       | Some v => [("network_analyzer",
                     JObj [("traffic_type", JStr (Analyze.traffic_type v));
                           ("confidence", JNum (Analyze.network_confidence v))])]
       | None => []
       end
    ++ match Analyze.intent_classifier r with
       | Some v => [("intent_classifier",
                     JObj [("intent", JStr (Analyze.intent v));
                           ("confidence", JNum (Analyze.intent_confidence v))])]
       | None => []
       end
    ++ match Analyze.overall_threat_level r with
       | Some level => [("overall_threat_level", JStr level)]
       | None => []
       end
    ++ [("api_version", JStr "1.0.0");
        ("source", JStr "simulation");
        ("warning", JStr "Using simulated results - Python server unavailable")]).

End Server.

(** * What the page makes of the answers it gets *)

Module Wire.

Definition no_threat : Page.SecurityCheck := {|
  Page.hasThreats := false;
  Page.alerts := [];
  Page.analysis := JNull
|}.

(** The check that [analyzeMessageSecurity] returns for the outcome of its
    call of the analyze route. *)
Definition check_of_reply {platform : Platform} (env : Env) (r : result Response)
  : Page.SecurityCheck :=
  match r with
  | Ok response =>
      if ok response then
        match parsed response with
        | Ok analysis =>
            match Page.alerts_of env analysis with
            | Ok alerts => Page.check_of analysis alerts
            | Throw _ => no_threat
            end
        | Throw _ => no_threat
        end
      else no_threat
  | Throw _ => no_threat
  end.

(** The data that [handleSendMessage] returns for the outcome of its call
    of the chat route, if it returns them. *)
Definition chat_data (r : result Response) : option json :=
  match r with
  | Ok response =>
      if ok response then
        match parsed response with
        | Ok data => Some data
        | Throw _ => None
        end
      else None
  | Throw _ => None
  end.

(** The alerts of the page for the results of a simulation. *)
Definition vulnerability_alert (env : Env) (v : Analyze.VulnerabilityResult)
  : Page.SecurityAlert.t := {|
  Page.SecurityAlert.id := string_of_Z (date_now env);
  Page.SecurityAlert.type := Page.vulnerability;
  Page.SecurityAlert.severity :=
    if (0.8 <? Analyze.vulnerability_confidence v)%float then Page.critical else Page.high;
  Page.SecurityAlert.message := "Vulnérabilité détectée: " ++ Analyze.vulnerability_type v;
  Page.SecurityAlert.timestamp := date_iso env;
  Page.SecurityAlert.action_taken := "Message bloqué et agent support notifié"
|}.

Definition network_alert (env : Env) (n : Analyze.NetworkResult) : Page.SecurityAlert.t := {|
  Page.SecurityAlert.id := string_of_Z (date_now env + 1);
  Page.SecurityAlert.type := Page.network;
  Page.SecurityAlert.severity :=
    if String.eqb (Analyze.traffic_type n) "DDOS" then Page.critical else Page.high;
  Page.SecurityAlert.message := "Activité réseau suspecte: " ++ Analyze.traffic_type n;
  Page.SecurityAlert.timestamp := date_iso env;
  Page.SecurityAlert.action_taken := "Surveillance réseau activée"
|}.

Definition intent_alert {platform : Platform} (env : Env) (i : Analyze.IntentResult)
  : Page.SecurityAlert.t := {|
  Page.SecurityAlert.id := string_of_Z (date_now env + 2);
  Page.SecurityAlert.type := Page.intent;
  Page.SecurityAlert.severity :=
    if (0.5 <? Analyze.intent_confidence i)%float then Page.high else Page.medium;
  Page.SecurityAlert.message :=
    "Intention malveillante détectée (confiance: "
      ++ toFixed0 (Analyze.intent_confidence i * 100)%float ++ "%)";
  Page.SecurityAlert.timestamp := date_iso env;
  Page.SecurityAlert.action_taken := "Conversation surveillée"
|}.

Definition simulation_alerts {platform : Platform} (env : Env) (r : Analyze.SimulationResults)
  : list Page.SecurityAlert.t :=
  match Analyze.vulnerability_classifier r with
  | Some v =>
      if String.eqb (Analyze.vulnerability_type v) "SAFE" then []
      else [vulnerability_alert env v]
  | None => []
  end
  ++ match Analyze.network_analyzer r with
     | Some n =>
         if String.eqb (Analyze.traffic_type n) "NORMAL" then [] else [network_alert env n]
     | None => []
     end
  ++ match Analyze.intent_classifier r with
     | Some i =>
         if String.eqb (Analyze.intent i) "Malicious" then [intent_alert env i] else []
     | None => []
     end.

(** The state of the page once the alerts of a check were handled. *)
Definition after_alerts (env : Env) (check : Page.SecurityCheck) (s : Page.State) : Page.State :=
  fold_left (fun st alert => Page.handleThreatDetected env alert st) (Page.alerts check)
    (Page.setIsAnalyzing false s).

End Wire.

(** * The specification, in its own words *)

Module Spec.

(** The weighted score of an analysis: vulnerability confidence x3 when the
    type is not SAFE, plus network confidence x2 when the traffic is not
    NORMAL, plus intent confidence x2.5 when Malicious, x1 when Suspicious. *)
Definition weighted_score (r : Analyze.SimulationResults) : float :=
  ((match Analyze.vulnerability_classifier r with
    | Some v =>
        if String.eqb (Analyze.vulnerability_type v) "SAFE" then 0
        else Analyze.vulnerability_confidence v * 3
    | None => 0
    end)
   + (match Analyze.network_analyzer r with
      | Some n =>
          if String.eqb (Analyze.traffic_type n) "NORMAL" then 0
          else Analyze.network_confidence n * 2
      | None => 0
      end)
   + (match Analyze.intent_classifier r with
      | Some i =>
          if String.eqb (Analyze.intent i) "Malicious" then Analyze.intent_confidence i * 2.5
          else if String.eqb (Analyze.intent i) "Suspicious" then Analyze.intent_confidence i * 1
          else 0
      | None => 0
      end))%float.

(** critical from 2.5, high from 1.5, medium from 0.5, low above 0, else safe. *)
Definition verdict (score : float) : string :=
  match find (fun t => (fst t <=? score)%float)
             [(2.5%float, "critical"); (1.5%float, "high"); (0.5%float, "medium")] with
  | Some t => snd t
  | None => if (0 <? score)%float then "low" else "safe"
  end.

(** A rule of the synthesizer: keywords and the template they select. *)
Definition rule : Type := (list string * string)%type.

Definition pricing : rule := (["prix"; "tarif"; "coût"], Chat.pricing_template).
Definition features : rule :=
  (["fonctionnalité"; "feature"; "fonction"], Chat.features_template).
Definition greeting : rule := (["bonjour"; "salut"; "hello"], Chat.greeting_template).
Definition about : rule := (["teamsquare"; "team square"], Chat.about_template).

(** The text, in lower case, holds a keyword of the rule. *)
Definition matches {platform : Platform} (userText : string) (r : rule) : bool :=
  existsb (includes (toLowerCase userText)) (fst r).

(** The first rule that matches wins; the generic reply when none does. *)
Definition first_match {platform : Platform} (rules : list rule) (userText : string) : string :=
  match find (matches userText) rules with
  | Some r => snd r
  | None => Chat.generic_template userText
  end.

(** Pricing, then features, then greeting, else the generic reply. *)
Definition synthesize {platform : Platform} (userText : string) : string :=
  first_match [pricing; features; greeting] userText.

End Spec.

(** * Outcomes of the matchers and of the Python server *)

Module Outcomes.

(** The results the three matchers of the simulation can give. *)
Definition vulnerability : list Analyze.VulnerabilityResult :=
  [ {| Analyze.vulnerability_type := "XSS"; Analyze.vulnerability_confidence := 0.85 |};
    {| Analyze.vulnerability_type := "SQL_INJECTION"; Analyze.vulnerability_confidence := 0.82 |};
    {| Analyze.vulnerability_type := "PATH_TRAVERSAL"; Analyze.vulnerability_confidence := 0.80 |};
    {| Analyze.vulnerability_type := "SAFE"; Analyze.vulnerability_confidence := 0.95 |} ].

Definition network : list Analyze.NetworkResult :=
  [ {| Analyze.traffic_type := "DDOS"; Analyze.network_confidence := 0.88 |};
    {| Analyze.traffic_type := "PORT_SCAN"; Analyze.network_confidence := 0.85 |};
    {| Analyze.traffic_type := "BRUTE_FORCE"; Analyze.network_confidence := 0.83 |};
    {| Analyze.traffic_type := "NORMAL"; Analyze.network_confidence := 0.90 |} ].

Definition intent : list Analyze.IntentResult :=
  [ {| Analyze.intent := "Malicious"; Analyze.intent_confidence := 0.75 |};
    {| Analyze.intent := "Suspicious"; Analyze.intent_confidence := 0.65 |};
    {| Analyze.intent := "Legitimate"; Analyze.intent_confidence := 0.80 |} ].

(** The analysis the Python server gives to the route, if it gives one: a
    2xx answer whose body is JSON other than [null], with a threat level
    that the route can log. *)
Definition python_analysis (r : result Response) : option json :=
  match r with
  | Ok response =>
      if ok response then
        match parsed response with
        | Ok JNull => None
        | Ok analysis =>
            match Analyze.threat_log (opt_prop (Some analysis) "overall_threat_level") with
            | Ok _ => Some analysis
            | Throw _ => None
            end
        | Throw _ => None
        end
      else None
  | Throw _ => None
  end.

End Outcomes.

(** * Outcomes of the two transports of the chat route *)

Module Transports.

(** What the route takes from the primary backend: the [content] and the
    [metadata] of a 2xx answer whose body is a JSON object with a
    [content] key. *)
Definition primary_reply (r : result Response) : option (json * value) :=
  match r with
  | Ok response =>
      if ok response then
        match parsed response with
        | Ok (JObj fields) =>
            match assoc "content" fields with
            | Some content => Some (content, assoc "metadata" fields)
            | None => None
            end
        | _ => None
        end
      else None
  | Throw _ => None
  end.

(** The ways the primary transport fails. *)
Inductive primary_fails : result Response -> Prop :=
| network_error_or_timeout (e : JsError) :
    primary_fails (Throw e)
| non_2xx (response : Response) :
    ok response = false ->
    primary_fails (Ok response)
| body_not_json (response : Response) (e : JsError) :
    ok response = true ->
    parsed response = Throw e ->
    primary_fails (Ok response)
| missing_content (response : Response) (data : json) :
    ok response = true ->
    parsed response = Ok data ->
    opt_prop (Some data) "content" = None ->
    primary_fails (Ok response).

(** What the route takes from the fallback endpoint: the [content] and the
    [metadata], defined or not, of a 2xx answer whose body is JSON other
    than [null]. *)
Definition fallback_reply (r : result Response) : option (value * value) :=
  match r with
  | Ok response =>
      if ok response then
        match parsed response with
        | Ok JNull => None
        | Ok data => Some (opt_prop (Some data) "content", opt_prop (Some data) "metadata")
        | Throw _ => None
        end
      else None
  | Throw _ => None
  end.

Inductive Tier : Type := Backend | Fallback | Local.

(** The tier that produces the content of the answer. *)
Definition producer (primary secondary : result Response) : Tier :=
  match primary_reply primary with
  | Some _ => Backend
  | None =>
      match fallback_reply secondary with
      | Some _ => Fallback
      | None => Local
      end
  end.

(** The body [{ query, session_id }] made from a request [{ message, session_id }]. *)
Definition adapted (fields : list (string * json)) (message : string) : Chat.AdaptedBody := {|
  Chat.query := message;
  Chat.session_id := Chat.session_or_default (assoc "session_id" fields)
|}.

(** The answers of the three tiers. *)
Definition backend_answer (env : Env) (content : json) (metadata : value)
  : NextResponse Chat.ChatResponse := {|
  http_status := 200;
  body := {|
    Chat.content := Some content;
    Chat.metadata := [
      Chat.Spread metadata;
      Chat.Field "source" (js_or (opt_prop metadata "source") (Some (JStr "agentic_agent")));
      Chat.Field "timestamp" (Some (JStr (date_iso env)));
      Chat.Field "api_version" (Some (JStr "1.0.0")) ]
  |}
|}.

Definition fallback_answer (content metadata : value) : NextResponse Chat.ChatResponse := {|
  http_status := 200;
  body := {|
    Chat.content := content;
    Chat.metadata := [
      Chat.Spread metadata;
      Chat.Field "source" (Some (JStr "fallback_api"));
      Chat.Field "fallback_used" (Some (JBool true)) ]
  |}
|}.

Definition local_answer {platform : Platform} (env : Env) (b : Chat.AdaptedBody)
  : NextResponse Chat.ChatResponse := {|
  http_status := 200;
  body := {|
    Chat.content := Some (JStr (Chat.local_text (Chat.query b)));
    Chat.metadata := [
      Chat.Field "source" (Some (JStr "local_fallback"));
      Chat.Field "session_id" (Some (Chat.session_id b));
      Chat.Field "timestamp" (Some (JStr (date_iso env)));
      Chat.Field "fallback_reason" (Some (JStr "Backend unavailable"));
      Chat.Field "local_generation" (Some (JBool true)) ]
  |}
|}.

(** The tier a [metadata.source] stands for: the two tags the route writes
    itself, those of its error answers, and any other for the backend. *)
Definition tier_of_source (source : value) : option Tier :=
  match source with
  | Some (JStr "fallback_api") => Some Fallback
  | Some (JStr "local_fallback") => Some Local
  | Some (JStr "validation") | Some (JStr "error_handler") => None
  | _ => Some Backend
  end.

(** The tag the route gives to an answer of the backend. *)
Definition backend_source (metadata : value) : value :=
  js_or (opt_prop metadata "source") (Some (JStr "agentic_agent")).

(** What one attempt of the transport wrapper ends with: the data of a 2xx
    answer, or the error of a rejected call (network error, abort by the
    timeout signal), of another status, of a body that is not JSON. *)
Definition attempt_outcome (r : result Response) : result json :=
  match r with
  | Ok response =>
      if ok response then parsed response
      else Throw (mkError ("HTTP " ++ string_of_Z (status response) ++ ": "
                             ++ statusText response))
  | Throw e => Throw e
  end.




End Transports.

(** * Unicode lower case

    [String.prototype.toLowerCase] on a text held as UTF-8: the default
    case conversion of Unicode, that is the lowercase mapping of every code
    point, the one mapping that gives two code points (U+0130), and the one
    that depends on the context (U+03A3, the capital sigma).  The tables
    are those of Unicode 14.0. *)

Module Unicode.

(** The lowercase mappings of Unicode 14.0 that give one code point: every
    [stride]-th code point from [first] to [last] maps to itself plus [delta]. *)
Definition lower_ranges : list (Z * Z * Z * Z) :=
  [ (65, 90, 1, 32); (192, 214, 1, 32); (216, 222, 1, 32); (256, 302, 2, 1); (306, 310, 2, 1);
    (313, 327, 2, 1); (330, 374, 2, 1); (376, 376, 1, (-121)); (377, 381, 2, 1);
    (385, 385, 1, 210); (386, 388, 2, 1); (390, 390, 1, 206); (391, 391, 1, 1);
    (393, 394, 1, 205); (395, 395, 1, 1); (398, 398, 1, 79); (399, 399, 1, 202);
    (400, 400, 1, 203); (401, 401, 1, 1); (403, 403, 1, 205); (404, 404, 1, 207);
    (406, 406, 1, 211); (407, 407, 1, 209); (408, 408, 1, 1); (412, 412, 1, 211);
    (413, 413, 1, 213); (415, 415, 1, 214); (416, 420, 2, 1); (422, 422, 1, 218);
    (423, 423, 1, 1); (425, 425, 1, 218); (428, 428, 1, 1); (430, 430, 1, 218);
    (431, 431, 1, 1); (433, 434, 1, 217); (435, 437, 2, 1); (439, 439, 1, 219);
    (440, 440, 1, 1); (444, 444, 1, 1); (452, 452, 1, 2); (453, 453, 1, 1); (455, 455, 1, 2);
    (456, 456, 1, 1); (458, 458, 1, 2); (459, 475, 2, 1); (478, 494, 2, 1); (497, 497, 1, 2);
    (498, 500, 2, 1); (502, 502, 1, (-97)); (503, 503, 1, (-56)); (504, 542, 2, 1);
    (544, 544, 1, (-130)); (546, 562, 2, 1); (570, 570, 1, 10795); (571, 571, 1, 1);
    (573, 573, 1, (-163)); (574, 574, 1, 10792); (577, 577, 1, 1); (579, 579, 1, (-195));
    (580, 580, 1, 69); (581, 581, 1, 71); (582, 590, 2, 1); (880, 882, 2, 1); (886, 886, 1, 1);
    (895, 895, 1, 116); (902, 902, 1, 38); (904, 906, 1, 37); (908, 908, 1, 64);
    (910, 911, 1, 63); (913, 929, 1, 32); (932, 939, 1, 32); (975, 975, 1, 8);
    (984, 1006, 2, 1); (1012, 1012, 1, (-60)); (1015, 1015, 1, 1); (1017, 1017, 1, (-7));
    (1018, 1018, 1, 1); (1021, 1023, 1, (-130)); (1024, 1039, 1, 80); (1040, 1071, 1, 32);
    (1120, 1152, 2, 1); (1162, 1214, 2, 1); (1216, 1216, 1, 15); (1217, 1229, 2, 1);
    (1232, 1326, 2, 1); (1329, 1366, 1, 48); (4256, 4293, 1, 7264); (4295, 4295, 1, 7264);
    (4301, 4301, 1, 7264); (5024, 5103, 1, 38864); (5104, 5109, 1, 8);
    (7312, 7354, 1, (-3008)); (7357, 7359, 1, (-3008)); (7680, 7828, 2, 1);
    (7838, 7838, 1, (-7615)); (7840, 7934, 2, 1); (7944, 7951, 1, (-8)); (7960, 7965, 1, (-8));
    (7976, 7983, 1, (-8)); (7992, 7999, 1, (-8)); (8008, 8013, 1, (-8)); (8025, 8031, 2, (-8));
    (8040, 8047, 1, (-8)); (8072, 8079, 1, (-8)); (8088, 8095, 1, (-8)); (8104, 8111, 1, (-8));
    (8120, 8121, 1, (-8)); (8122, 8123, 1, (-74)); (8124, 8124, 1, (-9));
    (8136, 8139, 1, (-86)); (8140, 8140, 1, (-9)); (8152, 8153, 1, (-8));
    (8154, 8155, 1, (-100)); (8168, 8169, 1, (-8)); (8170, 8171, 1, (-112));
    (8172, 8172, 1, (-7)); (8184, 8185, 1, (-128)); (8186, 8187, 1, (-126));
    (8188, 8188, 1, (-9)); (8486, 8486, 1, (-7517)); (8490, 8490, 1, (-8383));
    (8491, 8491, 1, (-8262)); (8498, 8498, 1, 28); (8544, 8559, 1, 16); (8579, 8579, 1, 1);
    (9398, 9423, 1, 26); (11264, 11311, 1, 48); (11360, 11360, 1, 1);
    (11362, 11362, 1, (-10743)); (11363, 11363, 1, (-3814)); (11364, 11364, 1, (-10727));
    (11367, 11371, 2, 1); (11373, 11373, 1, (-10780)); (11374, 11374, 1, (-10749));
    (11375, 11375, 1, (-10783)); (11376, 11376, 1, (-10782)); (11378, 11378, 1, 1);
    (11381, 11381, 1, 1); (11390, 11391, 1, (-10815)); (11392, 11490, 2, 1);
    (11499, 11501, 2, 1); (11506, 11506, 1, 1); (42560, 42604, 2, 1); (42624, 42650, 2, 1);
    (42786, 42798, 2, 1); (42802, 42862, 2, 1); (42873, 42875, 2, 1);
    (42877, 42877, 1, (-35332)); (42878, 42886, 2, 1); (42891, 42891, 1, 1);
    (42893, 42893, 1, (-42280)); (42896, 42898, 2, 1); (42902, 42920, 2, 1);
    (42922, 42922, 1, (-42308)); (42923, 42923, 1, (-42319)); (42924, 42924, 1, (-42315));
    (42925, 42925, 1, (-42305)); (42926, 42926, 1, (-42308)); (42928, 42928, 1, (-42258));
    (42929, 42929, 1, (-42282)); (42930, 42930, 1, (-42261)); (42931, 42931, 1, 928);
    (42932, 42946, 2, 1); (42948, 42948, 1, (-48)); (42949, 42949, 1, (-42307));
    (42950, 42950, 1, (-35384)); (42951, 42953, 2, 1); (42960, 42960, 1, 1);
    (42966, 42968, 2, 1); (42997, 42997, 1, 1); (65313, 65338, 1, 32); (66560, 66599, 1, 40);
    (66736, 66771, 1, 40); (66928, 66938, 1, 39); (66940, 66954, 1, 39); (66956, 66962, 1, 39);
    (66964, 66965, 1, 39); (68736, 68786, 1, 64); (71840, 71871, 1, 32); (93760, 93791, 1, 32);
    (125184, 125217, 1, 34) ]%Z.

(** The code points with the property Case_Ignorable (Unicode 14.0), in ranges. *)
Definition case_ignorable : list (Z * Z) :=
  [ (39, 39); (46, 46); (58, 58); (94, 94); (96, 96); (168, 168); (173, 173); (175, 175);
    (180, 180); (183, 184); (688, 879); (884, 885); (890, 890); (900, 901); (903, 903);
    (1155, 1161); (1369, 1369); (1375, 1375); (1425, 1469); (1471, 1471); (1473, 1474);
    (1476, 1477); (1479, 1479); (1524, 1524); (1536, 1541); (1552, 1562); (1564, 1564);
    (1600, 1600); (1611, 1631); (1648, 1648); (1750, 1757); (1759, 1768); (1770, 1773);
    (1807, 1807); (1809, 1809); (1840, 1866); (1958, 1968); (2027, 2037); (2042, 2042);
    (2045, 2045); (2070, 2093); (2137, 2139); (2184, 2184); (2192, 2193); (2200, 2207);
    (2249, 2306); (2362, 2362); (2364, 2364); (2369, 2376); (2381, 2381); (2385, 2391);
    (2402, 2403); (2417, 2417); (2433, 2433); (2492, 2492); (2497, 2500); (2509, 2509);
    (2530, 2531); (2558, 2558); (2561, 2562); (2620, 2620); (2625, 2626); (2631, 2632);
    (2635, 2637); (2641, 2641); (2672, 2673); (2677, 2677); (2689, 2690); (2748, 2748);
    (2753, 2757); (2759, 2760); (2765, 2765); (2786, 2787); (2810, 2815); (2817, 2817);
    (2876, 2876); (2879, 2879); (2881, 2884); (2893, 2893); (2901, 2902); (2914, 2915);
    (2946, 2946); (3008, 3008); (3021, 3021); (3072, 3072); (3076, 3076); (3132, 3132);
    (3134, 3136); (3142, 3144); (3146, 3149); (3157, 3158); (3170, 3171); (3201, 3201);
    (3260, 3260); (3263, 3263); (3270, 3270); (3276, 3277); (3298, 3299); (3328, 3329);
    (3387, 3388); (3393, 3396); (3405, 3405); (3426, 3427); (3457, 3457); (3530, 3530);
    (3538, 3540); (3542, 3542); (3633, 3633); (3636, 3642); (3654, 3662); (3761, 3761);
    (3764, 3772); (3782, 3782); (3784, 3789); (3864, 3865); (3893, 3893); (3895, 3895);
    (3897, 3897); (3953, 3966); (3968, 3972); (3974, 3975); (3981, 3991); (3993, 4028);
    (4038, 4038); (4141, 4144); (4146, 4151); (4153, 4154); (4157, 4158); (4184, 4185);
    (4190, 4192); (4209, 4212); (4226, 4226); (4229, 4230); (4237, 4237); (4253, 4253);
    (4348, 4348); (4957, 4959); (5906, 5908); (5938, 5939); (5970, 5971); (6002, 6003);
    (6068, 6069); (6071, 6077); (6086, 6086); (6089, 6099); (6103, 6103); (6109, 6109);
    (6155, 6159); (6211, 6211); (6277, 6278); (6313, 6313); (6432, 6434); (6439, 6440);
    (6450, 6450); (6457, 6459); (6679, 6680); (6683, 6683); (6742, 6742); (6744, 6750);
    (6752, 6752); (6754, 6754); (6757, 6764); (6771, 6780); (6783, 6783); (6823, 6823);
    (6832, 6862); (6912, 6915); (6964, 6964); (6966, 6970); (6972, 6972); (6978, 6978);
    (7019, 7027); (7040, 7041); (7074, 7077); (7080, 7081); (7083, 7085); (7142, 7142);
    (7144, 7145); (7149, 7149); (7151, 7153); (7212, 7219); (7222, 7223); (7288, 7293);
    (7376, 7378); (7380, 7392); (7394, 7400); (7405, 7405); (7412, 7412); (7416, 7417);
    (7468, 7530); (7544, 7544); (7579, 7679); (8125, 8125); (8127, 8129); (8141, 8143);
    (8157, 8159); (8173, 8175); (8189, 8190); (8203, 8207); (8216, 8217); (8228, 8228);
    (8231, 8231); (8234, 8238); (8288, 8292); (8294, 8303); (8305, 8305); (8319, 8319);
    (8336, 8348); (8400, 8432); (11388, 11389); (11503, 11505); (11631, 11631); (11647, 11647);
    (11744, 11775); (11823, 11823); (12293, 12293); (12330, 12333); (12337, 12341);
    (12347, 12347); (12441, 12446); (12540, 12542); (40981, 40981); (42232, 42237);
    (42508, 42508); (42607, 42610); (42612, 42621); (42623, 42623); (42652, 42655);
    (42736, 42737); (42752, 42785); (42864, 42864); (42888, 42890); (42994, 42996);
    (43000, 43001); (43010, 43010); (43014, 43014); (43019, 43019); (43045, 43046);
    (43052, 43052); (43204, 43205); (43232, 43249); (43263, 43263); (43302, 43309);
    (43335, 43345); (43392, 43394); (43443, 43443); (43446, 43449); (43452, 43453);
    (43471, 43471); (43493, 43494); (43561, 43566); (43569, 43570); (43573, 43574);
    (43587, 43587); (43596, 43596); (43632, 43632); (43644, 43644); (43696, 43696);
    (43698, 43700); (43703, 43704); (43710, 43711); (43713, 43713); (43741, 43741);
    (43756, 43757); (43763, 43764); (43766, 43766); (43867, 43871); (43881, 43883);
    (44005, 44005); (44008, 44008); (44013, 44013); (64286, 64286); (64434, 64450);
    (65024, 65039); (65043, 65043); (65056, 65071); (65106, 65106); (65109, 65109);
    (65279, 65279); (65287, 65287); (65294, 65294); (65306, 65306); (65342, 65342);
    (65344, 65344); (65392, 65392); (65438, 65439); (65507, 65507); (65529, 65531);
    (66045, 66045); (66272, 66272); (66422, 66426); (67456, 67461); (67463, 67504);
    (67506, 67514); (68097, 68099); (68101, 68102); (68108, 68111); (68152, 68154);
    (68159, 68159); (68325, 68326); (68900, 68903); (69291, 69292); (69446, 69456);
    (69506, 69509); (69633, 69633); (69688, 69702); (69744, 69744); (69747, 69748);
    (69759, 69761); (69811, 69814); (69817, 69818); (69821, 69821); (69826, 69826);
    (69837, 69837); (69888, 69890); (69927, 69931); (69933, 69940); (70003, 70003);
    (70016, 70017); (70070, 70078); (70089, 70092); (70095, 70095); (70191, 70193);
    (70196, 70196); (70198, 70199); (70206, 70206); (70367, 70367); (70371, 70378);
    (70400, 70401); (70459, 70460); (70464, 70464); (70502, 70508); (70512, 70516);
    (70712, 70719); (70722, 70724); (70726, 70726); (70750, 70750); (70835, 70840);
    (70842, 70842); (70847, 70848); (70850, 70851); (71090, 71093); (71100, 71101);
    (71103, 71104); (71132, 71133); (71219, 71226); (71229, 71229); (71231, 71232);
    (71339, 71339); (71341, 71341); (71344, 71349); (71351, 71351); (71453, 71455);
    (71458, 71461); (71463, 71467); (71727, 71735); (71737, 71738); (71995, 71996);
    (71998, 71998); (72003, 72003); (72148, 72151); (72154, 72155); (72160, 72160);
    (72193, 72202); (72243, 72248); (72251, 72254); (72263, 72263); (72273, 72278);
    (72281, 72283); (72330, 72342); (72344, 72345); (72752, 72758); (72760, 72765);
    (72767, 72767); (72850, 72871); (72874, 72880); (72882, 72883); (72885, 72886);
    (73009, 73014); (73018, 73018); (73020, 73021); (73023, 73029); (73031, 73031);
    (73104, 73105); (73109, 73109); (73111, 73111); (73459, 73460); (78896, 78904);
    (92912, 92916); (92976, 92982); (92992, 92995); (94031, 94031); (94095, 94111);
    (94176, 94177); (94179, 94180); (110576, 110579); (110581, 110587); (110589, 110590);
    (113821, 113822); (113824, 113827); (118528, 118573); (118576, 118598); (119143, 119145);
    (119155, 119170); (119173, 119179); (119210, 119213); (119362, 119364); (121344, 121398);
    (121403, 121452); (121461, 121461); (121476, 121476); (121499, 121503); (121505, 121519);
    (122880, 122886); (122888, 122904); (122907, 122913); (122915, 122916); (122918, 122922);
    (123184, 123197); (123566, 123566); (123628, 123631); (125136, 125142); (125252, 125259);
    (127995, 127999); (917505, 917505); (917536, 917631); (917760, 917999) ]%Z.

(** The code points with the property Cased that are not Case_Ignorable, in ranges. *)
Definition cased : list (Z * Z) :=
  [ (65, 90); (97, 122); (170, 170); (181, 181); (186, 186); (192, 214); (216, 246);
    (248, 442); (444, 447); (452, 659); (661, 687); (880, 883); (886, 887); (891, 893);
    (895, 895); (902, 902); (904, 906); (908, 908); (910, 929); (931, 1013); (1015, 1153);
    (1162, 1327); (1329, 1366); (1376, 1416); (4256, 4293); (4295, 4295); (4301, 4301);
    (4304, 4346); (4349, 4351); (5024, 5109); (5112, 5117); (7296, 7304); (7312, 7354);
    (7357, 7359); (7424, 7467); (7531, 7543); (7545, 7578); (7680, 7957); (7960, 7965);
    (7968, 8005); (8008, 8013); (8016, 8023); (8025, 8025); (8027, 8027); (8029, 8029);
    (8031, 8061); (8064, 8116); (8118, 8124); (8126, 8126); (8130, 8132); (8134, 8140);
    (8144, 8147); (8150, 8155); (8160, 8172); (8178, 8180); (8182, 8188); (8450, 8450);
    (8455, 8455); (8458, 8467); (8469, 8469); (8473, 8477); (8484, 8484); (8486, 8486);
    (8488, 8488); (8490, 8493); (8495, 8500); (8505, 8505); (8508, 8511); (8517, 8521);
    (8526, 8526); (8544, 8575); (8579, 8580); (9398, 9449); (11264, 11387); (11390, 11492);
    (11499, 11502); (11506, 11507); (11520, 11557); (11559, 11559); (11565, 11565);
    (42560, 42605); (42624, 42651); (42786, 42863); (42865, 42887); (42891, 42894);
    (42896, 42954); (42960, 42961); (42963, 42963); (42965, 42969); (42997, 42998);
    (43002, 43002); (43824, 43866); (43872, 43880); (43888, 43967); (64256, 64262);
    (64275, 64279); (65313, 65338); (65345, 65370); (66560, 66639); (66736, 66771);
    (66776, 66811); (66928, 66938); (66940, 66954); (66956, 66962); (66964, 66965);
    (66967, 66977); (66979, 66993); (66995, 67001); (67003, 67004); (68736, 68786);
    (68800, 68850); (71840, 71903); (93760, 93823); (119808, 119892); (119894, 119964);
    (119966, 119967); (119970, 119970); (119973, 119974); (119977, 119980); (119982, 119993);
    (119995, 119995); (119997, 120003); (120005, 120069); (120071, 120074); (120077, 120084);
    (120086, 120092); (120094, 120121); (120123, 120126); (120128, 120132); (120134, 120134);
    (120138, 120144); (120146, 120485); (120488, 120512); (120514, 120538); (120540, 120570);
    (120572, 120596); (120598, 120628); (120630, 120654); (120656, 120686); (120688, 120712);
    (120714, 120744); (120746, 120770); (120772, 120779); (122624, 122633); (122635, 122654);
    (125184, 125251); (127280, 127305); (127312, 127337); (127344, 127369) ]%Z.


(** A text as code points; a byte that is not part of a well-formed UTF-8
    sequence stands for itself. *)
Inductive item : Type :=
| Scalar (cp : Z)
| Raw (b : ascii).

Definition byte (c : ascii) : Z := Z.of_nat (nat_of_ascii c).

(** A continuation byte, [10xxxxxx]. *)
Definition is_cont (c : ascii) : bool := ((128 <=? byte c) && (byte c <? 192))%Z.

Fixpoint decode (s : string) : list item :=
  match s with
  | EmptyString => []
  | String c0 r0 =>
      let b0 := byte c0 in
      if (b0 <? 128)%Z then Scalar b0 :: decode r0
      else if ((194 <=? b0) && (b0 <? 224))%Z then
        match r0 with
        | String c1 r1 =>
            if is_cont c1
            then Scalar ((b0 - 192) * 64 + (byte c1 - 128))%Z :: decode r1
            else Raw c0 :: decode r0
        | _ => Raw c0 :: decode r0
        end
      else if ((224 <=? b0) && (b0 <? 240))%Z then
        match r0 with
        | String c1 (String c2 r2) =>
            let cp := ((b0 - 224) * 4096 + (byte c1 - 128) * 64 + (byte c2 - 128))%Z in
            if is_cont c1 && is_cont c2 && (2048 <=? cp)%Z
               && negb ((55296 <=? cp) && (cp <=? 57343))%Z
            then Scalar cp :: decode r2
            else Raw c0 :: decode r0
        | _ => Raw c0 :: decode r0
        end
      else if ((240 <=? b0) && (b0 <? 245))%Z then
        match r0 with
        | String c1 (String c2 (String c3 r3)) =>
            let cp := ((b0 - 240) * 262144 + (byte c1 - 128) * 4096
                       + (byte c2 - 128) * 64 + (byte c3 - 128))%Z in
            if is_cont c1 && is_cont c2 && is_cont c3
               && (65536 <=? cp)%Z && (cp <=? 1114111)%Z
            then Scalar cp :: decode r3
            else Raw c0 :: decode r0
        | _ => Raw c0 :: decode r0
        end
      else Raw c0 :: decode r0
  end.

Definition chr (n : Z) : ascii := ascii_of_nat (Z.to_nat n).

Definition encode_item (i : item) : string :=
  match i with
  | Raw b => String b EmptyString
  | Scalar cp =>
      if (cp <? 128)%Z then String (chr cp) EmptyString
      else if (cp <? 2048)%Z then
        String (chr (192 + cp / 64)) (String (chr (128 + cp mod 64)) EmptyString)
      else if (cp <? 65536)%Z then
        String (chr (224 + cp / 4096))
          (String (chr (128 + (cp / 64) mod 64))
             (String (chr (128 + cp mod 64)) EmptyString))
      else
        String (chr (240 + cp / 262144))
          (String (chr (128 + (cp / 4096) mod 64))
             (String (chr (128 + (cp / 64) mod 64))
                (String (chr (128 + cp mod 64)) EmptyString)))
  end.

Fixpoint encode (l : list item) : string :=
  match l with
  | [] => EmptyString
  | i :: rest => encode_item i ++ encode rest
  end.

Definition in_ranges (ranges : list (Z * Z)) (cp : Z) : bool :=
  existsb (fun '(first, last) => ((first <=? cp) && (cp <=? last))%Z) ranges.

Definition is_case_ignorable (i : item) : bool :=
  match i with
  | Scalar cp => in_ranges case_ignorable cp
  | Raw _ => false
  end.

Definition is_cased (i : item) : bool :=
  match i with
  | Scalar cp => in_ranges cased cp
  | Raw _ => false
  end.

(** The lowercase mapping of a code point that maps to one code point. *)
Definition lower_simple (cp : Z) : Z :=
  if (cp <? 128)%Z then
    if ((65 <=? cp) && (cp <=? 90))%Z then (cp + 32)%Z else cp
  else
    match find (fun '(first, last, stride, _) =>
                  ((first <=? cp) && (cp <=? last) && ((cp - first) mod stride =? 0))%Z)
               lower_ranges with
    | Some (_, _, _, delta) => (cp + delta)%Z
    | None => cp
    end.

(** From a sigma, in one direction: the first code point that is not case
    ignorable is there, and is cased. *)
Fixpoint meets_cased (l : list item) : bool :=
  match l with
  | [] => false
  | i :: rest => if is_case_ignorable i then meets_cased rest else is_cased i
  end.

(** The condition [Final_Sigma]: after a cased letter, and not before one.
    [before] is the text before the sigma, nearest code point first. *)
Definition final_sigma (before after : list item) : bool :=
  meets_cased before && negb (meets_cased after).

Fixpoint lower_items (before l : list item) : list item :=
  match l with
  | [] => []
  | i :: rest =>
      match i with
      | Raw _ => [i]
      | Scalar cp =>
          if (cp =? 931)%Z then [Scalar (if final_sigma before rest then 962 else 963)%Z]
          else if (cp =? 304)%Z then [Scalar 105%Z; Scalar 775%Z]
          else [Scalar (lower_simple cp)]
      end ++ lower_items (i :: before) rest
  end.

Definition toLowerCase (s : string) : string := encode (lower_items [] (decode s)).

End Unicode.

(** * A platform and environments for the examples *)

Module Examples.

(** [x.toFixed(0)] for a number of magnitude below 1e21: the nearest
    integer, the larger one at a tie. *)
Definition to_fixed_0 (x : float) : string :=
  match Prim2SF x with
  | S754_zero _ => "0"
  | S754_infinity true => "-Infinity"
  | S754_infinity false => "Infinity"
  | S754_nan => "NaN"
  | S754_finite s m e =>
      (if s then "-" else "") ++
      string_of_Z (if (0 <=? e)%Z then Zpos m * 2 ^ e
                   else (2 * Zpos m + 2 ^ (- e)) / (2 * 2 ^ (- e)))%Z
  end.

(** [AbortSignal.timeout(ms)] in a browser: [ms] is an [unsigned long long]
    with [EnforceRange], from 0 to 2^53 - 1. *)
Definition signal_refusal (ms : Z) : option string :=
  if ((0 <=? ms) && (ms <=? 9007199254740991))%Z then None
  else Some "Failed to execute 'timeout' on 'AbortSignal': Value is outside the 'unsigned long long' value range.".

(** The builtins of the examples: [toLowerCase] on any text; [ToNumber]
    and [ToString] where the examples use them, on numbers and on strings;
    [toFixed0] below 1e21. *)
Definition platform : Platform := {|
  toLowerCase := Unicode.toLowerCase;
  toFixed0 := to_fixed_0;
  ToNumber := fun v =>
    match v with
    | Some (JNum x) => x
    | Some (JBool true) => 1%float
    | Some (JBool false) | Some JNull | Some (JStr "") => 0%float
    | _ => nan
    end;
  ToString := fun v =>
    match v with
    | Some (JStr s) => s
    | Some JNull => "null"
    | Some (JBool true) => "true"
    | Some (JBool false) => "false"
    | Some (JNum x) => to_fixed_0 x
    | Some (JArr _) => ""
    | Some (JObj _) => "[object Object]"
    | None => "undefined"
    end;
  timeout_refusal := signal_refusal;
  ToNumber_number := fun x => eq_refl;
  ToString_string := fun s => eq_refl;
  timeout_accepted := ltac:(
    intros ms [Hlo Hhi]; unfold signal_refusal;
    replace (0 <=? ms)%Z with true by (symmetry; apply Z.leb_le; lia);
    replace (ms <=? 9007199254740991)%Z with true by (symmetry; apply Z.leb_le; lia);
    reflexivity);
  timeout_refused := ltac:(
    intros ms Hneg; unfold signal_refusal;
    replace (0 <=? ms)%Z with false by (symmetry; apply Z.leb_gt; lia);
    discriminate)
|}.

Definition answer (status : Z) (data : json) : result Response :=
  Ok {| status := status; statusText := ""; parsed := Ok data |}.

(** No server answers: every [fetch] is rejected. *)
Definition offline : Env := {|
  network := fun _ _ => Throw (mkError "fetch failed");
  date_iso := "2025-01-01T12:00:00.000Z";
  date_now := 1735732800000;
  process_env := fun _ => None
|}.

(** The first [fetch] of a run gets [first], the later ones [others]. *)
Definition online (first others : result Response) : Env := {|
  network := fun n _ => match n with O => first | S _ => others end;
  date_iso := "2025-01-01T12:00:00.000Z";
  date_now := 1735732800000;
  process_env := fun _ => None
|}.

(** What the simulation gives for ["<script>alert(1)</script>"]. *)
Definition xss_results : Analyze.SimulationResults := {|
  Analyze.timestamp := "2025-01-01T12:00:00.000Z";
  Analyze.text_length := 25;
  Analyze.models_used := Analyze.default_models;
  Analyze.vulnerability_classifier :=
    Some {| Analyze.vulnerability_type := "XSS"; Analyze.vulnerability_confidence := 0.85 |};
  Analyze.network_analyzer :=
    Some {| Analyze.traffic_type := "NORMAL"; Analyze.network_confidence := 0.90 |};
  Analyze.intent_classifier :=
    Some {| Analyze.intent := "Legitimate"; Analyze.intent_confidence := 0.80 |};
  Analyze.overall_threat_level := Some "critical"
|}.

(** A chat request [{ message: "bonjour" }]. *)
Definition bonjour : list (string * json) := [("message", JStr "bonjour")].

(** The backend is down and the fallback endpoint answers with a content. *)
Definition backend_down : Env :=
  online (Throw (mkError "fetch failed")) (answer 200 (JObj [("content", JStr "ok")])).

(** The backend is down and the fallback endpoint answers 200 with [{}]. *)
Definition fallback_without_content : Env :=
  online (Throw (mkError "fetch failed")) (answer 200 (JObj [])).

(** The backend answers and tags its answer [local_fallback] itself. *)
Definition backend_tags_local : Env :=
  online (answer 200 (JObj [("content", JStr "hi");
                            ("metadata", JObj [("source", JStr "local_fallback")])]))
         (Throw (mkError "fetch failed")).

(** The backend answers 503 once, then 200. *)
Definition flaky : Env :=
  online (answer 503 JNull) (answer 200 (JObj [("content", JStr "ok")])).

Definition no_config : ApiConfig.PartialConfig := {|
  ApiConfig.baseUrl_opt := None;
  ApiConfig.timeout_opt := None;
  ApiConfig.retries_opt := None;
  ApiConfig.retryDelay_opt := None
|}.


(** The module loaded at 2025-01-01T12:00:00.000Z. *)
Definition stamp (d : Z) : string :=
  if (d =? 0)%Z then "2025-01-01T12:00:00.000Z"
  else if (d =? 60000)%Z then "2025-01-01T11:59:00.000Z"
  else if (d =? 120000)%Z then "2025-01-01T11:58:00.000Z"
  else if (d =? 300000)%Z then "2025-01-01T11:55:00.000Z"
  else if (d =? 600000)%Z then "2025-01-01T11:50:00.000Z"
  else "2025-01-01T11:45:00.000Z".

(** The backend answers every call with 200. *)
Definition backend_up : Env := online (answer 200 JNull) (answer 200 JNull).

(** The store once an administrator has blocked the system. *)
Definition blocked_store : AdminSecurity.Store :=
  match fst (run backend_up (AdminSecurity.block_system None None
                               (AdminSecurity.initial_store stamp))) with
  | Ok (_, st) => st
  | Throw _ => AdminSecurity.initial_store stamp
  end.

Definition xss : Analyze.VulnerabilityResult :=
  {| Analyze.vulnerability_type := "XSS"; Analyze.vulnerability_confidence := 0.85 |}.

(** The page once the alert for a script has locked it. *)
Definition blocked_page : Page.State :=
  Page.handleThreatDetected offline (Wire.vulnerability_alert offline xss) Page.initial_state.

(** The analyze route answers the page with the simulation of the script. *)
Definition analysis_of_script : Env :=
  online (answer 200 (Server.json_of_simulation xss_results)) (Throw (mkError "fetch failed")).

(** Bodies of [add_alert]: one without any field, one with some. *)
Definition bare_alert : AdminSecurity.NewAlert := {|
  AdminSecurity.new_type := None;
  AdminSecurity.new_severity := None;
  AdminSecurity.new_message := None;
  AdminSecurity.new_action_taken := None;
  AdminSecurity.new_details := None;
  AdminSecurity.new_user_session := None
|}.

Definition scan_alert : AdminSecurity.NewAlert := {|
  AdminSecurity.new_type := Some AdminSecurity.network;
  AdminSecurity.new_severity := Some AdminSecurity.high;
  AdminSecurity.new_message := Some (JStr "scan");
  AdminSecurity.new_action_taken := None;
  AdminSecurity.new_details := None;
  AdminSecurity.new_user_session := None
|}.




(** The command prints [stdout]; of the two parsers, what the examples use:
    the texts [{}] and [0.9]. *)
Definition python_prints (stdout : string) : Networkx.Runtime := {|
  Networkx.execAsync := fun _ => Ok (stdout, EmptyString);
  Networkx.JSON_parse := fun text =>
    if String.eqb text "{}" then Ok (JObj [])
    else Throw (mkError "Unexpected token");
  Networkx.parseFloat := fun text =>
    if String.eqb text "0.9" then 0.9%float else PrimFloat.nan
|}.

(** The backend answers 200 with the body [{ "content": null }]. *)
Definition backend_content_null : Env :=
  online (answer 200 (JObj [("content", JNull)])) (Throw (mkError "fetch failed")).


(** A body of [add_alert] whose severity is none of the four that the
    report counts, and one whose [action_taken] is a number. *)
Definition urgent_alert : AdminSecurity.NewAlert := {|
  AdminSecurity.new_type := Some (JStr "malware");
  AdminSecurity.new_severity := Some (JStr "urgent");
  AdminSecurity.new_message := None;
  AdminSecurity.new_action_taken := None;
  AdminSecurity.new_details := None;
  AdminSecurity.new_user_session := None
|}.

Definition numbered_alert : AdminSecurity.NewAlert := {|
  AdminSecurity.new_type := None;
  AdminSecurity.new_severity := None;
  AdminSecurity.new_message := None;
  AdminSecurity.new_action_taken := Some (JNum 1);
  AdminSecurity.new_details := None;
  AdminSecurity.new_user_session := None
|}.

(** The store after [add_alert] with the first of these bodies. *)
Definition urgent_store : AdminSecurity.Store :=
  match fst (run offline (AdminSecurity.add_alert urgent_alert
                            (AdminSecurity.initial_store stamp))) with
  | Ok (_, st) => st
  | Throw _ => AdminSecurity.initial_store stamp
  end.

(** The locked page with a message typed in its input field. *)
Definition blocked_home : Page.Home := {|
  Page.state := blocked_page;
  Page.input := "bonjour";
  Page.isLoading := false
|}.

(** What the script prints for the reply [Bonjour !]. *)
Definition printed_reply : string :=
  "RESPONSE_START
Bonjour !
RESPONSE_END
CONFIDENCE_START
0.9
CONFIDENCE_END
STATS_START
{}
STATS_END
".

End Examples.

(** * Properties *)

Ltac io := unfold run, bind, ret, throw, lift, ask, try_catch, fetch, sleep in *.

(** ** The analysis route *)

Lemma threat_level_is_verdict (score : float) :
  Analyze.threat_level score = Spec.verdict score.
Proof.
  unfold Analyze.threat_level, Spec.verdict; cbn [find fst snd].
  destruct (2.5 <=? score)%float; [reflexivity|].
  destruct (1.5 <=? score)%float; [reflexivity|].
  destruct (0.5 <=? score)%float; reflexivity.
Qed.

Section AnalyzeFacts.
Context {platform : Platform}.

Lemma classify_vulnerability_cases (text : string) :
  In (Analyze.classify_vulnerability text)
     [ {| Analyze.vulnerability_type := "XSS"; Analyze.vulnerability_confidence := 0.85 |};
       {| Analyze.vulnerability_type := "SQL_INJECTION"; Analyze.vulnerability_confidence := 0.82 |};
       {| Analyze.vulnerability_type := "PATH_TRAVERSAL"; Analyze.vulnerability_confidence := 0.80 |};
       {| Analyze.vulnerability_type := "SAFE"; Analyze.vulnerability_confidence := 0.95 |} ].
Proof.
  unfold Analyze.classify_vulnerability.
  destruct (Analyze.some_test _ text); [cbn; tauto|].
  destruct (Analyze.some_test _ text); [cbn; tauto|].
  destruct (Analyze.some_test _ text); cbn; tauto.
Qed.

Lemma classify_network_cases (text : string) :
  In (Analyze.classify_network text)
     [ {| Analyze.traffic_type := "DDOS"; Analyze.network_confidence := 0.88 |};
       {| Analyze.traffic_type := "PORT_SCAN"; Analyze.network_confidence := 0.85 |};
       {| Analyze.traffic_type := "BRUTE_FORCE"; Analyze.network_confidence := 0.83 |};
       {| Analyze.traffic_type := "NORMAL"; Analyze.network_confidence := 0.90 |} ].
Proof.
  unfold Analyze.classify_network.
  destruct (includes _ "ddos"); [cbn; tauto|].
  destruct (includes _ "port scan"); [cbn; tauto|].
  destruct (includes _ "brute force" || includes _ "failed login"); cbn; tauto.
Qed.

Lemma classify_intent_cases (text : string) :
  In (Analyze.classify_intent text)
     [ {| Analyze.intent := "Malicious"; Analyze.intent_confidence := 0.75 |};
       {| Analyze.intent := "Suspicious"; Analyze.intent_confidence := 0.65 |};
       {| Analyze.intent := "Legitimate"; Analyze.intent_confidence := 0.80 |} ].
Proof.
  unfold Analyze.classify_intent.
  destruct (2 <=? _)%nat; [cbn; tauto|].
  destruct (_ =? 1)%nat; cbn; tauto.
Qed.

End AnalyzeFacts.

Lemma threatScore_returns (results : Analyze.SimulationResults) v n :
  Analyze.vulnerability_classifier results = Some v ->
  Analyze.network_analyzer results = Some n ->
  exists score, Analyze.threatScore results = Ok score.
Proof.
  intros Hv Hn. unfold Analyze.threatScore. rewrite Hv, Hn. cbn.
  destruct (Analyze.intent_classifier results) as [i|]; cbn;
    repeat match goal with
           | |- context [if ?b then _ else _] => destruct b; cbn
           end; eexists; reflexivity.
Qed.

(** The simulation returns when it was asked for the two models whose
    confidence [calculateThreatLevel] reads without a guard. *)
Lemma simulateAnalysis_returns {platform : Platform} (env : Env) (text : string) (models : list string) :
  contains models "vulnerability_classifier" = true ->
  contains models "network_analyzer" = true ->
  exists r, run env (Analyze.simulateAnalysis text models) = (Ok r, []).
Proof.
  intros Hv Hn. unfold Analyze.simulateAnalysis. io.
  unfold Analyze.calculateThreatLevel.
  match goal with
  | |- context [Analyze.threatScore ?r] =>
      destruct (threatScore_returns r (Analyze.classify_vulnerability text)
                  (Analyze.classify_network text)) as [score Hs]
  end.
  - cbn. now rewrite Hv.
  - cbn. now rewrite Hn.
  - rewrite Hs. eexists; reflexivity.
Qed.


Ltac each_outcome H :=
  cbn in H;
  repeat match type of H with
         | _ \/ _ => destruct H as [H | H]
         end;
  [ subst .. | contradiction ].

(** On the outcomes of the three matchers the sum computed by the code is
    the weighted score of the specification. *)
Lemma threatScore_is_weighted_score (results : Analyze.SimulationResults) v n score :
  Analyze.vulnerability_classifier results = Some v ->
  Analyze.network_analyzer results = Some n ->
  In v Outcomes.vulnerability ->
  In n Outcomes.network ->
  (forall i, Analyze.intent_classifier results = Some i -> In i Outcomes.intent) ->
  Analyze.threatScore results = Ok score ->
  score = Spec.weighted_score results.
Proof.
  intros Hv Hn Iv In_ Ii. unfold Analyze.threatScore, Spec.weighted_score.
  rewrite Hv, Hn.
  destruct (Analyze.intent_classifier results) as [i|].
  - specialize (Ii i eq_refl).
    each_outcome Iv; each_outcome In_; each_outcome Ii;
      vm_compute; intros H; injection H as <-; reflexivity.
  - each_outcome Iv; each_outcome In_;
      vm_compute; intros H; injection H as <-; reflexivity.
Qed.


Lemma simulateAnalysis_fields {platform : Platform} env text models r tr :
  run env (Analyze.simulateAnalysis text models) = (Ok r, tr) ->
  exists score,
    Analyze.threatScore r = Ok score
    /\ Analyze.overall_threat_level r = Some (Analyze.threat_level score)
    /\ Analyze.vulnerability_classifier r = Some (Analyze.classify_vulnerability text)
    /\ Analyze.network_analyzer r = Some (Analyze.classify_network text)
    /\ (forall i, Analyze.intent_classifier r = Some i -> i = Analyze.classify_intent text)
    /\ tr = [].
Proof.
  unfold Analyze.simulateAnalysis. io. unfold Analyze.calculateThreatLevel.
  match goal with
  | |- context [Analyze.threatScore ?x] => set (results := x)
  end.
  destruct (Analyze.threatScore results) as [score|e] eqn:Hs; [|discriminate].
  intros H; injection H as <- <-. exists score.
  assert (Hv : exists v, Analyze.vulnerability_classifier results = Some v).
  { destruct (Analyze.vulnerability_classifier results) eqn:E; [eauto|].
    unfold Analyze.threatScore in Hs. rewrite E in Hs. discriminate. }
  assert (Hn : exists n, Analyze.network_analyzer results = Some n).
  { destruct (Analyze.network_analyzer results) eqn:E; [eauto|].
    destruct Hv as [v Hv].
    unfold Analyze.threatScore in Hs. rewrite Hv, E in Hs. cbn in Hs.
    destruct (negb _) in Hs; discriminate. }
  destruct Hv as [v Hv], Hn as [n Hn]. subst results. cbn in *.
  repeat split.
  - exact Hs.
  - destruct (contains models "vulnerability_classifier"); [reflexivity|discriminate].
  - destruct (contains models "network_analyzer"); [reflexivity|discriminate].
  - intros i. destruct (contains models "intent_classifier"); congruence.
Qed.

(** C2.  Every result of the simulation carries the verdict that the
    thresholds give to its weighted score (vulnerability x3 unless SAFE,
    network x2 unless NORMAL, intent x2.5 when Malicious and x1 when
    Suspicious); the scores 2.5, 1.5, 0.5, 0.01 and 0 are critical, high,
    medium, low and safe. *)
Theorem simulated_verdict_is_thresholded_score
    {platform : Platform} (env : Env) (text : string) (models : list string)
    (r : Analyze.SimulationResults) (tr : list event) :
  run env (Analyze.simulateAnalysis text models) = (Ok r, tr) ->
  Analyze.overall_threat_level r = Some (Spec.verdict (Spec.weighted_score r))
  /\ Analyze.threat_level 2.5 = "critical"
  /\ Analyze.threat_level 1.5 = "high"
  /\ Analyze.threat_level 0.5 = "medium"
  /\ Analyze.threat_level 0.01 = "low"
  /\ Analyze.threat_level 0 = "safe".
Proof.
  intros H. split; [|repeat split; reflexivity].
  destruct (simulateAnalysis_fields _ _ _ _ _ H) as (score & Hs & Ho & Hv & Hn & Hi & _).
  rewrite Ho, threat_level_is_verdict. do 2 f_equal.
  eapply threatScore_is_weighted_score; eauto.
  - apply classify_vulnerability_cases.
  - apply classify_network_cases.
  - intros i Hi'. rewrite (Hi i Hi'). apply classify_intent_cases.
Qed.

Lemma simulated_verdict_is_thresholded_score_witness :
  run Examples.offline
      (Analyze.simulateAnalysis (platform := Examples.platform)
         "<script>alert(1)</script>" Analyze.default_models)
    = (Ok Examples.xss_results, [])
  /\ Analyze.overall_threat_level Examples.xss_results
       = Some (Spec.verdict (Spec.weighted_score Examples.xss_results)).
Proof.
  assert (H : run Examples.offline
                (Analyze.simulateAnalysis (platform := Examples.platform)
         "<script>alert(1)</script>" Analyze.default_models)
              = (Ok Examples.xss_results, [])) by reflexivity.
  split; [exact H|].
  exact (proj1 (simulated_verdict_is_thresholded_score _ _ _ _ _ H)).
Defined.

(** The simulation throws when it was not asked for one of the two models. *)
Lemma simulateAnalysis_throws {platform : Platform} env text models :
  contains models "vulnerability_classifier" = false
    \/ contains models "network_analyzer" = false ->
  exists e, forall tr, Analyze.simulateAnalysis text models env tr = (Throw e, tr).
Proof.
  intros Hmodels.
  unfold Analyze.simulateAnalysis. io. unfold Analyze.calculateThreatLevel.
  match goal with
  | |- context [Analyze.threatScore ?x] => set (results := x)
  end.
  assert (Hthrow : exists e, Analyze.threatScore results = Throw e).
  { unfold Analyze.threatScore. subst results. cbn.
    destruct Hmodels as [-> | ->]; cbn.
    - eauto.
    - destruct (contains models "vulnerability_classifier"); cbn;
        [destruct (negb _)|]; cbn; eauto. }
  destruct Hthrow as [e ->]. exists e. reflexivity.
Qed.

(** Without an analysis from the Python server the route answers with the
    simulation, or with 500 when the simulation throws. *)
Lemma POST_without_python {platform : Platform} env text models :
  text <> "" ->
  Outcomes.python_analysis
    (network env 0
       (Analyze.analyze_request (Analyze.getPythonServerUrl env) text (Analyze.models_or_default models)))
    = None ->
  fst (run env (Analyze.POST (Ok {| Analyze.text := text; Analyze.models := models |})))
  = match fst (Analyze.simulateAnalysis text (Analyze.models_or_default models) env
                 [EvFetch (Analyze.analyze_request (Analyze.getPythonServerUrl env) text
                             (Analyze.models_or_default models))]) with
    | Ok r => Ok {| http_status := 200; body := Analyze.Simulation r |}
    | Throw _ => Ok {| http_status := 500; body := Analyze.InternalServerError |}
    end.
Proof.
  intros Htext Hpy. unfold Analyze.POST. io.
  cbn [Analyze.text Analyze.models].
  destruct (String.eqb_spec text ""); [contradiction|].
  unfold Outcomes.python_analysis in Hpy. cbn [count_fetch filter length app].
  set (sim := Analyze.simulateAnalysis text (Analyze.models_or_default models)). clearbody sim.
  destruct (network env 0 _) as [response|e']; cbn.
  - destruct (ok response); cbn.
    + destruct (parsed response) as [[| | | | |fields]|e'']; cbn [opt_prop] in Hpy;
        cbn -[Analyze.threat_log]; try discriminate;
        try (destruct (sim env _) as [[]]; reflexivity).
      destruct (Analyze.threat_log (assoc "overall_threat_level" fields));
        [discriminate|].
      cbn. destruct (sim env _) as [[]]; reflexivity.
    + destruct (sim env _) as [[]]; reflexivity.
  - destruct (sim env _) as [[]]; reflexivity.
Qed.

(** C9.  With [vulnerability_classifier] (or [network_analyzer]) absent from
    the results the guard of [calculateThreatLevel] holds and the read of
    [confidence] throws; so a request with a text, whose list of models
    omits one of the two, gets the answer 500 whenever the Python server
    gives no analysis. *)
Theorem absent_model_reaches_internal_error :
  (forall results,
      Analyze.vulnerability_classifier results = None ->
      strict_neq (option_map Analyze.vulnerability_type
                    (Analyze.vulnerability_classifier results)) "SAFE" = true
      /\ exists e, Analyze.calculateThreatLevel results = Throw e)
  /\ (forall results,
      Analyze.network_analyzer results = None ->
      strict_neq (option_map Analyze.traffic_type
                    (Analyze.network_analyzer results)) "NORMAL" = true
      /\ exists e, Analyze.calculateThreatLevel results = Throw e)
  /\ (forall (platform : Platform) env text models,
      text <> "" ->
      contains models "vulnerability_classifier" = false
        \/ contains models "network_analyzer" = false ->
      Outcomes.python_analysis
        (network env 0 (Analyze.analyze_request (Analyze.getPythonServerUrl env) text models))
        = None ->
      fst (run env (Analyze.POST (Ok {| Analyze.text := text; Analyze.models := Some models |})))
        = Ok {| http_status := 500; body := Analyze.InternalServerError |}).
Proof.
  split; [|split].
  - intros results H. rewrite H. split; [reflexivity|].
    unfold Analyze.calculateThreatLevel, Analyze.threatScore. rewrite H. cbn. eauto.
  - intros results H. rewrite H. split; [reflexivity|].
    unfold Analyze.calculateThreatLevel, Analyze.threatScore. rewrite H. cbn.
    destruct (strict_neq _ "SAFE"); [destruct (deref _ _)|]; cbn; eauto.
  - intros platform env text models Htext Hmodels Hpy.
    rewrite POST_without_python by assumption. cbn [Analyze.models_or_default].
    destruct (simulateAnalysis_throws env text models Hmodels) as [e He].
    now rewrite He.
Qed.

Lemma absent_model_reaches_internal_error_witness :
  "hello" <> ""
  /\ (contains ["intent_classifier"] "vulnerability_classifier" = false
      \/ contains ["intent_classifier"] "network_analyzer" = false)
  /\ fst (run Examples.offline
            (Analyze.POST (platform := Examples.platform)
               (Ok {| Analyze.text := "hello";
                      Analyze.models := Some ["intent_classifier"] |})))
       = Ok {| http_status := 500; body := Analyze.InternalServerError |}.
Proof.
  assert (H1 : "hello" <> "") by discriminate.
  assert (H2 : contains ["intent_classifier"] "vulnerability_classifier" = false
               \/ contains ["intent_classifier"] "network_analyzer" = false)
    by (left; reflexivity).
  split; [exact H1 | split; [exact H2 |]].
  exact (proj2 (proj2 absent_model_reaches_internal_error)
           Examples.platform Examples.offline "hello" ["intent_classifier"] H1 H2 eq_refl).
Defined.

(** ** The chat route *)

Section ChatFacts.
Context {platform : Platform}.

Lemma generateLocalResponse_run (b : Chat.AdaptedBody) env tr :
  Chat.generateLocalResponse (Chat.query b) (Chat.session_id b) env tr
  = (Ok (Transports.local_answer env b), tr).
Proof. reflexivity. Qed.

(** The fallback function never throws: it answers from the fallback
    endpoint, or else from the local synthesizer. *)
Lemma tryFallbackAPI_run (b : Chat.AdaptedBody) env tr :
  Chat.tryFallbackAPI b env tr
  = (Ok match Transports.fallback_reply
                (network env (count_fetch tr) (Chat.fallback_request b)) with
        | Some (content, metadata) => Transports.fallback_answer content metadata
        | None => Transports.local_answer env b
        end,
     tr ++ [EvFetch (Chat.fallback_request b)]).
Proof.
  unfold Chat.tryFallbackAPI, Transports.fallback_reply. io.
  destruct (network env _ _) as [response|e]; cbn; [|reflexivity].
  destruct (ok response); cbn; [|reflexivity].
  destruct (parsed response) as [[]|e]; reflexivity.
Qed.

(** A request whose message is a string that is not empty goes to the
    primary backend, and to the fallback function unless the backend
    replies. *)
Lemma POST_run env fields message :
  assoc "message" fields = Some (JStr message) ->
  message <> "" ->
  run env (Chat.POST (Ok (JObj fields)))
  = match Transports.primary_reply
            (network env 0 (Chat.primary_request env (Transports.adapted fields message))) with
    | Some (content, metadata) =>
        (Ok (Transports.backend_answer env content metadata),
         [EvFetch (Chat.primary_request env (Transports.adapted fields message))])
    | None =>
        Chat.tryFallbackAPI (Transports.adapted fields message) env
          [EvFetch (Chat.primary_request env (Transports.adapted fields message))]
    end.
Proof.
  intros Hm Hne. unfold Chat.POST. io. cbn [prop]. rewrite Hm.
  cbn [Chat.substring_call truthy Chat.is_string negb orb Chat.as_string].
  destruct (String.eqb_spec message ""); [contradiction|].
  cbn -[Chat.tryFallbackAPI Chat.primary_request Chat.session_or_default].
  fold (Transports.adapted fields message).
  set (b := Transports.adapted fields message).
  set (req := Chat.primary_request env b).
  clearbody req. clearbody b.
  unfold Transports.primary_reply.
  pose proof (tryFallbackAPI_run b env [EvFetch req]) as Hf.
  destruct (network env 0 req) as [response|e]; cbn -[Chat.tryFallbackAPI]; [|now rewrite Hf].
  destruct (ok response); cbn -[Chat.tryFallbackAPI]; [|now rewrite Hf].
  destruct (parsed response) as [[| | | | |obj]|e]; cbn -[Chat.tryFallbackAPI];
    try (now rewrite Hf).
  - destruct b0; cbn -[Chat.tryFallbackAPI]; now rewrite Hf.
  - destruct (negb _); cbn -[Chat.tryFallbackAPI]; now rewrite Hf.
  - destruct (negb _); cbn -[Chat.tryFallbackAPI]; now rewrite Hf.
  - destruct (assoc "content" obj); cbn -[Chat.tryFallbackAPI]; [reflexivity|now rewrite Hf].
Qed.

End ChatFacts.

Lemma primary_fails_iff (r : result Response) :
  Transports.primary_fails r <-> Transports.primary_reply r = None.
Proof.
  split.
  - intros [e | response H | response e H1 H2 | response data H1 H2 H3]; cbn.
    + reflexivity.
    + now rewrite H.
    + now rewrite H1, H2.
    + rewrite H1, H2. destruct data; try reflexivity.
      cbn in H3. now rewrite H3.
  - destruct r as [response|e]; cbn; [|constructor].
    destruct (ok response) eqn:Hok; [|now constructor].
    destruct (parsed response) as [data|e] eqn:Hp; [|intros _; eapply Transports.body_not_json; eauto].
    intros H. eapply Transports.missing_content; eauto.
    destruct data; try reflexivity. cbn.
    destruct (assoc "content" fields); [discriminate|reflexivity].
Qed.

(** C3.  When the primary transport fails (network error or timeout, non-2xx
    answer, body that is not JSON, or no [content] field), the route calls
    the fallback endpoint next, and answers from the local synthesizer only
    if that call gives no reply; a tier that replies ends the request: no
    later transport is called. *)
Theorem fallback_is_tried_before_local_synthesis
    {platform : Platform} (env : Env) (fields : list (string * json)) (message : string) :
  assoc "message" fields = Some (JStr message) ->
  message <> "" ->
  let b := Transports.adapted fields message in
  let primary := network env 0 (Chat.primary_request env b) in
  let secondary := network env 1 (Chat.fallback_request b) in
  let answer := fst (run env (Chat.POST (Ok (JObj fields)))) in
  let calls := snd (run env (Chat.POST (Ok (JObj fields)))) in
  (Transports.primary_fails primary ->
     calls = [EvFetch (Chat.primary_request env b); EvFetch (Chat.fallback_request b)]
     /\ (forall content metadata,
           Transports.fallback_reply secondary = Some (content, metadata) ->
           answer = Ok (Transports.fallback_answer content metadata))
     /\ (Transports.fallback_reply secondary = None ->
           answer = Ok (Transports.local_answer env b)))
  /\ (forall content metadata,
        Transports.primary_reply primary = Some (content, metadata) ->
        calls = [EvFetch (Chat.primary_request env b)]
        /\ answer = Ok (Transports.backend_answer env content metadata)).
Proof.
  intros Hm Hne b primary secondary answer calls.
  subst answer calls. rewrite (POST_run env fields message Hm Hne).
  fold b. fold primary. split.
  - intros Hfail. apply primary_fails_iff in Hfail. rewrite Hfail.
    rewrite tryFallbackAPI_run. cbn [fst snd count_fetch filter length app].
    fold secondary. repeat split.
    + intros content metadata H. now rewrite H.
    + intros H. now rewrite H.
  - intros content metadata H. rewrite H. split; reflexivity.
Qed.

Lemma fallback_is_tried_before_local_synthesis_witness :
  assoc "message" Examples.bonjour = Some (JStr "bonjour")
  /\ "bonjour" <> ""
  /\ Transports.primary_fails
       (network Examples.backend_down 0
          (Chat.primary_request Examples.backend_down
             (Transports.adapted Examples.bonjour "bonjour")))
  /\ snd (run Examples.backend_down
            (Chat.POST (platform := Examples.platform) (Ok (JObj Examples.bonjour))))
     = [EvFetch (Chat.primary_request Examples.backend_down
                   (Transports.adapted Examples.bonjour "bonjour"));
        EvFetch (Chat.fallback_request (Transports.adapted Examples.bonjour "bonjour"))]
  /\ fst (run Examples.backend_down
            (Chat.POST (platform := Examples.platform) (Ok (JObj Examples.bonjour))))
     = Ok (Transports.fallback_answer (Some (JStr "ok")) None).
Proof.
  assert (H1 : assoc "message" Examples.bonjour = Some (JStr "bonjour")) by reflexivity.
  assert (H2 : "bonjour" <> "") by discriminate.
  assert (H3 : Transports.primary_fails
                 (network Examples.backend_down 0
                    (Chat.primary_request Examples.backend_down
                       (Transports.adapted Examples.bonjour "bonjour"))))
    by constructor.
  pose proof (fallback_is_tried_before_local_synthesis
                (platform := Examples.platform) Examples.backend_down
                Examples.bonjour "bonjour" H1 H2) as [H _].
  destruct (H H3) as (Hcalls & Hfb & _).
  exact (conj H1 (conj H2 (conj H3 (conj Hcalls (Hfb _ _ eq_refl))))).
Defined.

(** C5, as stated, fails: the backend answers, and the answer that the route
    returns carries the tag of the local tier. *)
Lemma source_tag_can_name_another_tier :
  run Examples.backend_tags_local
      (Chat.POST (platform := Examples.platform) (Ok (JObj Examples.bonjour)))
    = (Ok (Transports.backend_answer Examples.backend_tags_local (JStr "hi")
             (Some (JObj [("source", JStr "local_fallback")]))),
       [EvFetch (Chat.primary_request Examples.backend_tags_local
                   (Transports.adapted Examples.bonjour "bonjour"))])
  /\ Transports.producer
       (network Examples.backend_tags_local 0
          (Chat.primary_request Examples.backend_tags_local
             (Transports.adapted Examples.bonjour "bonjour")))
       (network Examples.backend_tags_local 1
          (Chat.fallback_request (Transports.adapted Examples.bonjour "bonjour")))
     = Transports.Backend
  /\ Transports.tier_of_source
       (Chat.source
          (Transports.backend_answer Examples.backend_tags_local (JStr "hi")
             (Some (JObj [("source", JStr "local_fallback")]))))
     = Some Transports.Local.
Proof. repeat split. Qed.

(** C5, amended.  An answer of the fallback endpoint is tagged
    [fallback_api] and a synthesized one [local_fallback]; an answer of the
    backend keeps the [metadata.source] the backend gave, if truthy, and is
    tagged [agentic_agent] otherwise.  So the tag names the tier that
    produced the content whenever the tag the backend gives is not one of
    the tags the route writes for the other tiers. *)
Theorem source_tag_of_each_tier
    {platform : Platform} (env : Env) (fields : list (string * json)) (message : string) :
  assoc "message" fields = Some (JStr message) ->
  message <> "" ->
  let b := Transports.adapted fields message in
  let primary := network env 0 (Chat.primary_request env b) in
  let secondary := network env 1 (Chat.fallback_request b) in
  exists answer calls,
    run env (Chat.POST (Ok (JObj fields))) = (Ok answer, calls)
    /\ match Transports.producer primary secondary with
       | Transports.Fallback => Chat.source answer = Some (JStr "fallback_api")
       | Transports.Local => Chat.source answer = Some (JStr "local_fallback")
       | Transports.Backend =>
           exists content metadata,
             Transports.primary_reply primary = Some (content, metadata)
             /\ Chat.source answer = Transports.backend_source metadata
       end
    /\ ((forall content metadata,
           Transports.primary_reply primary = Some (content, metadata) ->
           Transports.tier_of_source (Transports.backend_source metadata)
             = Some Transports.Backend) ->
        Transports.tier_of_source (Chat.source answer)
          = Some (Transports.producer primary secondary)).
Proof.
  intros Hm Hne b primary secondary.
  rewrite (POST_run env fields message Hm Hne). fold b. fold primary.
  unfold Transports.producer.
  destruct (Transports.primary_reply primary) as [[content metadata]|] eqn:Hp.
  - eexists _, _. split; [reflexivity|]. split.
    + exists content, metadata. split; reflexivity.
    + intros H. exact (H _ _ eq_refl).
  - rewrite tryFallbackAPI_run. cbn [count_fetch filter length app]. fold secondary.
    destruct (Transports.fallback_reply secondary) as [[content metadata]|];
      eexists _, _; (split; [reflexivity|]); split; intros; reflexivity.
Qed.

Lemma source_tag_of_each_tier_witness :
  assoc "message" Examples.bonjour = Some (JStr "bonjour")
  /\ "bonjour" <> ""
  /\ exists answer calls,
       run Examples.backend_down
           (Chat.POST (platform := Examples.platform) (Ok (JObj Examples.bonjour)))
         = (Ok answer, calls)
       /\ Chat.source answer = Some (JStr "fallback_api").
Proof.
  assert (H1 : assoc "message" Examples.bonjour = Some (JStr "bonjour")) by reflexivity.
  assert (H2 : "bonjour" <> "") by discriminate.
  destruct (source_tag_of_each_tier (platform := Examples.platform)
              Examples.backend_down Examples.bonjour "bonjour" H1 H2)
    as (answer & calls & Hrun & Htag & _).
  exact (conj H1 (conj H2 (ex_intro _ answer (ex_intro _ calls (conj Hrun Htag))))).
Defined.

(** The scenario of the specification: both transports fail, and the
    question about prices gets the pricing template, tagged as local. *)
Example tarifs_are_answered_locally :
  exists answer,
    run Examples.offline
        (Chat.POST (platform := Examples.platform)
           (Ok (JObj [("message", JStr "Quels sont vos tarifs ?")])))
      = (Ok answer,
         [EvFetch (Chat.primary_request Examples.offline
                     (Transports.adapted [] "Quels sont vos tarifs ?"));
          EvFetch (Chat.fallback_request (Transports.adapted [] "Quels sont vos tarifs ?"))])
    /\ Chat.content (body answer) = Some (JStr Chat.pricing_template)
    /\ Chat.source answer = Some (JStr "local_fallback").
Proof. eexists. repeat split. Qed.

(** ** The local synthesizer *)

(** C6, as stated, fails: a text that only names the product gets the
    description of the product, a fourth rule, and not the generic reply
    that comes after the greeting in the order pricing, features, greeting,
    generic. *)
Lemma about_rule_precedes_generic_reply :
  Chat.local_text (platform := Examples.platform) "teamsquare" = Chat.about_template
  /\ Spec.synthesize (platform := Examples.platform) "teamsquare"
     = Chat.generic_template "teamsquare"
  /\ Chat.local_text (platform := Examples.platform) "teamsquare"
     <> Spec.synthesize (platform := Examples.platform) "teamsquare".
Proof.
  split; [reflexivity|]. split; [reflexivity|].
  vm_compute. discriminate.
Qed.

Lemma existsb3 (f : string -> bool) (a b c : string) :
  existsb f [a; b; c] = f a || f b || f c.
Proof. cbn. now rewrite orb_false_r, orb_assoc. Qed.

Lemma existsb2 (f : string -> bool) (a b : string) :
  existsb f [a; b] = f a || f b.
Proof. cbn. now rewrite orb_false_r. Qed.

(** C6, amended.  The synthesizer tries its rules in the order pricing,
    features, greeting, product description, and gives the generic reply
    when none matches; the first rule that matches wins.  So a text with a
    pricing keyword and a feature keyword gets the pricing template. *)
Theorem local_reply_is_first_matching_rule {platform : Platform} (query : string) :
  Chat.local_text query
    = Spec.first_match [Spec.pricing; Spec.features; Spec.greeting; Spec.about] query
  /\ (Spec.matches query Spec.pricing = true ->
      Spec.matches query Spec.features = true ->
      Chat.local_text query = Chat.pricing_template).
Proof.
  unfold Chat.local_text, Spec.first_match, Spec.matches.
  cbn [find fst snd Spec.pricing Spec.features Spec.greeting Spec.about].
  rewrite !existsb3, existsb2.
  split.
  - repeat match goal with
           | |- context [if ?c then _ else _] => destruct c
           end; reflexivity.
  - intros -> _. reflexivity.
Qed.

Lemma local_reply_is_first_matching_rule_witness :
  Spec.matches (platform := Examples.platform)
    "Quel est le prix de cette fonction ?" Spec.pricing = true
  /\ Spec.matches (platform := Examples.platform)
       "Quel est le prix de cette fonction ?" Spec.features = true
  /\ Chat.local_text (platform := Examples.platform)
       "Quel est le prix de cette fonction ?" = Chat.pricing_template.
Proof.
  assert (H1 : Spec.matches (platform := Examples.platform)
                 "Quel est le prix de cette fonction ?" Spec.pricing = true)
    by reflexivity.
  assert (H2 : Spec.matches (platform := Examples.platform)
                 "Quel est le prix de cette fonction ?" Spec.features = true)
    by reflexivity.
  exact (conj H1 (conj H2
           (proj2 (local_reply_is_first_matching_rule (platform := Examples.platform)
                     "Quel est le prix de cette fonction ?") H1 H2))).
Defined.

(** ** Every request is answered *)

(** No exception leaves the chat route: every request, whatever the
    transports do, ends in an answer. *)
Lemma POST_always_answers {platform : Platform} (env : Env) (request : result json) :
  exists answer calls, run env (Chat.POST request) = (Ok answer, calls).
Proof.
  unfold Chat.POST, run, try_catch.
  match goal with
  | |- context [match ?m env [] with _ => _ end] => destruct (m env []) as [[answer|e] calls]
  end.
  - eauto.
  - io. eauto.
Qed.

(** The answer does not always carry a content.  The backend is down and
    an endpoint that answers 200 with the body [{}] stands for the fallback:
    the route returns the answer of the fallback tier with [content]
    undefined, where the primary tier, on the same body, goes on to the next
    tier. *)
Lemma fallback_answer_can_lack_content :
  run Examples.fallback_without_content
      (Chat.POST (platform := Examples.platform) (Ok (JObj Examples.bonjour)))
    = (Ok (Transports.fallback_answer None None),
       [EvFetch (Chat.primary_request Examples.fallback_without_content
                   (Transports.adapted Examples.bonjour "bonjour"));
        EvFetch (Chat.fallback_request (Transports.adapted Examples.bonjour "bonjour"))])
  /\ Chat.content (body (Transports.fallback_answer None None)) = None
  /\ Transports.primary_reply (Examples.answer 200 (JObj [])) = None.
Proof. repeat split. Qed.

(** A request without a message that is a non-empty string is answered
    at once, with a content and without any call. *)
Lemma POST_cases {platform : Platform} (env : Env) (request : result json) :
  (exists fields message,
      request = Ok (JObj fields)
      /\ assoc "message" fields = Some (JStr message) /\ message <> "")
  \/ (exists answer,
        run env (Chat.POST request) = (Ok answer, [])
        /\ Chat.content (body answer) <> None).
Proof.
  destruct request as [[| | | |items|fields]|e];
    try (right; eexists; split; [reflexivity|discriminate]).
  destruct (assoc "message" fields) as [[| | |message| |]|] eqn:Hm;
    try (right; unfold Chat.POST; io; cbn [prop]; rewrite Hm; eexists; split;
         [reflexivity|discriminate]).
  destruct (String.eqb_spec message "") as [->|Hne].
  - right. unfold Chat.POST. io. cbn [prop]. rewrite Hm. eexists; split;
      [reflexivity|discriminate].
  - left. eauto.
Qed.

(** That is the only way: an answer without content is an answer of the
    fallback endpoint whose body has no [content]. *)
Lemma content_is_missing_only_from_fallback
    {platform : Platform} (env : Env) (request : result json) answer calls :
  run env (Chat.POST request) = (Ok answer, calls) ->
  Chat.content (body answer) = None ->
  exists metadata, answer = Transports.fallback_answer None metadata.
Proof.
  intros Hrun Hnone.
  destruct (POST_cases env request) as [(fields & message & -> & Hm & Hne) | (a & Ha & Hc)].
  - rewrite (POST_run env fields message Hm Hne) in Hrun.
    destruct (Transports.primary_reply _) as [[content metadata]|].
    + injection Hrun as <- <-. discriminate.
    + rewrite tryFallbackAPI_run in Hrun. injection Hrun as <- <-.
      destruct (Transports.fallback_reply _) as [[content metadata]|].
      * cbn in Hnone. subst content. eauto.
      * discriminate.
  - rewrite Hrun in Ha. injection Ha as <- _. contradiction.
Qed.

(** The calls of the chat route: none, the primary backend, or the primary
    backend and then the fallback endpoint; no call is made twice, and each
    carries its own timeout signal. *)
Lemma POST_calls {platform : Platform} (env : Env) (request : result json) answer calls :
  run env (Chat.POST request) = (Ok answer, calls) ->
  calls = []
  \/ exists b,
       (calls = [EvFetch (Chat.primary_request env b)]
        \/ calls = [EvFetch (Chat.primary_request env b); EvFetch (Chat.fallback_request b)])
       /\ signal (Chat.primary_request env b) = Some 30000%Z
       /\ signal (Chat.fallback_request b) = Some 15000%Z.
Proof.
  intros Hrun.
  destruct (POST_cases env request) as [(fields & message & -> & Hm & Hne) | (a & Ha & _)].
  - right. exists (Transports.adapted fields message).
    rewrite (POST_run env fields message Hm Hne) in Hrun.
    destruct (Transports.primary_reply _) as [[content metadata]|].
    + injection Hrun as _ <-. auto.
    + rewrite tryFallbackAPI_run in Hrun. injection Hrun as _ <-. auto.
  - left. rewrite Hrun in Ha. now injection Ha as _ ->.
Qed.

(** ** The transport wrapper *)

(** C7, as stated, fails on the calls of the chat route: the call of the
    primary backend is rejected, and the route, without a wait and without
    another call of the backend, calls the fallback endpoint and returns its
    answer. *)
Lemma failed_primary_call_is_not_retried :
  let b := Transports.adapted Examples.bonjour "bonjour" in
  network Examples.backend_down 0 (Chat.primary_request Examples.backend_down b)
    = Throw (mkError "fetch failed")
  /\ run Examples.backend_down
         (Chat.POST (platform := Examples.platform) (Ok (JObj Examples.bonjour)))
     = (Ok (Transports.fallback_answer (Some (JStr "ok")) None),
        [EvFetch (Chat.primary_request Examples.backend_down b);
         EvFetch (Chat.fallback_request b)]).
Proof. split; reflexivity. Qed.

(** C7, amended.  The chat route makes one attempt on each transport and
    never waits: a request is answered without any call, or after one POST
    to the primary backend under a signal of 30 s, or, when that attempt
    fails (rejected call, which is what a network error or the signal
    gives, other status than 2xx, body that is not JSON or has no
    [content]), after that call and one POST to the fallback endpoint under
    a signal of 15 s.  No error of a transport is returned: the answer is
    the one of the first transport that replies, or the local one. *)
Theorem chat_route_tries_each_transport_once
    {platform : Platform} (env : Env) (request : result json) :
  exists answer calls,
    run env (Chat.POST request) = (Ok answer, calls)
    /\ (forall ms, ~ In (EvSleep ms) calls)
    /\ (calls = []
        \/ exists b,
             let primary := Chat.primary_request env b in
             let secondary := Chat.fallback_request b in
             method primary = "POST" /\ signal primary = Some 30000%Z
             /\ method secondary = "POST" /\ signal secondary = Some 15000%Z
             /\ ((exists content metadata,
                     Transports.primary_reply (network env 0 primary)
                       = Some (content, metadata)
                     /\ calls = [EvFetch primary]
                     /\ answer = Transports.backend_answer env content metadata)
                 \/ (Transports.primary_fails (network env 0 primary)
                     /\ calls = [EvFetch primary; EvFetch secondary]
                     /\ answer
                        = match Transports.fallback_reply (network env 1 secondary) with
                          | Some (content, metadata) =>
                              Transports.fallback_answer content metadata
                          | None => Transports.local_answer env b
                          end))).
Proof.
  destruct (POST_cases env request) as [(fields & message & -> & Hm & Hne) | (a & Ha & _)].
  - rewrite (POST_run env fields message Hm Hne).
    set (b := Transports.adapted fields message).
    destruct (Transports.primary_reply (network env 0 (Chat.primary_request env b)))
      as [[content metadata]|] eqn:Hreply.
    + eexists _, _. split; [reflexivity|]. split.
      * intros ms [H|[]]. discriminate.
      * right. exists b. cbv zeta. do 4 (split; [reflexivity|]).
        left. exists content, metadata. repeat split. exact Hreply.
    + rewrite tryFallbackAPI_run. eexists _, _. split; [reflexivity|]. split.
      * intros ms [H|[H|[]]]; discriminate.
      * right. exists b. cbv zeta. do 4 (split; [reflexivity|]).
        right. split; [now apply primary_fails_iff|]. split; reflexivity.
  - exists a, []. split; [exact Ha|]. split; [intros ms []|now left].
Qed.

Lemma chat_route_tries_each_transport_once_witness :
  exists answer calls,
    run Examples.offline
        (Chat.POST (platform := Examples.platform) (Ok (JObj Examples.bonjour)))
      = (Ok answer, calls)
    /\ ~ In (EvSleep 1000%Z) calls.
Proof.
  destruct (chat_route_tries_each_transport_once (platform := Examples.platform)
              Examples.offline (Ok (JObj Examples.bonjour)))
    as (answer & calls & Hrun & Hsleep & _).
  exists answer, calls. split; [exact Hrun|exact (Hsleep 1000%Z)].
Defined.

(** C8, as stated, fails: the backend answers 200 with the body
    [{ "content": null }], which passes the check of the route, and the
    route answers with the content [null]. *)
Lemma null_content_of_the_backend_is_passed_on :
  run Examples.backend_content_null
      (Chat.POST (platform := Examples.platform) (Ok (JObj Examples.bonjour)))
    = (Ok (Transports.backend_answer Examples.backend_content_null JNull None),
       [EvFetch (Chat.primary_request Examples.backend_content_null
                   (Transports.adapted Examples.bonjour "bonjour"))])
  /\ Chat.content (body (Transports.backend_answer Examples.backend_content_null JNull None))
     = Some JNull.
Proof. split; reflexivity. Qed.

Lemma local_text_not_empty {platform : Platform} (query : string) :
  Chat.local_text query <> "".
Proof.
  unfold Chat.local_text.
  repeat match goal with
         | |- (if ?c then _ else _) <> _ => destruct c
         end; discriminate.
Qed.

(** C8, amended.  No exception leaves the chat route: every request,
    whatever the transports do, ends in an answer.  The content of the
    answer is a text that is not empty when the route writes it itself: for
    a request that is refused (400), for an error of the route (500), and
    when both transports have failed (the local text).  When the primary
    backend replies, the content is the one of its body, passed on as it
    is: the route checks that the key [content] is there, not what it
    holds.  When the fallback endpoint replies with a content, that content
    is passed on as it is. *)
Theorem chat_route_answers_with_its_text_or_the_content_it_was_given
    {platform : Platform} (env : Env) (request : result json) :
  exists answer calls,
    run env (Chat.POST request) = (Ok answer, calls)
    /\ ((exists text,
           Chat.content (body answer) = Some (JStr text)
           /\ text <> ""
           /\ ((calls = [] /\ (http_status answer = 400%Z \/ http_status answer = 500%Z))
               \/ exists b,
                    Transports.primary_reply (network env 0 (Chat.primary_request env b))
                      = None
                    /\ Transports.fallback_reply (network env 1 (Chat.fallback_request b))
                       = None
                    /\ answer = Transports.local_answer env b))
        \/ (exists b content metadata,
              Transports.primary_reply (network env 0 (Chat.primary_request env b))
                = Some (content, metadata)
              /\ answer = Transports.backend_answer env content metadata
              /\ Chat.content (body answer) = Some content)
        \/ (exists b content metadata,
              Transports.primary_reply (network env 0 (Chat.primary_request env b)) = None
              /\ Transports.fallback_reply (network env 1 (Chat.fallback_request b))
                 = Some (content, metadata)
              /\ http_status answer = 200%Z
              /\ Chat.source answer = Some (JStr "fallback_api")
              /\ forall given, content = Some given ->
                              Chat.content (body answer) = Some given)).
Proof.
  destruct request as [[| | | |items|fields]|e];
    try (eexists _, _; split; [reflexivity|]; left; eexists; split; [reflexivity|];
         split; [discriminate|]; left; split; [reflexivity|];
         first [left; reflexivity|right; reflexivity]).
  destruct (assoc "message" fields) as [[| | |message| |]|] eqn:Hm;
    try (unfold Chat.POST; io; cbn [prop]; rewrite Hm;
         eexists _, _; split; [reflexivity|]; left; eexists; split; [reflexivity|];
         split; [discriminate|]; left; split; [reflexivity|];
         first [left; reflexivity|right; reflexivity]).
  destruct (String.eqb_spec message "") as [->|Hne].
  - unfold Chat.POST. io. cbn [prop]. rewrite Hm.
    eexists _, _. split; [reflexivity|]. left. eexists. split; [reflexivity|].
    split; [discriminate|]. left. split; [reflexivity|]. left. reflexivity.
  - rewrite (POST_run env fields message Hm Hne).
    set (b := Transports.adapted fields message).
    destruct (Transports.primary_reply (network env 0 (Chat.primary_request env b)))
      as [[content metadata]|] eqn:Hreply.
    + eexists _, _. split; [reflexivity|]. right. left.
      exists b, content, metadata. repeat split. exact Hreply.
    + rewrite tryFallbackAPI_run. cbn [count_fetch filter length].
      destruct (Transports.fallback_reply (network env 1 (Chat.fallback_request b)))
        as [[content metadata]|] eqn:Hfallback.
      * eexists _, _. split; [reflexivity|]. right. right.
        exists b, content, metadata. repeat split; try assumption.
        intros given ->. reflexivity.
      * eexists _, _. split; [reflexivity|]. left.
        exists (Chat.local_text (Chat.query b)). split; [reflexivity|].
        split; [apply local_text_not_empty|]. right. exists b. repeat split; assumption.
Qed.

Lemma chat_route_answers_with_its_text_or_the_content_it_was_given_witness :
  exists answer calls,
    run Examples.backend_down
        (Chat.POST (platform := Examples.platform) (Ok (JObj Examples.bonjour)))
      = (Ok answer, calls)
    /\ Chat.content (body answer) = Some (JStr "ok").
Proof.
  destruct (chat_route_answers_with_its_text_or_the_content_it_was_given
              (platform := Examples.platform) Examples.backend_down
              (Ok (JObj Examples.bonjour)))
    as (answer & calls & Hrun & Hcases).
  exists answer, calls. split; [exact Hrun|].
  destruct Hcases
    as [(text & _ & _ & [[Hcalls _]|(b & _ & Hfallback & _)])
       |[(b & content & metadata & Hprimary & _)
        |(b & content & metadata & _ & Hfallback & _ & _ & Hgiven)]].
  - rewrite Hcalls in Hrun. discriminate Hrun.
  - discriminate Hfallback.
  - discriminate Hprimary.
  - apply Hgiven. now injection Hfallback as <- _.
Defined.




Section Loop.
Variables (cfg : ApiConfig.ApiConfig) (req : FetchRequest) (env : Env).





End Loop.



(** ** The admin actions *)

Lemma blocked_store_is_reached :
  exists response calls,
    run Examples.backend_up
        (AdminSecurity.block_system None None (AdminSecurity.initial_store Examples.stamp))
      = (Ok (response, Examples.blocked_store), calls)
    /\ AdminSecurity.SystemState.blocked (AdminSecurity.systemState Examples.blocked_store)
       = true.
Proof. eexists _, _. split; reflexivity. Qed.

(** C10.  The action does not reset the state for every prior state and
    every run: it first calls the backend, and when that call is rejected it
    answers 500 and leaves the store as it was, blocked.  The comment on
    that call says that the backend is called if it is available. *)
Lemma unblock_leaves_store_when_backend_is_unreachable :
  AdminSecurity.SystemState.blocked (AdminSecurity.systemState Examples.blocked_store) = true
  /\ run Examples.offline (AdminSecurity.unblock_system Examples.blocked_store)
     = (Ok ({| http_status := 500; body := AdminSecurity.UnblockError |},
            Examples.blocked_store),
        [EvFetch (AdminSecurity.unblock_request Examples.offline)]).
Proof. split; reflexivity. Qed.

Lemma unblock_user_spec (user : AdminSecurity.UserActivity.t) :
  AdminSecurity.UserActivity.blocked (AdminSecurity.unblock_user user) = false
  /\ AdminSecurity.UserActivity.session_id (AdminSecurity.unblock_user user)
     = AdminSecurity.UserActivity.session_id user
  /\ AdminSecurity.UserActivity.messages_count (AdminSecurity.unblock_user user)
     = AdminSecurity.UserActivity.messages_count user
  /\ AdminSecurity.UserActivity.last_activity (AdminSecurity.unblock_user user)
     = AdminSecurity.UserActivity.last_activity user
  /\ AdminSecurity.UserActivity.location (AdminSecurity.unblock_user user)
     = AdminSecurity.UserActivity.location user
  /\ (AdminSecurity.UserActivity.blocked user = true ->
      AdminSecurity.UserActivity.threat_score (AdminSecurity.unblock_user user)
      = Math_max 0.1 (AdminSecurity.UserActivity.threat_score user - 0.3))
  /\ (AdminSecurity.UserActivity.blocked user = false ->
      AdminSecurity.unblock_user user = user).
Proof.
  unfold AdminSecurity.unblock_user.
  destruct (AdminSecurity.UserActivity.blocked user) eqn:H; cbn;
    repeat split; try assumption; try reflexivity; discriminate.
Qed.

(** Whenever the call of the backend that opens the action resolves, with
    any status, the action sets [blocked] to false,
    [threat_level] to safe, empties [active_threats], and unblocks every
    blocked session, whose score becomes max(0.1, score - 0.3); the
    sessions that were not blocked, the alerts and the rest of the system
    state are unchanged. *)
Theorem unblock_system_resets_state_and_sessions
    (env : Env) (st : AdminSecurity.Store) (response : Response) :
  network env 0 (AdminSecurity.unblock_request env) = Ok response ->
  exists st',
    run env (AdminSecurity.unblock_system st)
      = (Ok ({| http_status := 200;
                body := AdminSecurity.UnblockSuccess (AdminSecurity.systemState st') |}, st'),
         [EvFetch (AdminSecurity.unblock_request env)])
    /\ AdminSecurity.SystemState.blocked (AdminSecurity.systemState st') = false
    /\ AdminSecurity.SystemState.threat_level (AdminSecurity.systemState st')
       = AdminSecurity.safe
    /\ AdminSecurity.SystemState.active_threats (AdminSecurity.systemState st') = []
    /\ AdminSecurity.SystemState.last_scan (AdminSecurity.systemState st')
       = AdminSecurity.SystemState.last_scan (AdminSecurity.systemState st)
    /\ AdminSecurity.SystemState.models_status (AdminSecurity.systemState st')
       = AdminSecurity.SystemState.models_status (AdminSecurity.systemState st)
    /\ AdminSecurity.mockAlerts st' = AdminSecurity.mockAlerts st
    /\ length (AdminSecurity.userActivities st') = length (AdminSecurity.userActivities st)
    /\ forall i user,
         nth_error (AdminSecurity.userActivities st) i = Some user ->
         exists user',
           nth_error (AdminSecurity.userActivities st') i = Some user'
           /\ AdminSecurity.UserActivity.blocked user' = false
           /\ AdminSecurity.UserActivity.session_id user'
              = AdminSecurity.UserActivity.session_id user
           /\ (AdminSecurity.UserActivity.blocked user = true ->
               AdminSecurity.UserActivity.threat_score user'
               = Math_max 0.1 (AdminSecurity.UserActivity.threat_score user - 0.3))
           /\ (AdminSecurity.UserActivity.blocked user = false -> user' = user).
Proof.
  intros Hnet.
  exists {|
    AdminSecurity.systemState := {|
      AdminSecurity.SystemState.blocked := false;
      AdminSecurity.SystemState.threat_level := AdminSecurity.safe;
      AdminSecurity.SystemState.active_threats := [];
      AdminSecurity.SystemState.last_scan :=
        AdminSecurity.SystemState.last_scan (AdminSecurity.systemState st);
      AdminSecurity.SystemState.models_status :=
        AdminSecurity.SystemState.models_status (AdminSecurity.systemState st)
    |};
    AdminSecurity.mockAlerts := AdminSecurity.mockAlerts st;
    AdminSecurity.userActivities :=
      map AdminSecurity.unblock_user (AdminSecurity.userActivities st)
  |}.
  unfold AdminSecurity.unblock_system. io.
  cbn [count_fetch filter length app]. rewrite Hnet.
  split; [reflexivity|]. cbn.
  repeat split.
  - apply length_map.
  - intros i user Hi. exists (AdminSecurity.unblock_user user).
    split; [now apply map_nth_error|].
    destruct (unblock_user_spec user) as (H1 & H2 & _ & _ & _ & H3 & H4).
    repeat split; assumption.
Qed.

Lemma unblock_system_resets_state_and_sessions_witness :
  network Examples.backend_up 0 (AdminSecurity.unblock_request Examples.backend_up)
    = Examples.answer 200 JNull
  /\ exists st',
       fst (run Examples.backend_up (AdminSecurity.unblock_system Examples.blocked_store))
         = Ok ({| http_status := 200;
                  body := AdminSecurity.UnblockSuccess (AdminSecurity.systemState st') |}, st')
       /\ AdminSecurity.SystemState.blocked (AdminSecurity.systemState st') = false
       /\ map AdminSecurity.UserActivity.threat_score (AdminSecurity.userActivities st')
          = [(0.8 - 0.3)%float; (0.9 - 0.3)%float; 0.1%float].
Proof.
  assert (H : network Examples.backend_up 0
                (AdminSecurity.unblock_request Examples.backend_up)
              = Examples.answer 200 JNull) by reflexivity.
  split; [exact H|].
  destruct (unblock_system_resets_state_and_sessions
              Examples.backend_up Examples.blocked_store _ H)
    as (st' & Hrun & Hb & _).
  exists st'. split; [now rewrite Hrun|]. split; [exact Hb|].
  apply (f_equal fst) in Hrun. cbn in Hrun. injection Hrun as _ <-. reflexivity.
Defined.

(** ** The block of the system *)

Section PageFacts.
Context {platform : Platform}.

Lemma analyzeMessageSecurity_run (message : string) (s : Page.State) env tr :
  Page.analyzeMessageSecurity message s env tr
  = (Ok (Wire.check_of_reply env (network env (count_fetch tr) (Page.analyze_request message)),
         Page.setIsAnalyzing false s),
     tr ++ [EvFetch (Page.analyze_request message)]).
Proof.
  unfold Page.analyzeMessageSecurity, Wire.check_of_reply. io.
  destruct (network env _ _) as [response|e]; [|reflexivity].
  destruct (ok response); [|reflexivity].
  destruct (parsed response) as [analysis|e]; [|reflexivity].
  cbn. destruct (Page.alerts_of env analysis); reflexivity.
Qed.

Lemma hasThreats_false_no_alert env r :
  Page.hasThreats (Wire.check_of_reply env r) = false ->
  Page.alerts (Wire.check_of_reply env r) = [].
Proof.
  unfold Wire.check_of_reply.
  destruct r as [response|e]; [|reflexivity].
  destruct (ok response); [|reflexivity].
  destruct (parsed response) as [analysis|e]; [|reflexivity].
  destruct (Page.alerts_of env analysis) as [[|a l]|e]; cbn; [reflexivity|discriminate|reflexivity].
Qed.

Lemma handleSendMessage_run (message : string) (s : Page.State) env :
  let check := Wire.check_of_reply env (network env 0 (Page.analyze_request message)) in
  let chat := Page.chat_request message s (Page.analysis check) in
  run env (Page.handleSendMessage message s)
  = if Page.hasThreats check && existsb Page.is_critical (Page.alerts check) then
      (Ok (Page.security_block, Wire.after_alerts env check s),
       [EvFetch (Page.analyze_request message)])
    else if Page.isSystemBlocked s then
      (Ok (Page.security_mode, Wire.after_alerts env check s),
       [EvFetch (Page.analyze_request message)])
    else
      (Ok (match Wire.chat_data (network env 1 chat) with
           | Some data => data
           | None => Page.security_mode
           end, Wire.after_alerts env check s),
       [EvFetch (Page.analyze_request message); EvFetch chat]).
Proof.
  intros check chat. unfold Page.handleSendMessage, run, bind at 1.
  rewrite analyzeMessageSecurity_run. cbn [count_fetch filter length app]. fold check.
  io.
  assert (Hs : (if Page.hasThreats check
                then fold_left (fun st alert => Page.handleThreatDetected env alert st)
                       (Page.alerts check) (Page.setIsAnalyzing false s)
                else Page.setIsAnalyzing false s) = Wire.after_alerts env check s).
  { unfold Wire.after_alerts. destruct (Page.hasThreats check) eqn:H; [reflexivity|].
    subst check. now rewrite (hasThreats_false_no_alert _ _ H). }
  rewrite Hs.
  destruct (Page.hasThreats check && existsb Page.is_critical (Page.alerts check));
    [reflexivity|].
  destruct (Page.isSystemBlocked s); cbn; [reflexivity|].
  fold chat. unfold Wire.chat_data.
  destruct (network env 1 chat) as [response|e]; cbn; [|reflexivity].
  destruct (ok response); cbn; [|reflexivity].
  destruct (parsed response); reflexivity.
Qed.


Lemma securityAlerts_fold env (alerts : list Page.SecurityAlert.t) : forall s,
  Page.securityAlerts
    (fold_left (fun st alert => Page.handleThreatDetected env alert st) alerts s)
  = rev alerts ++ Page.securityAlerts s.
Proof.
  induction alerts as [|a alerts IH]; intros s; cbn [fold_left rev]; [reflexivity|].
  rewrite IH, <- app_assoc. unfold Page.handleThreatDetected.
  destruct (Page.is_critical a); reflexivity.
Qed.

Lemma isSystemBlocked_fold env (alerts : list Page.SecurityAlert.t) : forall s,
  Page.isSystemBlocked
    (fold_left (fun st alert => Page.handleThreatDetected env alert st) alerts s)
  = Page.isSystemBlocked s || existsb Page.is_critical alerts.
Proof.
  induction alerts as [|a alerts IH]; intros s; cbn [fold_left existsb].
  - now rewrite orb_false_r.
  - rewrite IH. unfold Page.handleThreatDetected.
    destruct (Page.is_critical a); cbn; rewrite ?orb_true_r; reflexivity.
Qed.

End PageFacts.

(** C1, as stated, fails: with the system blocked the chat route calls the
    primary backend, then the fallback endpoint, and returns its answer. *)
Lemma blocked_system_still_forwards_chat :
  AdminSecurity.SystemState.blocked (AdminSecurity.systemState Examples.blocked_store) = true
  /\ run Examples.backend_down
         (Server.serve (platform := Examples.platform)
            (Server.ChatPOST (Ok (JObj Examples.bonjour))) Examples.blocked_store)
     = (Ok (Server.ChatAnswer (Transports.fallback_answer (Some (JStr "ok")) None),
            Examples.blocked_store),
        [EvFetch (Chat.primary_request Examples.backend_down
                    (Transports.adapted Examples.bonjour "bonjour"));
         EvFetch (Chat.fallback_request (Transports.adapted Examples.bonjour "bonjour"))]).
Proof. split; reflexivity. Qed.

(** What [handleSend] does on a page that is not locked or loading, for an
    input that is not blank: it shows the message, runs [handleSendMessage]
    on the text of the input field, shows the reply unless it is [null],
    and empties the field. *)
Lemma handleSend_run {platform : Platform} (env : Env) (h : Page.Home) :
  Page.is_blank (Page.input h) = false ->
  Page.isLoading h = false ->
  Page.isSystemBlocked (Page.state h) = false ->
  let userMessage := {|
    Page.Message.id := string_of_Z (date_now env);
    Page.Message.content := Some (JStr (Page.input h));
    Page.Message.sender := Page.Message.user;
    Page.Message.timestamp := date_iso env;
    Page.Message.agent := None;
    Page.Message.metadata := None |} in
  exists reply s' calls,
    run env (Page.handleSendMessage (Page.input h) (Page.push userMessage (Page.state h)))
      = (Ok (reply, s'), calls)
    /\ run env (Page.handleSend h)
       = (Ok {| Page.state :=
                  match reply with
                  | JNull => s'
                  | _ =>
                      Page.push {|
                        Page.Message.id := string_of_Z (date_now env + 1);
                        Page.Message.content := opt_prop (Some reply) "content";
                        Page.Message.sender := Page.Message.assistant;
                        Page.Message.timestamp := date_iso env;
                        Page.Message.agent := Some (Page.selectedAgent (Page.state h));
                        Page.Message.metadata := opt_prop (Some reply) "metadata" |} s'
                  end;
                Page.input := "";
                Page.isLoading := false |},
          calls).
Proof.
  intros Hblank Hloading Hblocked userMessage.
  unfold Page.handleSend. rewrite Hblank, Hloading, Hblocked. cbn [orb].
  unfold run, bind at 1, ask at 1. fold userMessage.
  pose proof (handleSendMessage_run (Page.input h) (Page.push userMessage (Page.state h)) env)
    as Hsend.
  cbv zeta in Hsend. unfold run in Hsend.
  unfold bind at 1, try_catch at 1, bind at 1.
  destruct (Page.handleSendMessage (Page.input h) (Page.push userMessage (Page.state h))
              env []) as [[[reply s']|e] calls] eqn:Hrun.
  - exists reply, s', calls. split; [reflexivity|].
    destruct reply; reflexivity.
  - exfalso. rewrite Hsend in Hrun.
    destruct (_ && _); [discriminate|].
    destruct (Page.isSystemBlocked _); discriminate.
Qed.

(** C1, amended.  The chat route does not look at the block: its answer and
    its transport calls are the same whatever the store of the
    admin-security module holds, and it leaves that store as it is.  The
    block is enforced by the page, before anything is sent: while
    [isSystemBlocked] is true, [handleSend] returns at once, without any
    call, to the analyze route or to the chat route, and without any
    message shown. *)
Theorem block_is_enforced_by_handleSend {platform : Platform} :
  (forall env request st st',
      exists answer calls,
        run env (Server.serve (Server.ChatPOST request) st)
          = (Ok (Server.ChatAnswer answer, st), calls)
        /\ run env (Server.serve (Server.ChatPOST request) st')
           = (Ok (Server.ChatAnswer answer, st'), calls))
  /\ (forall env h,
        Page.isSystemBlocked (Page.state h) = true ->
        run env (Page.handleSend h) = (Ok h, [])).
Proof.
  split.
  - intros env request st st'.
    destruct (POST_always_answers env request) as (answer & calls & H).
    exists answer, calls. unfold Server.serve, run, bind in *. rewrite H. split; reflexivity.
  - intros env h Hblocked. unfold Page.handleSend. rewrite Hblocked, !orb_true_r.
    reflexivity.
Qed.

Lemma block_is_enforced_by_handleSend_witness :
  Page.isSystemBlocked (Page.state Examples.blocked_home) = true
  /\ run Examples.backend_up (Page.handleSend (platform := Examples.platform)
                                Examples.blocked_home)
     = (Ok Examples.blocked_home, []).
Proof.
  assert (H : Page.isSystemBlocked (Page.state Examples.blocked_home) = true)
    by reflexivity.
  split; [exact H|].
  exact (proj2 (block_is_enforced_by_handleSend (platform := Examples.platform))
           Examples.backend_up Examples.blocked_home H).
Defined.

(** ** The alerts *)

Section AlertFacts.
Context {platform : Platform}.

(** The simulation makes no call: it leaves the trace as it found it. *)
Lemma simulateAnalysis_trace env text models tr :
  Analyze.simulateAnalysis text models env tr
  = (fst (run env (Analyze.simulateAnalysis text models)), tr).
Proof.
  unfold Analyze.simulateAnalysis. io.
  destruct (Analyze.calculateThreatLevel _); reflexivity.
Qed.

Lemma analyze_POST_always_answers env request :
  exists answer calls, run env (Analyze.POST request) = (Ok answer, calls).
Proof.
  unfold Analyze.POST, run, try_catch.
  match goal with
  | |- context [match ?m env [] with _ => _ end] => destruct (m env []) as [[answer|e] calls]
  end.
  - eauto.
  - io. eauto.
Qed.

(** The page reads, in the JSON of a simulation, the alerts of its results. *)
Lemma alerts_of_simulation env (r : Analyze.SimulationResults) :
  Page.alerts_of env (Server.json_of_simulation r) = Ok (Wire.simulation_alerts env r).
Proof.
  unfold Page.alerts_of, Server.json_of_simulation, Wire.simulation_alerts,
    Wire.vulnerability_alert, Wire.network_alert, Wire.intent_alert.
  destruct (Analyze.vulnerability_classifier r) as [v|];
    destruct (Analyze.network_analyzer r) as [n|];
    destruct (Analyze.intent_classifier r) as [i|];
    destruct (Analyze.overall_threat_level r) as [level|];
    cbn -[append];
    rewrite ?ToNumber_number, ?ToString_string;
    repeat match goal with
           | |- context [String.eqb ?a ?b] => destruct (String.eqb a b)
           end; reflexivity.
Qed.


(** A score that the thresholds call critical or high comes with a
    vulnerability, a network anomaly or a malicious intent: the page has an
    alert for it. *)
Lemma high_score_has_alert env (results : Analyze.SimulationResults) v n score :
  Analyze.vulnerability_classifier results = Some v ->
  Analyze.network_analyzer results = Some n ->
  In v Outcomes.vulnerability ->
  In n Outcomes.network ->
  (forall i, Analyze.intent_classifier results = Some i -> In i Outcomes.intent) ->
  Analyze.threatScore results = Ok score ->
  Analyze.threat_level score = "critical" \/ Analyze.threat_level score = "high" ->
  Wire.simulation_alerts env results <> [].
Proof.
  intros Hv Hn Iv In_ Ii. unfold Analyze.threatScore, Wire.simulation_alerts.
  rewrite Hv, Hn.
  destruct (Analyze.intent_classifier results) as [i|].
  - specialize (Ii i eq_refl).
    each_outcome Iv; each_outcome In_; each_outcome Ii;
      intros H Hlevel; injection H as <-;
      first [ cbn; discriminate
            | destruct Hlevel as [Hlevel|Hlevel]; vm_compute in Hlevel; discriminate Hlevel ].
  - each_outcome Iv; each_outcome In_;
      intros H Hlevel; injection H as <-;
      first [ cbn; discriminate
            | destruct Hlevel as [Hlevel|Hlevel]; vm_compute in Hlevel; discriminate Hlevel ].
Qed.

(** The simulation of the script: a cross-site scripting attempt, critical. *)
Lemma script_is_critical env tr r :
  run env (Analyze.simulateAnalysis "<script>alert(1)</script>" Analyze.default_models)
    = (Ok r, tr) ->
  Analyze.vulnerability_classifier r = Some Examples.xss
  /\ Analyze.intent_classifier r
     = Some {| Analyze.intent := "Legitimate"; Analyze.intent_confidence := 0.80 |}
  /\ Analyze.overall_threat_level r = Some "critical".
Proof.
  intros H.
  destruct (simulateAnalysis_fields _ _ _ _ _ H) as (score & Hs & Ho & Hv & Hn & _ & _).
  assert (Hi : Analyze.intent_classifier r
               = Some {| Analyze.intent := "Legitimate"; Analyze.intent_confidence := 0.80 |}).
  { revert H. unfold Analyze.simulateAnalysis. io.
    destruct (Analyze.calculateThreatLevel _); [|discriminate].
    intros H; injection H as <- _. reflexivity. }
  change (Analyze.classify_vulnerability "<script>alert(1)</script>") with Examples.xss in Hv.
  repeat split; try assumption.
  rewrite Ho. f_equal.
  unfold Analyze.threatScore in Hs. rewrite Hv, Hn, Hi in Hs.
  pose proof (classify_network_cases "<script>alert(1)</script>") as In_.
  each_outcome In_; rewrite <- In_ in Hs; vm_compute in Hs; injection Hs as <-; reflexivity.
Qed.

End AlertFacts.

(** C4, as stated, fails: the analysis of the script by the route is
    critical, and the route appends no alert to the list of the
    admin-security module, nor blocks the system. *)
Lemma analysis_appends_no_alert :
  run Examples.offline
      (Server.serve (platform := Examples.platform)
         (Server.AnalyzePOST
            (Ok {| Analyze.text := "<script>alert(1)</script>"; Analyze.models := None |}))
         (AdminSecurity.initial_store Examples.stamp))
    = (Ok (Server.AnalyzeAnswer
             {| http_status := 200; body := Analyze.Simulation Examples.xss_results |},
           AdminSecurity.initial_store Examples.stamp),
       [EvFetch (Analyze.analyze_request "http://localhost:5000"
                   "<script>alert(1)</script>" Analyze.default_models)])
  /\ Analyze.overall_threat_level Examples.xss_results = Some "critical"
  /\ length (AdminSecurity.mockAlerts (AdminSecurity.initial_store Examples.stamp)) = 3%nat
  /\ AdminSecurity.SystemState.blocked
       (AdminSecurity.systemState (AdminSecurity.initial_store Examples.stamp)) = false.
Proof. repeat split. Qed.

(** C4, amended.  The analyze route computes the verdict and leaves the
    alert list and the system state of the admin-security module as they
    are; its simulation of ["<script>alert(1)</script>"] finds XSS and is
    critical.  The alerts are raised by the page: for every text whose
    simulated verdict is critical or high, [handleSendMessage] adds at least
    one alert in front of its list [securityAlerts]; for the script it adds
    an alert of type vulnerability and severity critical, locks the page and
    returns the message of a blocked send without calling the chat route. *)
Theorem alerts_are_raised_by_the_page {platform : Platform} :
  (forall env request st,
      exists answer calls,
        run env (Server.serve (Server.AnalyzePOST request) st)
          = (Ok (Server.AnalyzeAnswer answer, st), calls))
  /\ (forall env,
        Outcomes.python_analysis
          (network env 0
             (Analyze.analyze_request (Analyze.getPythonServerUrl env)
                "<script>alert(1)</script>" Analyze.default_models)) = None ->
        exists r,
          fst (run env (Analyze.POST
                          (Ok {| Analyze.text := "<script>alert(1)</script>";
                                 Analyze.models := None |})))
            = Ok {| http_status := 200; body := Analyze.Simulation r |}
          /\ Analyze.vulnerability_classifier r = Some Examples.xss
          /\ Analyze.overall_threat_level r = Some "critical")
  /\ (forall server env text s r tr response,
        run server (Analyze.simulateAnalysis text Analyze.default_models) = (Ok r, tr) ->
        Analyze.overall_threat_level r = Some "critical"
          \/ Analyze.overall_threat_level r = Some "high" ->
        network env 0 (Page.analyze_request text) = Ok response ->
        ok response = true ->
        parsed response = Ok (Server.json_of_simulation r) ->
        exists reply s' calls,
          run env (Page.handleSendMessage text s) = (Ok (reply, s'), calls)
          /\ Page.securityAlerts s'
             = rev (Wire.simulation_alerts env r) ++ Page.securityAlerts s
          /\ Wire.simulation_alerts env r <> [])
  /\ (forall server env s r tr response,
        run server (Analyze.simulateAnalysis "<script>alert(1)</script>"
                      Analyze.default_models) = (Ok r, tr) ->
        network env 0 (Page.analyze_request "<script>alert(1)</script>") = Ok response ->
        ok response = true ->
        parsed response = Ok (Server.json_of_simulation r) ->
        exists s' others,
          run env (Page.handleSendMessage "<script>alert(1)</script>" s)
            = (Ok (Page.security_block, s'),
               [EvFetch (Page.analyze_request "<script>alert(1)</script>")])
          /\ Page.securityAlerts s'
             = others ++ Wire.vulnerability_alert env Examples.xss :: Page.securityAlerts s
          /\ Page.SecurityAlert.type (Wire.vulnerability_alert env Examples.xss)
             = Page.vulnerability
          /\ Page.SecurityAlert.severity (Wire.vulnerability_alert env Examples.xss)
             = Page.critical
          /\ Page.isSystemBlocked s' = true).
Proof.
  split; [|split; [|split]].
  - intros env request st.
    destruct (analyze_POST_always_answers env request) as (answer & calls & H).
    exists answer, calls. unfold Server.serve, run, bind in *. now rewrite H.
  - intros env Hpy.
    rewrite POST_without_python by (assumption || discriminate).
    cbn [Analyze.models_or_default]. rewrite simulateAnalysis_trace. cbn [fst].
    destruct (simulateAnalysis_returns env "<script>alert(1)</script>"
                Analyze.default_models eq_refl eq_refl) as [r Hr].
    rewrite Hr. cbn [fst]. exists r. split; [reflexivity|].
    destruct (script_is_critical _ _ _ Hr) as (Hv & _ & Ho). now split.
  - intros server env text s r tr response Hsim Hlevel Hnet Hok Hbody.
    assert (Hcheck : Wire.check_of_reply env (network env 0 (Page.analyze_request text))
                     = Page.check_of (Server.json_of_simulation r)
                         (Wire.simulation_alerts env r)).
    { unfold Wire.check_of_reply. now rewrite Hnet, Hok, Hbody, alerts_of_simulation. }
    pose proof (handleSendMessage_run text s env) as Hrun. cbv zeta in Hrun.
    rewrite Hcheck in Hrun.
    assert (Halerts : Page.securityAlerts
                        (Wire.after_alerts env
                           (Page.check_of (Server.json_of_simulation r)
                              (Wire.simulation_alerts env r)) s)
                      = rev (Wire.simulation_alerts env r) ++ Page.securityAlerts s).
    { unfold Wire.after_alerts. now rewrite securityAlerts_fold. }
    assert (Hne : Wire.simulation_alerts env r <> []).
    { destruct (simulateAnalysis_fields _ _ _ _ _ Hsim) as (score & Hs & Ho & Hv & Hn & Hi & _).
      eapply high_score_has_alert; eauto.
      - apply classify_vulnerability_cases.
      - apply classify_network_cases.
      - intros i Hi'. rewrite (Hi i Hi'). apply classify_intent_cases.
      - rewrite Ho in Hlevel. destruct Hlevel as [H|H]; injection H as H; auto. }
    rewrite Hrun.
    destruct (_ && _); [|destruct (Page.isSystemBlocked s)]; eexists _, _, _; eauto.
  - intros server env s r tr response Hsim Hnet Hok Hbody.
    destruct (script_is_critical _ _ _ Hsim) as (Hv & Hi & Ho).
    assert (Hcheck : Wire.check_of_reply env
                       (network env 0 (Page.analyze_request "<script>alert(1)</script>"))
                     = Page.check_of (Server.json_of_simulation r)
                         (Wire.simulation_alerts env r)).
    { unfold Wire.check_of_reply. now rewrite Hnet, Hok, Hbody, alerts_of_simulation. }
    pose proof (handleSendMessage_run "<script>alert(1)</script>" s env) as Hrun.
    cbv zeta in Hrun. rewrite Hcheck in Hrun.
    assert (Hal : exists others,
               Wire.simulation_alerts env r = Wire.vulnerability_alert env Examples.xss :: others).
    { unfold Wire.simulation_alerts. rewrite Hv. cbn. eauto. }
    destruct Hal as [others Hal].
    assert (Hcrit : Page.hasThreats (Page.check_of (Server.json_of_simulation r)
                                       (Wire.simulation_alerts env r))
                    && existsb Page.is_critical
                         (Page.alerts (Page.check_of (Server.json_of_simulation r)
                                         (Wire.simulation_alerts env r))) = true).
    { cbn [Page.hasThreats Page.alerts Page.check_of]. rewrite Hal. reflexivity. }
    rewrite Hcrit in Hrun. rewrite Hrun.
    eexists _, (rev others). split; [reflexivity|].
    unfold Wire.after_alerts. rewrite securityAlerts_fold, isSystemBlocked_fold.
    cbn [Page.alerts Page.check_of]. rewrite Hal. cbn [rev].
    rewrite <- app_assoc. repeat split.
    cbn [existsb]. change (Page.is_critical (Wire.vulnerability_alert env Examples.xss)) with true.
    now rewrite orb_true_r.
Qed.

Lemma alerts_are_raised_by_the_page_witness :
  run Examples.offline
      (Analyze.simulateAnalysis (platform := Examples.platform)
         "<script>alert(1)</script>" Analyze.default_models)
    = (Ok Examples.xss_results, [])
  /\ network Examples.analysis_of_script 0 (Page.analyze_request "<script>alert(1)</script>")
     = Examples.answer 200 (Server.json_of_simulation Examples.xss_results)
  /\ exists s' others,
       run Examples.analysis_of_script
           (Page.handleSendMessage (platform := Examples.platform)
              "<script>alert(1)</script>" Page.initial_state)
         = (Ok (Page.security_block, s'),
            [EvFetch (Page.analyze_request "<script>alert(1)</script>")])
       /\ Page.securityAlerts s'
          = others ++ Wire.vulnerability_alert Examples.analysis_of_script Examples.xss
                      :: Page.securityAlerts Page.initial_state
       /\ Page.isSystemBlocked s' = true.
Proof.
  assert (H1 : run Examples.offline
                 (Analyze.simulateAnalysis (platform := Examples.platform)
                    "<script>alert(1)</script>" Analyze.default_models)
               = (Ok Examples.xss_results, [])) by reflexivity.
  assert (H2 : network Examples.analysis_of_script 0
                 (Page.analyze_request "<script>alert(1)</script>")
               = Examples.answer 200 (Server.json_of_simulation Examples.xss_results))
    by reflexivity.
  split; [exact H1|]. split; [exact H2|].
  destruct (proj2 (proj2 (proj2 (alerts_are_raised_by_the_page (platform := Examples.platform))))
              Examples.offline Examples.analysis_of_script Page.initial_state
              Examples.xss_results [] _ H1 H2 eq_refl eq_refl)
    as (s' & others & Hrun & Hal & _ & _ & Hb).
  exists s', others. exact (conj Hrun (conj Hal Hb)).
Defined.





(** * Further properties of the code *)

(** ** The simulated analysis *)

Section SimulationFacts.
Context {platform : Platform}.

(** The verdicts of the simulation over the outcomes of its matchers. *)
Lemma simulation_verdicts (results : Analyze.SimulationResults) v n score :
  Analyze.vulnerability_classifier results = Some v ->
  Analyze.network_analyzer results = Some n ->
  In v Outcomes.vulnerability ->
  In n Outcomes.network ->
  (forall i, Analyze.intent_classifier results = Some i -> In i Outcomes.intent) ->
  Analyze.threatScore results = Ok score ->
  Analyze.threat_level score <> "low"
  /\ (Analyze.threat_level score = "safe" <->
      Analyze.vulnerability_type v = "SAFE"
      /\ Analyze.traffic_type n = "NORMAL"
      /\ forall i, Analyze.intent_classifier results = Some i -> Analyze.intent i = "Legitimate")
  /\ (Analyze.vulnerability_type v = "XSS" -> Analyze.threat_level score = "critical")
  /\ (Analyze.vulnerability_type v <> "SAFE" \/ Analyze.traffic_type n <> "NORMAL"
        \/ (exists i, Analyze.intent_classifier results = Some i
                      /\ Analyze.intent i = "Malicious") ->
      Analyze.threat_level score = "critical" \/ Analyze.threat_level score = "high").
Proof.
  intros Hv Hn Iv In_ Ii. unfold Analyze.threatScore. rewrite Hv, Hn.
  destruct (Analyze.intent_classifier results) as [i|].
  - specialize (Ii i eq_refl).
    each_outcome Iv; each_outcome In_; each_outcome Ii;
      intros H; injection H as <-;
      (split; [vm_compute; discriminate|]);
      (split; [split; [vm_compute; try discriminate; intros _;
                       repeat split; intros ? [= <-]; reflexivity
                      |intros (H1 & H2 & H3); try discriminate H1; try discriminate H2;
                       try (specialize (H3 _ eq_refl); discriminate H3); reflexivity]|]);
      (split; [intros Hx; try discriminate Hx; reflexivity|]);
      intros [Hx|[Hx|(j & [= <-] & Hx)]];
      try (exfalso; apply Hx; reflexivity); try discriminate Hx;
      first [left; reflexivity | right; reflexivity].
  - each_outcome Iv; each_outcome In_;
      intros H; injection H as <-;
      (split; [vm_compute; discriminate|]);
      (split; [split; [vm_compute; try discriminate; intros _;
                       repeat split; intros ? [=]
                      |intros (H1 & H2 & H3); try discriminate H1; try discriminate H2;
                       reflexivity]|]);
      (split; [intros Hx; try discriminate Hx; reflexivity|]);
      intros [Hx|[Hx|(j & [=] & Hx)]];
      try (exfalso; apply Hx; reflexivity);
      first [left; reflexivity | right; reflexivity].
Qed.


(** The simulation never rates a text low, and rates it safe exactly when
    no matcher found anything. *)
Theorem simulation_is_never_low env text models r tr :
  run env (Analyze.simulateAnalysis text models) = (Ok r, tr) ->
  Analyze.overall_threat_level r <> Some "low"
  /\ (Analyze.overall_threat_level r = Some "safe" <->
      option_map Analyze.vulnerability_type (Analyze.vulnerability_classifier r) = Some "SAFE"
      /\ option_map Analyze.traffic_type (Analyze.network_analyzer r) = Some "NORMAL"
      /\ forall i, Analyze.intent_classifier r = Some i -> Analyze.intent i = "Legitimate").
Proof.
  intros H.
  destruct (simulateAnalysis_fields _ _ _ _ _ H) as (score & Hs & Ho & Hv & Hn & Hi & _).
  destruct (simulation_verdicts r _ _ score Hv Hn (classify_vulnerability_cases text)
              (classify_network_cases text)) as (Hlow & Hsafe & _); [|exact Hs|].
  { intros i Hi'. rewrite (Hi i Hi'). apply classify_intent_cases. }
  rewrite Ho, Hv, Hn. cbn [option_map]. split.
  - intros [= E]. exact (Hlow E).
  - split.
    + intros [= E]. apply Hsafe in E. destruct E as (E1 & E2 & E3).
      now rewrite E1, E2.
    + intros ([= E1] & [= E2] & E3). f_equal. apply Hsafe. auto.
Qed.

(** A vulnerability, a network anomaly or a malicious intent found by the
    simulation is rated high or critical, and a cross-site script always
    critical. *)
Theorem detected_threat_is_rated_high_or_critical env text models r tr :
  run env (Analyze.simulateAnalysis text models) = (Ok r, tr) ->
  (option_map Analyze.vulnerability_type (Analyze.vulnerability_classifier r) = Some "XSS" ->
   Analyze.overall_threat_level r = Some "critical")
  /\ ((exists v, Analyze.vulnerability_classifier r = Some v
                 /\ Analyze.vulnerability_type v <> "SAFE")
      \/ (exists n, Analyze.network_analyzer r = Some n /\ Analyze.traffic_type n <> "NORMAL")
      \/ (exists i, Analyze.intent_classifier r = Some i /\ Analyze.intent i = "Malicious") ->
      Analyze.overall_threat_level r = Some "critical"
      \/ Analyze.overall_threat_level r = Some "high").
Proof.
  intros H.
  destruct (simulateAnalysis_fields _ _ _ _ _ H) as (score & Hs & Ho & Hv & Hn & Hi & _).
  destruct (simulation_verdicts r _ _ score Hv Hn (classify_vulnerability_cases text)
              (classify_network_cases text)) as (_ & _ & Hxss & Hhigh); [|exact Hs|].
  { intros i Hi'. rewrite (Hi i Hi'). apply classify_intent_cases. }
  rewrite Ho, Hv. cbn [option_map]. split.
  - intros [= E]. f_equal. auto.
  - intros Hany.
    assert (Hl : Analyze.threat_level score = "critical" \/ Analyze.threat_level score = "high").
    { apply Hhigh. destruct Hany as [(v & [= <-] & E) | [(n & E1 & E) | E]]; auto.
      rewrite Hn in E1. injection E1 as <-. auto. }
    destruct Hl as [-> | ->]; auto.
Qed.

End SimulationFacts.

Lemma simulation_is_never_low_witness :
  run Examples.offline
      (Analyze.simulateAnalysis (platform := Examples.platform)
         "<script>alert(1)</script>" Analyze.default_models)
    = (Ok Examples.xss_results, [])
  /\ Analyze.overall_threat_level Examples.xss_results <> Some "low".
Proof.
  assert (H : run Examples.offline
                (Analyze.simulateAnalysis (platform := Examples.platform)
                   "<script>alert(1)</script>" Analyze.default_models)
              = (Ok Examples.xss_results, [])) by reflexivity.
  exact (conj H (proj1 (simulation_is_never_low (platform := Examples.platform) _ _ _ _ _ H))).
Defined.

Lemma detected_threat_is_rated_high_or_critical_witness :
  run Examples.offline
      (Analyze.simulateAnalysis (platform := Examples.platform)
         "<script>alert(1)</script>" Analyze.default_models)
    = (Ok Examples.xss_results, [])
  /\ Analyze.overall_threat_level Examples.xss_results = Some "critical".
Proof.
  assert (H : run Examples.offline
                (Analyze.simulateAnalysis (platform := Examples.platform)
                   "<script>alert(1)</script>" Analyze.default_models)
              = (Ok Examples.xss_results, [])) by reflexivity.
  exact (conj H (proj1 (detected_threat_is_rated_high_or_critical
                          (platform := Examples.platform) _ _ _ _ _ H) eq_refl)).
Defined.


(** ** Substrings *)

Lemma prefix_app (sub post : string) : String.prefix sub (sub ++ post)%string = true.
Proof.
  induction sub as [|c sub IH]; cbn; [now destruct post|].
  destruct (ascii_dec c c); [exact IH|contradiction].
Qed.

Lemma includes_prefix (s sub : string) : String.prefix sub s = true -> includes s sub = true.
Proof. intros H. destruct s; cbn [includes]; now rewrite H. Qed.

(** A text includes what stands in the middle of it. *)
Lemma includes_app (pre sub post : string) : includes (pre ++ sub ++ post) sub = true.
Proof.
  induction pre as [|c pre IH]; cbn [append].
  - apply includes_prefix, prefix_app.
  - cbn [includes]. rewrite IH. apply orb_true_r.
Qed.

Lemma prefix_split (sub s : string) :
  String.prefix sub s = true -> exists post, s = (sub ++ post)%string.
Proof.
  revert s. induction sub as [|c sub IH]; intros s H.
  - exists s. reflexivity.
  - destruct s as [|c' s]; cbn in H; [discriminate|].
    destruct (ascii_dec c c') as [<-|]; [|discriminate].
    destruct (IH s H) as [post ->]. exists post. reflexivity.
Qed.

(** And nothing else. *)
Lemma includes_split (s sub : string) :
  includes s sub = true -> exists pre post, s = (pre ++ sub ++ post)%string.
Proof.
  induction s as [|c s IH]; cbn [includes]; intros H.
  - rewrite orb_false_r in H. destruct (prefix_split _ _ H) as [post ->].
    exists "", post. reflexivity.
  - apply orb_true_iff in H. destruct H as [H|H].
    + destruct (prefix_split _ _ H) as [post ->]. exists "", post. reflexivity.
    + destruct (IH H) as (pre & post & ->). exists (String c pre), post. reflexivity.
Qed.

Lemma lower_ascii_app (a b : string) :
  lower_ascii (a ++ b) = (lower_ascii a ++ lower_ascii b)%string.
Proof.
  induction a as [|c a IH]; cbn; [reflexivity|now rewrite IH].
Qed.

(** ** Scripts *)

(** When the models asked for include [vulnerability_classifier] and
    [network_analyzer], as the default list does, and the Python server
    gives no analysis, a text that holds [<script], [onerror=], [<iframe] or
    [javascript:], in any case of its letters, is answered 200 with the
    simulation, which classifies it XSS and gives the verdict critical. *)
Theorem script_markers_are_critical
    {platform : Platform} (env : Env) (pre marker post : string) (models : option (list string)) :
  In (lower_ascii marker) ["<script"; "onerror="; "<iframe"; "javascript:"] ->
  contains (Analyze.models_or_default models) "vulnerability_classifier" = true ->
  contains (Analyze.models_or_default models) "network_analyzer" = true ->
  Outcomes.python_analysis
    (network env 0
       (Analyze.analyze_request (Analyze.getPythonServerUrl env) (pre ++ marker ++ post)
          (Analyze.models_or_default models))) = None ->
  exists r,
    fst (run env (Analyze.POST (Ok {| Analyze.text := pre ++ marker ++ post;
                                      Analyze.models := models |})))
      = Ok {| http_status := 200; body := Analyze.Simulation r |}
    /\ Analyze.vulnerability_classifier r
       = Some {| Analyze.vulnerability_type := "XSS"; Analyze.vulnerability_confidence := 0.85 |}
    /\ Analyze.overall_threat_level r = Some "critical".
Proof.
  intros Hmarker Hv Hn Hpy.
  assert (Hne : (pre ++ marker ++ post)%string <> "").
  { destruct pre; [|discriminate]. destruct marker; [|discriminate].
    cbn in Hmarker. intuition discriminate. }
  assert (Hxss : Analyze.classify_vulnerability (pre ++ marker ++ post)
                 = {| Analyze.vulnerability_type := "XSS";
                      Analyze.vulnerability_confidence := 0.85 |}).
  { unfold Analyze.classify_vulnerability.
    replace (Analyze.some_test (Analyze.xss Analyze.patterns) (pre ++ marker ++ post)%string)
      with true; [reflexivity|].
    symmetry. unfold Analyze.some_test. apply existsb_exists.
    exists (LiteralI (lower_ascii marker)). split.
    - cbn in Hmarker. cbn.
      destruct Hmarker as [<-|[<-|[<-|[<-|[]]]]]; auto.
    - cbn [test]. rewrite !lower_ascii_app. apply includes_app. }
  rewrite POST_without_python by assumption.
  rewrite simulateAnalysis_trace. cbn [fst].
  destruct (simulateAnalysis_returns env (pre ++ marker ++ post)%string
              (Analyze.models_or_default models) Hv Hn) as [r Hr].
  rewrite Hr. cbn [fst]. exists r. split; [reflexivity|].
  destruct (simulateAnalysis_fields _ _ _ _ _ Hr) as (score & Hs & Ho & Hvr & Hnr & Hi & _).
  destruct (simulation_verdicts r _ _ score Hvr Hnr
              (classify_vulnerability_cases (pre ++ marker ++ post))
              (classify_network_cases (pre ++ marker ++ post)))
    as (_ & _ & Hcritical & _); [|exact Hs|].
  { intros i Hi'. rewrite (Hi i Hi'). apply classify_intent_cases. }
  rewrite Hxss in Hvr, Hcritical. split; [exact Hvr|].
  rewrite Ho. f_equal. now apply Hcritical.
Qed.

Lemma script_markers_are_critical_witness :
  In (lower_ascii "<SCRIPT") ["<script"; "onerror="; "<iframe"; "javascript:"]
  /\ exists r,
       fst (run Examples.offline
              (Analyze.POST (platform := Examples.platform)
                 (Ok {| Analyze.text := "hello " ++ "<SCRIPT" ++ ">x</script>";
                        Analyze.models := None |})))
         = Ok {| http_status := 200; body := Analyze.Simulation r |}
       /\ Analyze.overall_threat_level r = Some "critical".
Proof.
  assert (H : In (lower_ascii "<SCRIPT") ["<script"; "onerror="; "<iframe"; "javascript:"])
    by (left; reflexivity).
  split; [exact H|].
  destruct (script_markers_are_critical (platform := Examples.platform) Examples.offline
              "hello " "<SCRIPT" ">x</script>" None H eq_refl eq_refl eq_refl)
    as (r & Hr & _ & Ho).
  exists r. exact (conj Hr Ho).
Defined.

(** ** The analyze route *)



(** ** The chat route *)

(** The status of the answer of the chat route: 500 for a body that is not
    JSON or is [null], and for a message of another type than string; 400
    for a message that is missing, [null] or empty; 200, after at least one
    call, for any other message, whatever the transports do.  Only the last
    case makes a call. *)
Theorem chat_route_status
    {platform : Platform} (env : Env) (request : result json) answer calls :
  run env (Chat.POST request) = (Ok answer, calls) ->
  match request with
  | Throw _ | Ok JNull => http_status answer = 500%Z /\ calls = []
  | Ok body =>
      match opt_prop (Some body) "message" with
      | None | Some JNull | Some (JStr "") => http_status answer = 400%Z /\ calls = []
      | Some (JStr _) => http_status answer = 200%Z /\ calls <> []
      | Some _ => http_status answer = 500%Z /\ calls = []
      end
  end.
Proof.
  intros Hrun.
  destruct request as [[| | | |items|fields]|e];
    try (injection Hrun as <- <-; split; reflexivity).
  cbn [opt_prop].
  destruct (assoc "message" fields) as [[| | |message| |]|] eqn:Hm;
    try (unfold Chat.POST in Hrun; revert Hrun; io; cbn [prop]; rewrite Hm;
         intros Hrun; injection Hrun as <- <-; split; reflexivity).
  destruct message as [|c message].
  - unfold Chat.POST in Hrun. revert Hrun. io. cbn [prop]. rewrite Hm.
    intros Hrun; injection Hrun as <- <-; split; reflexivity.
  - rewrite (POST_run env fields (String c message) Hm ltac:(discriminate)) in Hrun.
    destruct (Transports.primary_reply _) as [[content metadata]|].
    + injection Hrun as <- <-. split; [reflexivity|discriminate].
    + rewrite tryFallbackAPI_run in Hrun. injection Hrun as <- <-.
      split; [|discriminate].
      destruct (Transports.fallback_reply _) as [[content metadata]|]; reflexivity.
Qed.

Lemma chat_route_status_witness :
  exists answer,
    run Examples.offline
        (Chat.POST (platform := Examples.platform) (Ok (JObj [("message", JNum 42)])))
      = (Ok answer, [])
    /\ http_status answer = 500%Z.
Proof.
  eexists. split; [reflexivity|].
  exact (proj1 (chat_route_status (platform := Examples.platform) Examples.offline
                  (Ok (JObj [("message", JNum 42)])) _ [] eq_refl)).
Defined.

(** What the transports get: each call of the chat route posts the message
    as it came, as [query], with the [session_id] of the request, or
    ["default"] when that is missing or falsy. *)
Theorem chat_calls_carry_the_message
    {platform : Platform} (env : Env) (fields : list (string * json)) (message : string)
    answer calls :
  assoc "message" fields = Some (JStr message) ->
  message <> "" ->
  run env (Chat.POST (Ok (JObj fields))) = (Ok answer, calls) ->
  Forall (fun ev =>
            exists r, ev = EvFetch r
              /\ method r = "POST"
              /\ payload r
                 = Some (JObj [("query", JStr message);
                               ("session_id",
                                if truthy (assoc "session_id" fields)
                                then match assoc "session_id" fields with
                                     | Some sid => sid
                                     | None => JStr "default"
                                     end
                                else JStr "default")])) calls.
Proof.
  intros Hm Hne Hrun. rewrite (POST_run env fields message Hm Hne) in Hrun.
  assert (Hsid : Chat.session_or_default (assoc "session_id" fields)
                 = if truthy (assoc "session_id" fields)
                   then match assoc "session_id" fields with
                        | Some sid => sid
                        | None => JStr "default"
                        end
                   else JStr "default").
  { unfold Chat.session_or_default, js_or.
    destruct (truthy (assoc "session_id" fields)); reflexivity. }
  assert (Hp : exists r, EvFetch (Chat.primary_request env (Transports.adapted fields message))
                         = EvFetch r /\ method r = "POST"
                         /\ payload r = Some (JObj [("query", JStr message);
                                ("session_id", Chat.session_or_default
                                                 (assoc "session_id" fields))])).
  { eexists. repeat split. }
  assert (Hf : exists r, EvFetch (Chat.fallback_request (Transports.adapted fields message))
                         = EvFetch r /\ method r = "POST"
                         /\ payload r = Some (JObj [("query", JStr message);
                                ("session_id", Chat.session_or_default
                                                 (assoc "session_id" fields))])).
  { eexists. repeat split. }
  rewrite Hsid in Hp, Hf.
  destruct (Transports.primary_reply _) as [[content metadata]|].
  - injection Hrun as _ <-. repeat constructor; assumption.
  - rewrite tryFallbackAPI_run in Hrun. injection Hrun as _ <-.
    repeat constructor; assumption.
Qed.

Lemma chat_calls_carry_the_message_witness :
  assoc "message" Examples.bonjour = Some (JStr "bonjour")
  /\ "bonjour" <> ""
  /\ Forall (fun ev =>
               exists r, ev = EvFetch r
                 /\ method r = "POST"
                 /\ payload r = Some (JObj [("query", JStr "bonjour");
                                            ("session_id", JStr "default")]))
       (snd (run Examples.backend_down
               (Chat.POST (platform := Examples.platform) (Ok (JObj Examples.bonjour))))).
Proof.
  assert (H1 : assoc "message" Examples.bonjour = Some (JStr "bonjour")) by reflexivity.
  assert (H2 : "bonjour" <> "") by discriminate.
  exact (conj H1 (conj H2
           (chat_calls_carry_the_message (platform := Examples.platform)
              Examples.backend_down Examples.bonjour "bonjour" _ _ H1 H2 eq_refl))).
Defined.

(** The generic reply quotes the text of the user as it came. *)
Lemma generic_template_quotes_query (query : string) :
  includes (Chat.generic_template query) query = true.
Proof.
  exact (includes_app ("Merci pour votre question : " ++ quote) query _).
Qed.

(** When both transports fail and no keyword of the synthesizer is in the
    message, the content of the answer holds the message as it came. *)
Theorem unmatched_message_is_echoed
    {platform : Platform} (env : Env) (fields : list (string * json)) (message : string) :
  assoc "message" fields = Some (JStr message) ->
  message <> "" ->
  Transports.primary_fails
    (network env 0 (Chat.primary_request env (Transports.adapted fields message))) ->
  Transports.fallback_reply
    (network env 1 (Chat.fallback_request (Transports.adapted fields message))) = None ->
  existsb (Spec.matches message)
    [Spec.pricing; Spec.features; Spec.greeting; Spec.about] = false ->
  exists text answer calls,
    run env (Chat.POST (Ok (JObj fields))) = (Ok answer, calls)
    /\ Chat.content (body answer) = Some (JStr text)
    /\ includes text message = true.
Proof.
  intros Hm Hne Hfail Hfb Hrules.
  rewrite (POST_run env fields message Hm Hne).
  apply primary_fails_iff in Hfail. rewrite Hfail, tryFallbackAPI_run.
  cbn [count_fetch filter length app]. rewrite Hfb.
  eexists _, _, _. split; [reflexivity|]. split; [reflexivity|].
  cbn [Transports.adapted Chat.query].
  revert Hrules. unfold Chat.local_text, Spec.matches.
  cbn [existsb fst Spec.pricing Spec.features Spec.greeting Spec.about].
  rewrite !orb_false_r, !orb_assoc. intros Hrules.
  repeat (apply orb_false_elim in Hrules; destruct Hrules as [Hrules ?]).
  repeat match goal with
         | H : includes _ _ = false |- _ => rewrite H; clear H
         end.
  cbn [orb].
  apply generic_template_quotes_query.
Qed.

Lemma unmatched_message_is_echoed_witness :
  exists text answer calls,
    run Examples.offline
        (Chat.POST (platform := Examples.platform) (Ok (JObj [("message", JStr "<b>x</b>")])))
      = (Ok answer, calls)
    /\ Chat.content (body answer) = Some (JStr text)
    /\ includes text "<b>x</b>" = true.
Proof.
  apply (unmatched_message_is_echoed (platform := Examples.platform) Examples.offline
           [("message", JStr "<b>x</b>")] "<b>x</b>").
  - reflexivity.
  - discriminate.
  - constructor.
  - reflexivity.
  - reflexivity.
Defined.

(** ** The transport wrapper, in every case *)



Section LoopTotal.
Variables (cfg : ApiConfig.ApiConfig) (req : FetchRequest) (env : Env).


End LoopTotal.

(** Among the first [n] attempts, one succeeds after failures only, or all
    fail. *)
Lemma first_success_or_all_fail (outcome : nat -> result json) (n : nat) :
  (exists k data,
      (k < n)%nat
      /\ (forall i, (i < k)%nat -> exists e, outcome i = Throw e)
      /\ outcome k = Ok data)
  \/ (forall i, (i < n)%nat -> exists e, outcome i = Throw e).
Proof.
  induction n as [|n [(k & data & Hk & Hfail & Hok)|Hall]].
  - right. intros i Hi. lia.
  - left. exists k, data. repeat split; try assumption. lia.
  - destruct (outcome n) as [data|e] eqn:Hn.
    + left. exists n, data. repeat split; try assumption. lia.
    + right. intros i Hi. destruct (Nat.eq_dec i n) as [->|Hne]; [eauto|].
      apply Hall. lia.
Qed.



(** ** The chat call of the library *)


(** ** Health checks *)

(** The health check of the chat route never throws and makes one call,
    with a signal of 5 s.  It answers 200 exactly when the backend answers
    2xx with a body that is JSON, and then hands that body on as
    [backend_status]; in every other case it answers 503 with an error
    text. *)
Theorem chat_health_is_200_iff_backend_answers (env : Env) :
  exists answer,
    run env Chat.GET = (Ok answer, [EvFetch (Chat.health_request env)])
    /\ signal (Chat.health_request env) = Some 5000%Z
    /\ (forall data,
          Transports.attempt_outcome (network env 0 (Chat.health_request env)) = Ok data
          <-> answer = {| http_status := 200%Z;
                          body := Chat.Healthy data (Chat.API_BASE_URL env) |})
    /\ ((exists e,
           Transports.attempt_outcome (network env 0 (Chat.health_request env)) = Throw e)
        <-> exists text,
              answer = {| http_status := 503%Z;
                          body := Chat.Degraded text (Chat.API_BASE_URL env) |}).
Proof.
  unfold Chat.GET, Transports.attempt_outcome. io. cbn [count_fetch filter length app].
  destruct (network env 0 (Chat.health_request env)) as [response|e].
  - destruct (ok response).
    + destruct (parsed response) as [data|e].
      * eexists. split; [reflexivity|]. split; [reflexivity|]. split.
        -- intros data'. split; [now intros [= ->]|now intros [= ->]].
        -- split; [intros [e H]; discriminate|intros [text H]; discriminate].
      * eexists. split; [reflexivity|]. split; [reflexivity|]. split.
        -- intros data'. split; discriminate.
        -- split; eauto.
    + eexists. split; [reflexivity|]. split; [reflexivity|]. split.
      * intros data'. split; discriminate.
      * split; eauto.
  - eexists. split; [reflexivity|]. split; [reflexivity|]. split.
    + intros data'. split; discriminate.
    + split; eauto.
Qed.

(** The health check of the library never throws and always makes its two
    probes, the backend first: a probe that is rejected or answered with
    another status than 2xx sets its own flag to false and leaves the other
    probe as it is. *)
Theorem health_probes_are_independent (env : Env) :
  let flag (r : result Response) :=
    match r with
    | Ok response => ok response
    | Throw _ => false
    end in
  run env ApiConfig.checkApiHealth
  = (Ok {| ApiConfig.Health.backend :=
             flag (network env 0 (ApiConfig.backend_health_request env));
           ApiConfig.Health.fallback :=
             flag (network env 1 ApiConfig.fallback_health_request);
           ApiConfig.Health.timestamp := date_iso env |},
     [EvFetch (ApiConfig.backend_health_request env);
      EvFetch ApiConfig.fallback_health_request]).
Proof.
  unfold ApiConfig.checkApiHealth, ApiConfig.probe. io. cbn [count_fetch filter length app].
  destruct (network env 0 _) as [backend|e]; cbn;
    destruct (network env 1 _) as [fallback|e']; reflexivity.
Qed.

(** ** The admin route: blocking *)

Lemma block_system_run (env : Env) (reason severity : option string)
    (st : AdminSecurity.Store) :
  run env (AdminSecurity.block_system reason severity st)
  = (match network env 0 (AdminSecurity.block_request env reason severity) with
     | Ok _ =>
         let systemState' := {|
           AdminSecurity.SystemState.blocked := true;
           AdminSecurity.SystemState.threat_level := AdminSecurity.danger;
           AdminSecurity.SystemState.active_threats :=
             AdminSecurity.SystemState.active_threats (AdminSecurity.systemState st);
           AdminSecurity.SystemState.last_scan :=
             AdminSecurity.SystemState.last_scan (AdminSecurity.systemState st);
           AdminSecurity.SystemState.models_status :=
             AdminSecurity.SystemState.models_status (AdminSecurity.systemState st)
         |} in
         Ok ({| http_status := 200; body := AdminSecurity.BlockSuccess systemState' |},
             {| AdminSecurity.systemState := systemState';
                AdminSecurity.mockAlerts :=
                  {| AdminSecurity.SecurityAlert.id := "alert_" ++ string_of_Z (date_now env);
                     AdminSecurity.SecurityAlert.type := AdminSecurity.system;
                     AdminSecurity.SecurityAlert.severity := AdminSecurity.critical;
                     AdminSecurity.SecurityAlert.message :=
                       JStr ("Système bloqué: "
                               ++ AdminSecurity.or_string reason "Blocage manuel");
                     AdminSecurity.SecurityAlert.timestamp := date_iso env;
                     AdminSecurity.SecurityAlert.action_taken :=
                       JStr "Système mis en mode sécurisé";
                     AdminSecurity.SecurityAlert.details :=
                       Some (JObj [("admin_action", JBool true)]);
                     AdminSecurity.SecurityAlert.user_session := None |}
                  :: AdminSecurity.mockAlerts st;
                AdminSecurity.userActivities := AdminSecurity.userActivities st |})
     | Throw _ => Ok ({| http_status := 500; body := AdminSecurity.BlockError |}, st)
     end,
     [EvFetch (AdminSecurity.block_request env reason severity)]).
Proof.
  unfold AdminSecurity.block_system. io. cbn [count_fetch filter length app].
  destruct (network env 0 _); reflexivity.
Qed.

Lemma unblock_system_run (env : Env) (st : AdminSecurity.Store) :
  run env (AdminSecurity.unblock_system st)
  = (match network env 0 (AdminSecurity.unblock_request env) with
     | Ok _ =>
         let systemState' := {|
           AdminSecurity.SystemState.blocked := false;
           AdminSecurity.SystemState.threat_level := AdminSecurity.safe;
           AdminSecurity.SystemState.active_threats := [];
           AdminSecurity.SystemState.last_scan :=
             AdminSecurity.SystemState.last_scan (AdminSecurity.systemState st);
           AdminSecurity.SystemState.models_status :=
             AdminSecurity.SystemState.models_status (AdminSecurity.systemState st)
         |} in
         Ok ({| http_status := 200; body := AdminSecurity.UnblockSuccess systemState' |},
             {| AdminSecurity.systemState := systemState';
                AdminSecurity.mockAlerts := AdminSecurity.mockAlerts st;
                AdminSecurity.userActivities :=
                  map AdminSecurity.unblock_user (AdminSecurity.userActivities st) |})
     | Throw _ => Ok ({| http_status := 500; body := AdminSecurity.UnblockError |}, st)
     end,
     [EvFetch (AdminSecurity.unblock_request env)]).
Proof.
  unfold AdminSecurity.unblock_system. io. cbn [count_fetch filter length app].
  destruct (network env 0 _); reflexivity.
Qed.

(** The counts of the report, alert by alert. *)
Lemma count_type_cons (t : AdminSecurity.AlertType) (a : AdminSecurity.SecurityAlert.t)
    (alerts : list AdminSecurity.SecurityAlert.t) :
  AdminSecurity.count_type t (a :: alerts)
  = ((if AdminSecurity.AlertType_eqb (AdminSecurity.SecurityAlert.type a) t then 1 else 0)
     + AdminSecurity.count_type t alerts)%nat.
Proof.
  unfold AdminSecurity.count_type. cbn [filter].
  destruct (AdminSecurity.AlertType_eqb _ t); reflexivity.
Qed.

Lemma count_severity_cons (s : AdminSecurity.Severity) (a : AdminSecurity.SecurityAlert.t)
    (alerts : list AdminSecurity.SecurityAlert.t) :
  AdminSecurity.count_severity s (a :: alerts)
  = ((if AdminSecurity.Severity_eqb (AdminSecurity.SecurityAlert.severity a) s then 1 else 0)
     + AdminSecurity.count_severity s alerts)%nat.
Proof.
  unfold AdminSecurity.count_severity. cbn [filter].
  destruct (AdminSecurity.Severity_eqb _ s); reflexivity.
Qed.



(** A block followed by an unblock does not give the store back: the alert
    of the block stays in front of the alerts, and every session is
    released, those that were blocked before the block too, with its score
    lowered by 0.3, not below 0.1. *)
Theorem unblock_after_block_is_not_an_undo
    (env env' : Env) (reason severity : option string) (st st1 st2 : AdminSecurity.Store)
    answer1 answer2 calls1 calls2 :
  run env (AdminSecurity.block_system reason severity st) = (Ok (answer1, st1), calls1) ->
  http_status answer1 = 200%Z ->
  run env' (AdminSecurity.unblock_system st1) = (Ok (answer2, st2), calls2) ->
  http_status answer2 = 200%Z ->
  (exists blockAlert,
      AdminSecurity.mockAlerts st2 = blockAlert :: AdminSecurity.mockAlerts st
      /\ AdminSecurity.SecurityAlert.type blockAlert = AdminSecurity.system)
  /\ AdminSecurity.userActivities st2
     = map AdminSecurity.unblock_user (AdminSecurity.userActivities st)
  /\ Forall (fun user => AdminSecurity.UserActivity.blocked user = false)
       (AdminSecurity.userActivities st2)
  /\ AdminSecurity.SystemState.blocked (AdminSecurity.systemState st2) = false
  /\ AdminSecurity.SystemState.threat_level (AdminSecurity.systemState st2)
     = AdminSecurity.safe
  /\ st2 <> st.
Proof.
  intros H1 Hs1 H2 Hs2.
  rewrite block_system_run in H1. rewrite unblock_system_run in H2.
  destruct (network env 0 _); [|injection H1 as <- _ _; discriminate].
  destruct (network env' 0 _); [|injection H2 as <- _ _; discriminate].
  cbv zeta in H1, H2. injection H1 as _ <- _. injection H2 as _ <- _.
  cbn -[string_of_Z append].
  repeat split.
  - eexists. split; reflexivity.
  - apply Forall_forall. intros user Hin. apply in_map_iff in Hin.
    destruct Hin as (u & <- & _). apply unblock_user_spec.
  - intros Heq. apply (f_equal (fun s => length (AdminSecurity.mockAlerts s))) in Heq.
    cbn in Heq. lia.
Qed.

Lemma unblock_after_block_is_not_an_undo_witness :
  exists st2,
    fst (run Examples.backend_up (AdminSecurity.unblock_system Examples.blocked_store))
      = Ok ({| http_status := 200;
               body := AdminSecurity.UnblockSuccess (AdminSecurity.systemState st2) |}, st2)
    /\ length (AdminSecurity.mockAlerts st2) = 4%nat
    /\ Forall (fun user => AdminSecurity.UserActivity.blocked user = false)
         (AdminSecurity.userActivities st2)
    /\ st2 <> AdminSecurity.initial_store Examples.stamp.
Proof.
  eexists (AdminSecurity.Build_Store _ _ _). split; [reflexivity|].
  destruct (unblock_after_block_is_not_an_undo Examples.backend_up Examples.backend_up
              None None (AdminSecurity.initial_store Examples.stamp)
              _ _ _ _ _ _ eq_refl eq_refl eq_refl eq_refl)
    as (_ & _ & Hall & _ & _ & Hne).
  split; [reflexivity|]. split; [exact Hall|exact Hne].
Defined.

(** Unblocking is idempotent: once an unblock has succeeded, another one,
    whether its call of the backend resolves or not, leaves the store as it
    is. *)
Theorem unblock_system_is_idempotent
    (env env' : Env) (st st1 st2 : AdminSecurity.Store) answer1 answer2 calls1 calls2 :
  run env (AdminSecurity.unblock_system st) = (Ok (answer1, st1), calls1) ->
  http_status answer1 = 200%Z ->
  run env' (AdminSecurity.unblock_system st1) = (Ok (answer2, st2), calls2) ->
  st2 = st1.
Proof.
  intros H1 Hs1 H2.
  rewrite unblock_system_run in H1. rewrite unblock_system_run in H2.
  destruct (network env 0 _); [|injection H1 as <- _ _; discriminate].
  cbv zeta in H1. injection H1 as _ <- _.
  destruct (network env' 0 _); [|now injection H2 as _ <- _].
  cbv zeta in H2. injection H2 as _ <- _. cbn. f_equal.
  rewrite map_map. apply map_ext. intros user.
  apply unblock_user_spec. apply unblock_user_spec.
Qed.

Lemma unblock_system_is_idempotent_witness :
  exists st1 st2 answer,
    fst (run Examples.backend_up (AdminSecurity.unblock_system Examples.blocked_store))
      = Ok ({| http_status := 200;
               body := AdminSecurity.UnblockSuccess (AdminSecurity.systemState st1) |}, st1)
    /\ fst (run Examples.backend_up (AdminSecurity.unblock_system st1)) = Ok (answer, st2)
    /\ st2 = st1.
Proof.
  eexists (AdminSecurity.Build_Store _ _ _), _, _.
  split; [reflexivity|]. split; [reflexivity|].
  exact (unblock_system_is_idempotent Examples.backend_up Examples.backend_up
           Examples.blocked_store _ _ _ _ _ _ eq_refl eq_refl eq_refl).
Defined.

(** ** The admin route: the report *)

Lemma strict_equal_same (v : json) (a b : string) :
  AdminSecurity.strict_equal v (JStr a) = true ->
  AdminSecurity.strict_equal v (JStr b) = true ->
  a = b.
Proof.
  destruct v; try discriminate. cbn. intros Ha Hb.
  apply String.eqb_eq in Ha, Hb. congruence.
Qed.

(** Every alert is in one of the four counts by severity or in none. *)
Lemma count_severity_total (alerts : list AdminSecurity.SecurityAlert.t) :
  (AdminSecurity.count_severity AdminSecurity.critical alerts
   + AdminSecurity.count_severity AdminSecurity.high alerts
   + AdminSecurity.count_severity AdminSecurity.medium alerts
   + AdminSecurity.count_severity AdminSecurity.low alerts
   + AdminSecurity.uncounted_severity alerts)%nat = length alerts.
Proof.
  induction alerts as [|a alerts IH]; [reflexivity|].
  rewrite !count_severity_cons. unfold AdminSecurity.uncounted_severity in *.
  cbn [length filter]. unfold AdminSecurity.Severity_eqb in *.
  unfold AdminSecurity.critical, AdminSecurity.high, AdminSecurity.medium,
    AdminSecurity.low in *.
  destruct (AdminSecurity.strict_equal (AdminSecurity.SecurityAlert.severity a)
              (JStr "critical")) eqn:H1,
           (AdminSecurity.strict_equal (AdminSecurity.SecurityAlert.severity a)
              (JStr "high")) eqn:H2,
           (AdminSecurity.strict_equal (AdminSecurity.SecurityAlert.severity a)
              (JStr "medium")) eqn:H3,
           (AdminSecurity.strict_equal (AdminSecurity.SecurityAlert.severity a)
              (JStr "low")) eqn:H4;
    cbn [orb negb length];
    try lia;
    repeat match goal with
           | Ha : AdminSecurity.strict_equal ?v (JStr ?x) = true,
             Hb : AdminSecurity.strict_equal ?v (JStr ?y) = true |- _ =>
               discriminate (strict_equal_same v x y Ha Hb)
           end.
Qed.

(** Every alert is in one of the three counts by type or in none. *)
Lemma count_type_total (alerts : list AdminSecurity.SecurityAlert.t) :
  (AdminSecurity.count_type AdminSecurity.vulnerability alerts
   + AdminSecurity.count_type AdminSecurity.network alerts
   + AdminSecurity.count_type AdminSecurity.intent alerts
   + AdminSecurity.uncounted_type alerts)%nat = length alerts.
Proof.
  induction alerts as [|a alerts IH]; [reflexivity|].
  rewrite !count_type_cons. unfold AdminSecurity.uncounted_type in *.
  cbn [length filter]. unfold AdminSecurity.AlertType_eqb in *.
  unfold AdminSecurity.vulnerability, AdminSecurity.network, AdminSecurity.intent in *.
  destruct (AdminSecurity.strict_equal (AdminSecurity.SecurityAlert.type a)
              (JStr "vulnerability")) eqn:H1,
           (AdminSecurity.strict_equal (AdminSecurity.SecurityAlert.type a)
              (JStr "network")) eqn:H2,
           (AdminSecurity.strict_equal (AdminSecurity.SecurityAlert.type a)
              (JStr "intent")) eqn:H3;
    cbn [orb negb length];
    try lia;
    repeat match goal with
           | Ha : AdminSecurity.strict_equal ?v (JStr ?x) = true,
             Hb : AdminSecurity.strict_equal ?v (JStr ?y) = true |- _ =>
               discriminate (strict_equal_same v x y Ha Hb)
           end.
Qed.

(** The alerts of type system are among those that no count by type holds. *)
Lemma system_is_uncounted (alerts : list AdminSecurity.SecurityAlert.t) :
  (AdminSecurity.count_type AdminSecurity.system alerts
   <= AdminSecurity.uncounted_type alerts)%nat.
Proof.
  induction alerts as [|a alerts IH]; [reflexivity|].
  rewrite count_type_cons. unfold AdminSecurity.uncounted_type in *.
  cbn [filter]. unfold AdminSecurity.AlertType_eqb in *.
  destruct (AdminSecurity.strict_equal (AdminSecurity.SecurityAlert.type a)
              AdminSecurity.system) eqn:Hs.
  - destruct (AdminSecurity.SecurityAlert.type a) as [| | |t| |]; try discriminate.
    cbn in Hs. apply String.eqb_eq in Hs. subst t. cbn. lia.
  - destruct (negb _); cbn [length]; lia.
Qed.

(** The count of [threats_blocked] is made exactly when every
    [action_taken] has the method [includes]. *)
Lemma count_blocked_is_made (alerts : list AdminSecurity.SecurityAlert.t) :
  (exists n, AdminSecurity.count_blocked alerts = Ok n)
  <-> forallb (fun a => AdminSecurity.has_includes (AdminSecurity.SecurityAlert.action_taken a))
        alerts = true.
Proof.
  induction alerts as [|a alerts [IH1 IH2]]; cbn [AdminSecurity.count_blocked forallb].
  - split; eauto.
  - destruct (AdminSecurity.SecurityAlert.action_taken a) as [|b|x|s|items|fields];
      cbn [AdminSecurity.action_includes AdminSecurity.has_includes andb];
      try (split; [intros [n Hn]; discriminate|discriminate]).
    + split.
      * intros [n Hn].
        destruct (AdminSecurity.count_blocked alerts) as [m|e]; [|discriminate]. eauto.
      * intros H. destruct (IH2 H) as [m ->]. eauto.
    + split.
      * intros [n Hn].
        destruct (AdminSecurity.count_blocked alerts) as [m|e]; [|discriminate]. eauto.
      * intros H. destruct (IH2 H) as [m ->]. eauto.
Qed.

Lemma count_blocked_le (alerts : list AdminSecurity.SecurityAlert.t) : forall n,
  AdminSecurity.count_blocked alerts = Ok n -> (n <= length alerts)%nat.
Proof.
  induction alerts as [|a alerts IH]; intros n Hn; cbn [AdminSecurity.count_blocked] in Hn.
  - injection Hn as <-. reflexivity.
  - destruct (AdminSecurity.action_includes _ _) as [hit|e]; [|discriminate].
    destruct (AdminSecurity.count_blocked alerts) as [m|e]; [|discriminate].
    injection Hn as <-. specialize (IH m eq_refl). cbn [length].
    destruct hit; lia.
Qed.

Lemma blocked_partition (users : list AdminSecurity.UserActivity.t) :
  (length (filter (fun u => negb (AdminSecurity.UserActivity.blocked u)) users)
   + length (filter AdminSecurity.UserActivity.blocked users))%nat = length users.
Proof.
  induction users as [|u users IH]; [reflexivity|].
  cbn [filter length]. destruct (AdminSecurity.UserActivity.blocked u); cbn; lia.
Qed.

(** No report is made while an alert has an [action_taken] that is neither
    a string nor an array: [generateSecurityReport] throws, and
    [generate_report] answers 500; it answers 200 with the report when one
    is made.  In a report that is made the four counts by severity and
    the alerts of another severity add up to the number of alerts, and so
    do the three counts by type and the alerts of another type, those of
    type system among them; the active and the blocked sessions add up to
    the number of sessions. *)
Theorem report_counts_miss_the_alerts_of_other_classes
    (env : Env) (st : AdminSecurity.Store) :
  (forall a,
      In a (AdminSecurity.mockAlerts st) ->
      AdminSecurity.has_includes (AdminSecurity.SecurityAlert.action_taken a) = false ->
      (exists e, AdminSecurity.generateSecurityReport env st = Throw e)
      /\ run env (AdminSecurity.generate_report st)
         = (Ok {| http_status := 500%Z; body := AdminSecurity.ReportError |}, []))
  /\ run env (AdminSecurity.generate_report st)
     = (Ok match AdminSecurity.generateSecurityReport env st with
           | Ok report => {| http_status := 200%Z; body := AdminSecurity.ReportReady report |}
           | Throw _ => {| http_status := 500%Z; body := AdminSecurity.ReportError |}
           end,
        [])
  /\ (forall report,
        AdminSecurity.generateSecurityReport env st = Ok report ->
        let summary := AdminSecurity.Report.executive_summary report in
        let by_severity :=
          AdminSecurity.Report.by_severity (AdminSecurity.Report.alerts_breakdown report) in
        let by_type :=
          AdminSecurity.Report.by_type (AdminSecurity.Report.alerts_breakdown report) in
        let sessions := AdminSecurity.Report.user_activities report in
        AdminSecurity.Report.total_alerts summary = length (AdminSecurity.mockAlerts st)
        /\ (AdminSecurity.Report.critical by_severity + AdminSecurity.Report.high by_severity
            + AdminSecurity.Report.medium by_severity + AdminSecurity.Report.low by_severity
            + AdminSecurity.uncounted_severity (AdminSecurity.mockAlerts st))%nat
           = AdminSecurity.Report.total_alerts summary
        /\ (AdminSecurity.Report.vulnerability by_type + AdminSecurity.Report.network by_type
            + AdminSecurity.Report.intent by_type
            + AdminSecurity.uncounted_type (AdminSecurity.mockAlerts st))%nat
           = AdminSecurity.Report.total_alerts summary
        /\ (AdminSecurity.count_type AdminSecurity.system (AdminSecurity.mockAlerts st)
            <= AdminSecurity.uncounted_type (AdminSecurity.mockAlerts st))%nat
        /\ (AdminSecurity.Report.active_sessions sessions
            + AdminSecurity.Report.blocked_sessions sessions)%nat
           = AdminSecurity.Report.total_sessions sessions
        /\ AdminSecurity.Report.blocked_users summary
           = AdminSecurity.Report.blocked_sessions sessions
        /\ (AdminSecurity.Report.threats_blocked
              (AdminSecurity.Report.security_metrics report)
            <= AdminSecurity.Report.total_alerts summary)%nat).
Proof.
  split; [|split].
  - intros a Hin Hnone.
    assert (Hthrows : exists e, AdminSecurity.generateSecurityReport env st = Throw e).
    { unfold AdminSecurity.generateSecurityReport.
      destruct (AdminSecurity.count_blocked (AdminSecurity.mockAlerts st)) as [n|e] eqn:Hn;
        [|eauto].
      pose proof (proj1 (count_blocked_is_made _) (ex_intro _ n Hn)) as Hall.
      rewrite forallb_forall in Hall. rewrite (Hall a Hin) in Hnone. discriminate. }
    split; [exact Hthrows|]. destruct Hthrows as [e He].
    unfold AdminSecurity.generate_report. io. now rewrite He.
  - unfold AdminSecurity.generate_report. io.
    now destruct (AdminSecurity.generateSecurityReport env st).
  - intros report Hreport. unfold AdminSecurity.generateSecurityReport in Hreport.
    destruct (AdminSecurity.count_blocked (AdminSecurity.mockAlerts st)) as [n|e] eqn:Hn;
      [|discriminate].
    injection Hreport as <-. cbn.
    split; [reflexivity|]. split; [apply count_severity_total|].
    split; [apply count_type_total|]. split; [apply system_is_uncounted|].
    split; [apply blocked_partition|]. split; [reflexivity|].
    now apply count_blocked_le.
Qed.

Lemma report_counts_miss_the_alerts_of_other_classes_witness :
  exists report,
    AdminSecurity.generateSecurityReport Examples.offline Examples.urgent_store = Ok report
    /\ AdminSecurity.Report.total_alerts (AdminSecurity.Report.executive_summary report)
       = 4%nat
    /\ AdminSecurity.Report.by_severity (AdminSecurity.Report.alerts_breakdown report)
       = {| AdminSecurity.Report.critical := 1; AdminSecurity.Report.high := 1;
            AdminSecurity.Report.medium := 1; AdminSecurity.Report.low := 0 |}
    /\ AdminSecurity.uncounted_severity (AdminSecurity.mockAlerts Examples.urgent_store)
       = 1%nat
    /\ (1 + 1 + 1 + 0
        + AdminSecurity.uncounted_severity (AdminSecurity.mockAlerts Examples.urgent_store))%nat
       = 4%nat.
Proof.
  eexists. split; [reflexivity|].
  split; [reflexivity|]. split; [reflexivity|]. split; [reflexivity|].
  exact (proj1 (proj2 (proj2 (proj2 (report_counts_miss_the_alerts_of_other_classes
                                       Examples.offline Examples.urgent_store))
                         _ eq_refl))).
Defined.

(** An alert whose [action_taken] is a number is accepted by [add_alert],
    and from then on no report is made. *)
Lemma numbered_alert_breaks_the_report :
  exists added st,
    run Examples.offline (AdminSecurity.add_alert Examples.numbered_alert
                            (AdminSecurity.initial_store Examples.stamp))
      = (Ok (added, st), [])
    /\ AdminSecurity.generateSecurityReport Examples.offline st
       = Throw (mkError "a.action_taken.includes is not a function")
    /\ run Examples.offline (AdminSecurity.generate_report st)
       = (Ok {| http_status := 500%Z; body := AdminSecurity.ReportError |}, []).
Proof.
  eexists _, _. split; [vm_compute; reflexivity|]. split; reflexivity.
Qed.

(** ** The admin route: alerts *)

Lemma filter_length_lt {A} (f : A -> bool) (l : list A) :
  (length (filter (fun a => negb (f a)) l) <? length l)%nat = existsb f l.
Proof.
  induction l as [|a l IH]; [reflexivity|].
  cbn [filter existsb length].
  pose proof (filter_length_le (fun a => negb (f a)) l) as Hle.
  destruct (f a); cbn [negb orb length].
  - apply Nat.ltb_lt. lia.
  - rewrite <- IH. destruct (Nat.ltb_spec (length (filter (fun a => negb (f a)) l)) (length l));
      [apply Nat.ltb_lt|apply Nat.ltb_ge]; lia.
Qed.

Lemma DELETE_delete_alert_run (env : Env) (alertId : string) (st : AdminSecurity.Store) :
  alertId <> "" ->
  let kept :=
    filter (fun alert => negb (String.eqb (AdminSecurity.SecurityAlert.id alert) alertId))
      (AdminSecurity.mockAlerts st) in
  run env (AdminSecurity.DELETE (Some "delete_alert") (Some alertId) st)
  = (Ok (Some (if existsb (fun alert =>
                             String.eqb (AdminSecurity.SecurityAlert.id alert) alertId)
                    (AdminSecurity.mockAlerts st)
               then {| http_status := 200; body := AdminSecurity.AlertDeleted |}
               else {| http_status := 404; body := AdminSecurity.AlertNotFound |}),
         {| AdminSecurity.systemState := AdminSecurity.systemState st;
            AdminSecurity.mockAlerts := kept;
            AdminSecurity.userActivities := AdminSecurity.userActivities st |}),
     []).
Proof.
  intros Hid kept. unfold AdminSecurity.DELETE.
  apply String.eqb_neq in Hid. rewrite Hid. cbv zeta. fold kept. unfold kept at 1.
  rewrite (filter_length_lt
             (fun alert => String.eqb (AdminSecurity.SecurityAlert.id alert) alertId)).
  destruct (existsb _ _); reflexivity.
Qed.

Lemma filter_all {A} (f : A -> bool) (l : list A) :
  (forall a, In a l -> f a = true) -> filter f l = l.
Proof.
  induction l as [|a l IH]; intros H; [reflexivity|].
  cbn [filter]. rewrite (H a (or_introl eq_refl)). f_equal. apply IH.
  intros b Hb. apply H. now right.
Qed.

(** [delete_alert] removes every alert whose id is the one given, and no
    other: it answers 200 when there was one, and 404, with the store as it
    was, when there was none.  The system state and the sessions stay as
    they are, and no call is made.  Without [alert_id], or with an empty
    one, the handler returns no response at all. *)
Theorem delete_alert_removes_the_alerts_of_that_id (env : Env) (st : AdminSecurity.Store) :
  (forall alertId,
      alertId <> "" ->
      exists answer st',
        run env (AdminSecurity.DELETE (Some "delete_alert") (Some alertId) st)
          = (Ok (Some answer, st'), [])
        /\ AdminSecurity.systemState st' = AdminSecurity.systemState st
        /\ AdminSecurity.userActivities st' = AdminSecurity.userActivities st
        /\ (forall a,
              In a (AdminSecurity.mockAlerts st')
              <-> In a (AdminSecurity.mockAlerts st)
                  /\ AdminSecurity.SecurityAlert.id a <> alertId)
        /\ ((exists a, In a (AdminSecurity.mockAlerts st)
                       /\ AdminSecurity.SecurityAlert.id a = alertId) ->
            answer = {| http_status := 200; body := AdminSecurity.AlertDeleted |})
        /\ ((forall a, In a (AdminSecurity.mockAlerts st) ->
                       AdminSecurity.SecurityAlert.id a <> alertId) ->
            answer = {| http_status := 404; body := AdminSecurity.AlertNotFound |}
            /\ st' = st))
  /\ run env (AdminSecurity.DELETE (Some "delete_alert") None st) = (Ok (None, st), [])
  /\ run env (AdminSecurity.DELETE (Some "delete_alert") (Some "") st) = (Ok (None, st), []).
Proof.
  split; [|split; reflexivity].
  intros alertId Hid. rewrite (DELETE_delete_alert_run env alertId st Hid).
  eexists _, _. split; [reflexivity|]. cbn [AdminSecurity.systemState
    AdminSecurity.userActivities AdminSecurity.mockAlerts].
  split; [reflexivity|]. split; [reflexivity|]. split; [|split].
  - intros a. rewrite filter_In, negb_true_iff, String.eqb_neq. reflexivity.
  - intros (a & Ha & Heq).
    replace (existsb _ _) with true; [reflexivity|].
    symmetry. apply existsb_exists. exists a. split; [exact Ha|now apply String.eqb_eq].
  - intros H. replace (existsb _ _) with false.
    + split; [reflexivity|]. destruct st as [s alerts users]. cbn in *. f_equal.
      apply filter_all. intros a Ha. apply negb_true_iff, String.eqb_neq. now apply H.
    + symmetry. apply not_true_is_false. intros Hex. apply existsb_exists in Hex.
      destruct Hex as (a & Ha & Heq). apply String.eqb_eq in Heq. exact (H a Ha Heq).
Qed.

Lemma delete_alert_removes_the_alerts_of_that_id_witness :
  exists answer st',
    run Examples.offline
        (AdminSecurity.DELETE (Some "delete_alert") (Some "alert_002")
           (AdminSecurity.initial_store Examples.stamp))
      = (Ok (Some answer, st'), [])
    /\ answer = {| http_status := 200; body := AdminSecurity.AlertDeleted |}.
Proof.
  destruct (proj1 (delete_alert_removes_the_alerts_of_that_id Examples.offline
                     (AdminSecurity.initial_store Examples.stamp))
              "alert_002" ltac:(discriminate))
    as (answer & st' & Hrun & _ & _ & _ & Hfound & _).
  exists answer, st'. split; [exact Hrun|].
  apply Hfound. eexists. split; [right; left; reflexivity|reflexivity].
Defined.

Lemma add_alert_run (env : Env) (body : AdminSecurity.NewAlert) (st : AdminSecurity.Store) :
  let newAlert := {|
    AdminSecurity.SecurityAlert.id := "alert_" ++ string_of_Z (date_now env);
    AdminSecurity.SecurityAlert.type :=
      AdminSecurity.or_else (AdminSecurity.new_type body) AdminSecurity.vulnerability;
    AdminSecurity.SecurityAlert.severity :=
      AdminSecurity.or_else (AdminSecurity.new_severity body) AdminSecurity.medium;
    AdminSecurity.SecurityAlert.message :=
      AdminSecurity.or_else (AdminSecurity.new_message body)
        (JStr "Nouvelle menace détectée");
    AdminSecurity.SecurityAlert.timestamp := date_iso env;
    AdminSecurity.SecurityAlert.action_taken :=
      AdminSecurity.or_else (AdminSecurity.new_action_taken body) (JStr "Alerte créée");
    AdminSecurity.SecurityAlert.details :=
      js_or (AdminSecurity.new_details body) (Some (JObj []));
    AdminSecurity.SecurityAlert.user_session := AdminSecurity.new_user_session body
  |} in
  run env (AdminSecurity.add_alert body st)
  = (Ok ({| http_status := 200;
            body := {| AdminSecurity.alert := newAlert;
                       AdminSecurity.total_alerts := S (length (AdminSecurity.mockAlerts st)) |} |},
         {| AdminSecurity.systemState := AdminSecurity.systemState st;
            AdminSecurity.mockAlerts := newAlert :: AdminSecurity.mockAlerts st;
            AdminSecurity.userActivities := AdminSecurity.userActivities st |}),
     []).
Proof. reflexivity. Qed.


Lemma alert_id_not_empty (n : Z) : ("alert_" ++ string_of_Z n)%string <> "".
Proof. discriminate. Qed.

(** Adding an alert and deleting it by the id that the answer gives is a
    round trip, when no alert of the store has that id: the new alert is
    put in front, the count of the answer is the new number of alerts, the
    second answer is 200 and the store is the one before the two
    requests. *)
Theorem add_alert_then_delete_alert_is_a_round_trip
    (env env' : Env) (new : AdminSecurity.NewAlert) (st st1 : AdminSecurity.Store)
    added calls :
  (forall a, In a (AdminSecurity.mockAlerts st) ->
             AdminSecurity.SecurityAlert.id a
             <> ("alert_" ++ string_of_Z (date_now env))%string) ->
  run env (AdminSecurity.add_alert new st) = (Ok (added, st1), calls) ->
  AdminSecurity.mockAlerts st1
    = AdminSecurity.alert (body added) :: AdminSecurity.mockAlerts st
  /\ AdminSecurity.total_alerts (body added) = length (AdminSecurity.mockAlerts st1)
  /\ run env'
       (AdminSecurity.DELETE (Some "delete_alert")
          (Some (AdminSecurity.SecurityAlert.id (AdminSecurity.alert (body added)))) st1)
     = (Ok (Some {| http_status := 200; body := AdminSecurity.AlertDeleted |}, st), []).
Proof.
  intros Hfresh Hrun. rewrite add_alert_run in Hrun. cbv zeta in Hrun.
  injection Hrun as <- <- _.
  cbn [body AdminSecurity.alert AdminSecurity.total_alerts AdminSecurity.mockAlerts
       AdminSecurity.SecurityAlert.id length].
  split; [reflexivity|]. split; [reflexivity|].
  rewrite DELETE_delete_alert_run by apply alert_id_not_empty.
  cbn [AdminSecurity.mockAlerts AdminSecurity.systemState AdminSecurity.userActivities
       existsb filter AdminSecurity.SecurityAlert.id].
  rewrite String.eqb_refl. cbn [orb negb].
  rewrite filter_all.
  - now destruct st.
  - intros a Ha. apply negb_true_iff, String.eqb_neq. now apply Hfresh.
Qed.

Lemma add_alert_then_delete_alert_is_a_round_trip_witness :
  exists added st1,
    run Examples.offline
        (AdminSecurity.add_alert Examples.bare_alert
           (AdminSecurity.initial_store Examples.stamp))
      = (Ok (added, st1), [])
    /\ run Examples.offline
         (AdminSecurity.DELETE (Some "delete_alert")
            (Some (AdminSecurity.SecurityAlert.id (AdminSecurity.alert (body added)))) st1)
       = (Ok (Some {| http_status := 200; body := AdminSecurity.AlertDeleted |},
              AdminSecurity.initial_store Examples.stamp), []).
Proof.
  assert (Hfresh : forall a,
             In a (AdminSecurity.mockAlerts (AdminSecurity.initial_store Examples.stamp)) ->
             AdminSecurity.SecurityAlert.id a
             <> ("alert_" ++ string_of_Z (date_now Examples.offline))%string).
  { intros a [<-|[<-|[<-|[]]]]; vm_compute; discriminate. }
  pose proof (add_alert_run Examples.offline Examples.bare_alert
                (AdminSecurity.initial_store Examples.stamp)) as Hadd.
  cbv zeta in Hadd.
  eexists _, _. split; [exact Hadd|].
  exact (proj2 (proj2 (add_alert_then_delete_alert_is_a_round_trip
                         Examples.offline Examples.offline Examples.bare_alert
                         (AdminSecurity.initial_store Examples.stamp) _ _ _
                         Hfresh Hadd))).
Defined.

(** The id of an alert is the time of its creation, in milliseconds: two
    alerts added while the clock reads the same share their id, and one
    [delete_alert] of that id removes both. *)
Theorem alerts_of_one_millisecond_share_their_id
    (env1 env2 env3 : Env) (new1 new2 : AdminSecurity.NewAlert)
    (st st1 st2 : AdminSecurity.Store) added1 added2 calls1 calls2 :
  date_now env1 = date_now env2 ->
  run env1 (AdminSecurity.add_alert new1 st) = (Ok (added1, st1), calls1) ->
  run env2 (AdminSecurity.add_alert new2 st1) = (Ok (added2, st2), calls2) ->
  AdminSecurity.SecurityAlert.id (AdminSecurity.alert (body added1))
    = AdminSecurity.SecurityAlert.id (AdminSecurity.alert (body added2))
  /\ AdminSecurity.mockAlerts st2
     = AdminSecurity.alert (body added2) :: AdminSecurity.alert (body added1)
         :: AdminSecurity.mockAlerts st
  /\ exists st3,
       run env3
         (AdminSecurity.DELETE (Some "delete_alert")
            (Some (AdminSecurity.SecurityAlert.id (AdminSecurity.alert (body added2)))) st2)
       = (Ok (Some {| http_status := 200; body := AdminSecurity.AlertDeleted |}, st3), [])
       /\ ~ In (AdminSecurity.alert (body added1)) (AdminSecurity.mockAlerts st3)
       /\ ~ In (AdminSecurity.alert (body added2)) (AdminSecurity.mockAlerts st3)
       /\ (length (AdminSecurity.mockAlerts st3) <= length (AdminSecurity.mockAlerts st))%nat.
Proof.
  intros Hclock H1 H2. rewrite add_alert_run in H1. cbv zeta in H1.
  injection H1 as <- <- _.
  rewrite add_alert_run in H2. cbv zeta in H2. injection H2 as <- <- _.
  cbn [body AdminSecurity.alert AdminSecurity.mockAlerts AdminSecurity.SecurityAlert.id].
  rewrite Hclock. split; [reflexivity|]. split; [reflexivity|].
  rewrite DELETE_delete_alert_run by apply alert_id_not_empty.
  cbn [AdminSecurity.mockAlerts AdminSecurity.systemState AdminSecurity.userActivities
       existsb filter AdminSecurity.SecurityAlert.id].
  rewrite String.eqb_refl. cbn [orb negb].
  eexists. split; [reflexivity|]. cbn [AdminSecurity.mockAlerts].
  split; [|split].
  - intros Hin. apply filter_In in Hin. destruct Hin as [_ Hin].
    cbn [AdminSecurity.SecurityAlert.id] in Hin. rewrite String.eqb_refl in Hin.
    discriminate.
  - intros Hin. apply filter_In in Hin. destruct Hin as [_ Hin].
    cbn [AdminSecurity.SecurityAlert.id] in Hin. rewrite String.eqb_refl in Hin.
    discriminate.
  - apply filter_length_le.
Qed.

Lemma alerts_of_one_millisecond_share_their_id_witness :
  exists added1 st1 added2 st2 st3,
    run Examples.offline
        (AdminSecurity.add_alert Examples.scan_alert
           (AdminSecurity.initial_store Examples.stamp))
      = (Ok (added1, st1), [])
    /\ run Examples.offline (AdminSecurity.add_alert Examples.bare_alert st1)
       = (Ok (added2, st2), [])
    /\ run Examples.offline
         (AdminSecurity.DELETE (Some "delete_alert")
            (Some (AdminSecurity.SecurityAlert.id (AdminSecurity.alert (body added2)))) st2)
       = (Ok (Some {| http_status := 200; body := AdminSecurity.AlertDeleted |}, st3), [])
    /\ ~ In (AdminSecurity.alert (body added1)) (AdminSecurity.mockAlerts st3).
Proof.
  pose proof (add_alert_run Examples.offline Examples.scan_alert
                (AdminSecurity.initial_store Examples.stamp)) as Hadd1.
  cbv zeta in Hadd1.
  match type of Hadd1 with
  | _ = (Ok (_, ?st1), _) =>
      pose proof (add_alert_run Examples.offline Examples.bare_alert st1) as Hadd2
  end.
  cbv zeta in Hadd2.
  destruct (alerts_of_one_millisecond_share_their_id
              Examples.offline Examples.offline Examples.offline
              Examples.scan_alert Examples.bare_alert
              (AdminSecurity.initial_store Examples.stamp) _ _ _ _ _ _
              eq_refl Hadd1 Hadd2)
    as (_ & _ & st3 & Hdel & Hgone & _).
  eexists _, _, _, _, st3.
  split; [exact Hadd1|]. split; [exact Hadd2|]. split; [exact Hdel|exact Hgone].
Defined.

(** ** The admin route: configuration *)

Lemma PUT_run (env : Env) (request : result AdminSecurity.PutRequest)
    (st : AdminSecurity.Store) :
  run env (AdminSecurity.PUT request st)
  = (Ok (match request with
         | Ok body =>
             match AdminSecurity.configure (AdminSecurity.config_type body)
                     (AdminSecurity.settings body) st with
             | Ok (Some st') =>
                 ({| http_status := 200;
                     body := AdminSecurity.ConfigUpdated (AdminSecurity.systemState st') |},
                  st')
             | Ok None => ({| http_status := 400; body := AdminSecurity.ConfigUnknown |}, st)
             | Throw _ => ({| http_status := 500; body := AdminSecurity.PutError |}, st)
             end
         | Throw _ => ({| http_status := 500; body := AdminSecurity.PutError |}, st)
         end), []).
Proof.
  unfold AdminSecurity.PUT. io. destruct request as [body|e]; [|reflexivity].
  destruct (AdminSecurity.configure _ _ st) as [[st'|]|e]; reflexivity.
Qed.




Lemma update_at_keeps (blocked : bool) (score : option float) :
  forall (users : list AdminSecurity.UserActivity.t) i,
    map AdminSecurity.UserActivity.session_id
        (AdminSecurity.update_at i (AdminSecurity.update_user blocked score) users)
      = map AdminSecurity.UserActivity.session_id users
    /\ map AdminSecurity.UserActivity.messages_count
         (AdminSecurity.update_at i (AdminSecurity.update_user blocked score) users)
       = map AdminSecurity.UserActivity.messages_count users.
Proof.
  induction users as [|u users IH]; intros i; [destruct i; split; reflexivity|].
  destruct i as [|i]; cbn [AdminSecurity.update_at map]; [split; reflexivity|].
  destruct (IH i) as [H1 H2]. now rewrite H1, H2.
Qed.



Lemma configure_keeps (config_type : option string) (settings : option AdminSecurity.Settings)
    (st st' : AdminSecurity.Store) :
  AdminSecurity.configure config_type settings st = Ok (Some st') ->
  AdminSecurity.mockAlerts st' = AdminSecurity.mockAlerts st
  /\ AdminSecurity.SystemState.blocked (AdminSecurity.systemState st')
     = AdminSecurity.SystemState.blocked (AdminSecurity.systemState st)
  /\ AdminSecurity.SystemState.active_threats (AdminSecurity.systemState st')
     = AdminSecurity.SystemState.active_threats (AdminSecurity.systemState st)
  /\ AdminSecurity.SystemState.last_scan (AdminSecurity.systemState st')
     = AdminSecurity.SystemState.last_scan (AdminSecurity.systemState st)
  /\ map AdminSecurity.UserActivity.session_id (AdminSecurity.userActivities st')
     = map AdminSecurity.UserActivity.session_id (AdminSecurity.userActivities st)
  /\ map AdminSecurity.UserActivity.messages_count (AdminSecurity.userActivities st')
     = map AdminSecurity.UserActivity.messages_count (AdminSecurity.userActivities st).
Proof.
  unfold AdminSecurity.configure. intros H.
  repeat match type of H with
         | match ?x with _ => _ end = _ => destruct x eqn:?; try discriminate
         | (if ?x then _ else _) = _ => destruct x eqn:?; try discriminate
         end;
    injection H as <-; cbn; repeat split; apply update_at_keeps.
Qed.

(** [PUT] never throws, makes no call, and never touches the alerts, the
    block of the system, its active threats or the time of its last scan;
    it adds or removes no session.  An answer other than 200 leaves the
    whole store as it was; a known [config_type] without [settings] is
    answered 500, an unknown one 400. *)
Theorem PUT_keeps_alerts_and_block
    (env : Env) (request : result AdminSecurity.PutRequest) (st : AdminSecurity.Store) :
  exists answer st',
    run env (AdminSecurity.PUT request st) = (Ok (answer, st'), [])
    /\ AdminSecurity.mockAlerts st' = AdminSecurity.mockAlerts st
    /\ AdminSecurity.SystemState.blocked (AdminSecurity.systemState st')
       = AdminSecurity.SystemState.blocked (AdminSecurity.systemState st)
    /\ AdminSecurity.SystemState.active_threats (AdminSecurity.systemState st')
       = AdminSecurity.SystemState.active_threats (AdminSecurity.systemState st)
    /\ AdminSecurity.SystemState.last_scan (AdminSecurity.systemState st')
       = AdminSecurity.SystemState.last_scan (AdminSecurity.systemState st)
    /\ map AdminSecurity.UserActivity.session_id (AdminSecurity.userActivities st')
       = map AdminSecurity.UserActivity.session_id (AdminSecurity.userActivities st)
    /\ (http_status answer <> 200%Z -> st' = st)
    /\ (forall config_type,
          request = Ok {| AdminSecurity.config_type := config_type;
                          AdminSecurity.settings := None |} ->
          http_status answer
          = if contains ["models"; "threat_level"; "user_session"]
                 (AdminSecurity.or_string config_type "")
            then 500%Z else 400%Z).
Proof.
  rewrite PUT_run. destruct request as [body|e].
  - destruct (AdminSecurity.configure _ _ st) as [[st'|]|e] eqn:Hc.
    + destruct (configure_keeps _ _ _ _ Hc) as (H1 & H2 & H3 & H4 & H5 & _).
      eexists _, _. split; [reflexivity|]. cbn [http_status].
      repeat split; try assumption; try congruence.
      intros config_type [= ->]. cbn in Hc.
      destruct config_type as [s|]; [|discriminate].
      repeat (destruct s as [|[[] [] [] [] [] [] [] []] s]; try discriminate).
    + eexists _, _. split; [reflexivity|]. cbn [http_status].
      repeat split.
      intros config_type [= ->]. cbn in Hc.
      destruct config_type as [s|]; [|reflexivity].
      unfold AdminSecurity.or_string, contains.
      destruct (String.eqb s "") eqn:Hs; [reflexivity|].
      cbn [existsb].
      destruct (String.eqb s "models") eqn:H1;
        [apply String.eqb_eq in H1; subst; discriminate|].
      destruct (String.eqb s "threat_level") eqn:H2;
        [apply String.eqb_eq in H2; subst; discriminate|].
      destruct (String.eqb s "user_session") eqn:H3;
        [apply String.eqb_eq in H3; subst; discriminate|].
      reflexivity.
    + eexists _, _. split; [reflexivity|]. cbn [http_status].
      repeat split.
      intros config_type [= ->]. cbn in Hc.
      destruct config_type as [s|]; [|discriminate].
      unfold AdminSecurity.or_string, contains.
      destruct (String.eqb s "") eqn:Hs;
        [apply String.eqb_eq in Hs; subst; discriminate|].
      cbn [existsb].
      destruct (String.eqb s "models") eqn:H1; [reflexivity|].
      destruct (String.eqb s "threat_level") eqn:H2; [reflexivity|].
      destruct (String.eqb s "user_session") eqn:H3; [reflexivity|].
      exfalso. revert Hc H1 H2 H3. clear.
      repeat (destruct s as [|[[] [] [] [] [] [] [] []] s]; try discriminate).
  - eexists _, _. split; [reflexivity|]. cbn [http_status].
    repeat split. intros config_type H. discriminate.
Qed.

Lemma PUT_keeps_alerts_and_block_witness :
  exists answer,
    run Examples.offline
        (AdminSecurity.PUT
           (Ok {| AdminSecurity.config_type := Some "threat_level";
                  AdminSecurity.settings := None |})
           Examples.blocked_store)
      = (Ok (answer, Examples.blocked_store), [])
    /\ http_status answer = 500%Z.
Proof.
  destruct (PUT_keeps_alerts_and_block Examples.offline
              (Ok {| AdminSecurity.config_type := Some "threat_level";
                     AdminSecurity.settings := None |})
              Examples.blocked_store)
    as (answer & st' & Hrun & _ & _ & _ & _ & _ & Hsame & Hstatus).
  specialize (Hstatus _ eq_refl). cbn in Hstatus.
  rewrite Hsame in Hrun by (rewrite Hstatus; discriminate).
  exists answer. split; [exact Hrun|exact Hstatus].
Defined.

(** ** The admin route: reset *)

Lemma reset_users (users : list AdminSecurity.UserActivity.t) :
  Forall (fun u => AdminSecurity.UserActivity.blocked u = false
                   /\ AdminSecurity.UserActivity.threat_score u = 0.1%float)
    (map AdminSecurity.reset_user users)
  /\ filter AdminSecurity.UserActivity.blocked (map AdminSecurity.reset_user users) = []
  /\ filter (fun u => (0.7 <? AdminSecurity.UserActivity.threat_score u)%float)
       (map AdminSecurity.reset_user users) = []
  /\ map AdminSecurity.UserActivity.session_id (map AdminSecurity.reset_user users)
     = map AdminSecurity.UserActivity.session_id users
  /\ map AdminSecurity.UserActivity.messages_count (map AdminSecurity.reset_user users)
     = map AdminSecurity.UserActivity.messages_count users.
Proof.
  induction users as [|u users (IH1 & IH2 & IH3 & IH4 & IH5)]; [repeat split; constructor|].
  cbn [map filter AdminSecurity.reset_user AdminSecurity.UserActivity.blocked
       AdminSecurity.UserActivity.threat_score AdminSecurity.UserActivity.session_id
       AdminSecurity.UserActivity.messages_count].
  change (0.7 <? 0.1)%float with false. cbv iota.
  repeat split; try assumption; try congruence.
  constructor; [split; reflexivity|assumption].
Qed.

(** [reset_system] needs no backend: it makes no call and always answers
    200.  Afterwards there is no alert, no session is blocked and every
    score is 0.1, the three models are active again, and the report shows
    an operational system at level SAFE with no alert, no blocked user and
    no session at high risk.  The sessions themselves are kept. *)
Theorem reset_system_clears_alerts_and_releases_sessions
    (env : Env) (alertId : option string) (st : AdminSecurity.Store) :
  exists st',
    run env (AdminSecurity.DELETE (Some "reset_system") alertId st)
      = (Ok (Some {| http_status := 200; body := AdminSecurity.SystemReset |}, st'), [])
    /\ AdminSecurity.mockAlerts st' = []
    /\ Forall (fun u => AdminSecurity.UserActivity.blocked u = false
                        /\ AdminSecurity.UserActivity.threat_score u = 0.1%float)
         (AdminSecurity.userActivities st')
    /\ map AdminSecurity.UserActivity.session_id (AdminSecurity.userActivities st')
       = map AdminSecurity.UserActivity.session_id (AdminSecurity.userActivities st)
    /\ AdminSecurity.SystemState.models_status (AdminSecurity.systemState st')
       = {| AdminSecurity.SystemState.vulnerability_classifier := AdminSecurity.active;
            AdminSecurity.SystemState.network_analyzer := AdminSecurity.active;
            AdminSecurity.SystemState.intent_classifier := AdminSecurity.active |}
    /\ forall now,
       exists report,
         AdminSecurity.generateSecurityReport now st' = Ok report
         /\ AdminSecurity.Report.executive_summary report
            = {| AdminSecurity.Report.total_alerts := 0;
                 AdminSecurity.Report.critical_threats := 0;
                 AdminSecurity.Report.blocked_users := 0;
                 AdminSecurity.Report.system_status := "OPERATIONAL";
                 AdminSecurity.Report.threat_level := "SAFE" |}
         /\ AdminSecurity.Report.high_risk_sessions
              (AdminSecurity.Report.user_activities report) = 0%nat
         /\ AdminSecurity.Report.total_sessions
              (AdminSecurity.Report.user_activities report)
            = length (AdminSecurity.userActivities st).
Proof.
  destruct (reset_users (AdminSecurity.userActivities st)) as (H1 & H2 & H3 & H4 & _).
  eexists. split; [reflexivity|].
  cbn [AdminSecurity.mockAlerts AdminSecurity.userActivities AdminSecurity.systemState
       AdminSecurity.SystemState.models_status].
  split; [reflexivity|]. split; [exact H1|]. split; [exact H4|]. split; [reflexivity|].
  intros now. eexists. split; [reflexivity|].
  cbn -[includes]. rewrite H2, H3, length_map. repeat split.
Qed.

(** ** The admin route: what no request does *)

(** No request that changes the store adds or removes a session or touches
    the message counts; none throws, and each makes at most one call of the
    backend. *)
Theorem sessions_are_never_added_or_removed
    (env : Env) (op : AdminSecurity.Operation) (st : AdminSecurity.Store) :
  exists st' calls,
    run env (AdminSecurity.perform op st) = (Ok st', calls)
    /\ map AdminSecurity.UserActivity.session_id (AdminSecurity.userActivities st')
       = map AdminSecurity.UserActivity.session_id (AdminSecurity.userActivities st)
    /\ map AdminSecurity.UserActivity.messages_count (AdminSecurity.userActivities st')
       = map AdminSecurity.UserActivity.messages_count (AdminSecurity.userActivities st)
    /\ (length calls <= 1)%nat.
Proof.
  destruct op as [reason severity| |new|request|action alertId]; unfold AdminSecurity.perform.
  - pose proof (block_system_run env reason severity st) as H.
    unfold run, bind in *. rewrite H.
    destruct (network env 0 _); eexists _, _; (split; [reflexivity|]); repeat split; cbn; lia.
  - pose proof (unblock_system_run env st) as H.
    unfold run, bind in *. rewrite H.
    destruct (network env 0 _); eexists _, _; (split; [reflexivity|]);
      cbn [AdminSecurity.userActivities]; rewrite ?map_map; repeat split; cbn; try lia.
    + apply map_ext. intros u. apply unblock_user_spec.
    + apply map_ext. intros u. apply unblock_user_spec.
  - eexists _, _. split; [reflexivity|]. repeat split. cbn. lia.
  - pose proof (PUT_run env request st) as H.
    unfold run, bind in *. rewrite H.
    destruct request as [body|e]; [|eexists _, _; split; [reflexivity|]; repeat split; cbn; lia].
    destruct (AdminSecurity.configure _ _ st) as [[st'|]|e] eqn:Hc;
      eexists _, _; (split; [reflexivity|]); try (repeat split; cbn; lia).
    destruct (configure_keeps _ _ _ _ Hc) as (_ & _ & _ & _ & H5 & H6).
    repeat split; try assumption. cbn. lia.
  - destruct (reset_users (AdminSecurity.userActivities st)) as (_ & _ & _ & H4 & H5).
    unfold AdminSecurity.DELETE, run, bind.
    destruct action as [action|];
      [|eexists _, _; split; [reflexivity|]; repeat split; cbn; lia].
    repeat match goal with
           | |- context [match ?x with _ => _ end] =>
               is_var x; destruct x
           | |- context [if ?x then _ else _] => destruct x
           end;
      eexists _, _; (split; [reflexivity|]); repeat split; cbn; try assumption; lia.
Qed.

(** ** The page: the lock *)

Section LockFacts.
Context {platform : Platform}.

Lemma threatLevel_fold env (alerts : list Page.SecurityAlert.t) : forall s,
  Page.threatLevel
    (fold_left (fun st alert => Page.handleThreatDetected env alert st) alerts s)
  = if existsb Page.is_critical alerts then Page.danger else Page.threatLevel s.
Proof.
  induction alerts as [|a alerts IH]; intros s; cbn [fold_left existsb]; [reflexivity|].
  rewrite IH. unfold Page.handleThreatDetected.
  destruct (Page.is_critical a); cbn; [|reflexivity].
  destruct (existsb Page.is_critical alerts); reflexivity.
Qed.

Lemma existsb_rev {A} (f : A -> bool) (l : list A) : existsb f (rev l) = existsb f l.
Proof.
  induction l as [|a l IH]; [reflexivity|].
  cbn [rev existsb]. rewrite existsb_app, IH. cbn. rewrite orb_false_r. apply orb_comm.
Qed.

(** What a send does to the alerts, the lock and the level. *)
Lemma handleSendMessage_state env (message : string) (s s' : Page.State) reply calls :
  run env (Page.handleSendMessage message s) = (Ok (reply, s'), calls) ->
  exists new,
    Page.securityAlerts s' = new ++ Page.securityAlerts s
    /\ Page.isSystemBlocked s' = Page.isSystemBlocked s || existsb Page.is_critical new
    /\ Page.threatLevel s'
       = (if existsb Page.is_critical new then Page.danger else Page.threatLevel s)
    /\ (existsb Page.is_critical new = true ->
        reply = Page.security_block /\ calls = [EvFetch (Page.analyze_request message)]).
Proof.
  intros Hrun. rewrite handleSendMessage_run in Hrun.
  set (check := Wire.check_of_reply env (network env 0 (Page.analyze_request message))) in *.
  exists (rev (Page.alerts check)).
  assert (Hstate : forall t, t = Wire.after_alerts env check s ->
            Page.securityAlerts t = rev (Page.alerts check) ++ Page.securityAlerts s
            /\ Page.isSystemBlocked t
               = Page.isSystemBlocked s || existsb Page.is_critical (rev (Page.alerts check))
            /\ Page.threatLevel t
               = (if existsb Page.is_critical (rev (Page.alerts check))
                  then Page.danger else Page.threatLevel s)).
  { intros t ->. unfold Wire.after_alerts.
    rewrite securityAlerts_fold, isSystemBlocked_fold, threatLevel_fold, existsb_rev.
    repeat split. }
  rewrite existsb_rev in *.
  assert (Hthreats : existsb Page.is_critical (Page.alerts check) = true ->
                     Page.hasThreats check = true).
  { subst check. intros Hc. destruct (Page.hasThreats _) eqn:Hh; [reflexivity|].
    rewrite (hasThreats_false_no_alert _ _ Hh) in Hc. discriminate. }
  destruct (existsb Page.is_critical (Page.alerts check)) eqn:Hcrit.
  - rewrite (Hthreats eq_refl) in Hrun. cbn [andb] in Hrun.
    injection Hrun as <- <- <-.
    destruct (Hstate _ eq_refl) as (H1 & H2 & H3). rewrite ?existsb_rev, ?Hcrit in *.
    repeat split; assumption.
  - rewrite andb_false_r in Hrun.
    destruct (Page.isSystemBlocked s); injection Hrun as _ <- _;
      destruct (Hstate _ eq_refl) as (H1 & H2 & H3); rewrite ?existsb_rev, ?Hcrit in *;
      repeat split; try assumption; discriminate.
Qed.

(** Along any run of the page the alerts are only added, in front of the
    list; the page is locked from the first critical alert on and nothing
    releases it; the level is danger from then on.  So a page that started
    in its initial state is locked exactly when one of its alerts is
    critical. *)
Theorem page_lock_follows_critical_alerts (s s' : Page.State) :
  Page.leads_to s s' ->
  exists new,
    Page.securityAlerts s' = new ++ Page.securityAlerts s
    /\ Page.isSystemBlocked s' = Page.isSystemBlocked s || existsb Page.is_critical new
    /\ Page.threatLevel s'
       = (if existsb Page.is_critical new then Page.danger else Page.threatLevel s)
    /\ (s = Page.initial_state ->
        Page.isSystemBlocked s' = existsb Page.is_critical (Page.securityAlerts s')).
Proof.
  intros Hrun.
  assert (H : exists new,
             Page.securityAlerts s' = new ++ Page.securityAlerts s
             /\ Page.isSystemBlocked s'
                = Page.isSystemBlocked s || existsb Page.is_critical new
             /\ Page.threatLevel s'
                = (if existsb Page.is_critical new then Page.danger else Page.threatLevel s)).
  { induction Hrun as [|env alert t Hrun (new & H1 & H2 & H3)
                       |env message t t' reply calls Hrun (new & H1 & H2 & H3) Hsend
                       |t messages' selectedAgent' isAnalyzing' Hrun (new & H1 & H2 & H3)].
    - exists []. rewrite orb_false_r. repeat split.
    - exists (alert :: new). unfold Page.handleThreatDetected.
      destruct (Page.is_critical alert) eqn:Hc; cbn [Page.securityAlerts Page.isSystemBlocked
        Page.threatLevel existsb app]; rewrite Hc, ?H1, ?H2, ?H3; cbn [orb];
        rewrite ?orb_true_r; repeat split.
    - destruct (handleSendMessage_state _ _ _ _ _ _ Hsend) as (more & G1 & G2 & G3 & _).
      exists (more ++ new). rewrite G1, G2, G3, H1, H2, H3, existsb_app, app_assoc.
      repeat split;
        destruct (Page.isSystemBlocked s), (existsb Page.is_critical more),
          (existsb Page.is_critical new); reflexivity.
    - exists new. cbn. repeat split; assumption. }
  destruct H as (new & H1 & H2 & H3). exists new.
  repeat split; try assumption.
  intros ->. rewrite H1, H2. cbn. now rewrite app_nil_r.
Qed.

End LockFacts.

Lemma page_lock_follows_critical_alerts_witness :
  Page.leads_to (platform := Examples.platform) Page.initial_state Examples.blocked_page
  /\ Page.isSystemBlocked Examples.blocked_page
     = existsb Page.is_critical (Page.securityAlerts Examples.blocked_page).
Proof.
  assert (H : Page.leads_to (platform := Examples.platform) Page.initial_state
                Examples.blocked_page)
    by (apply Page.leads_to_threat, Page.leads_to_itself).
  split; [exact H|].
  destruct (page_lock_follows_critical_alerts (platform := Examples.platform) _ _ H)
    as (new & _ & _ & _ & Hinit).
  exact (Hinit eq_refl).
Defined.

(** ** The page: what is sent on *)

Section SendFacts.
Context {platform : Platform}.

(** The page fails open: when the analysis cannot be had (the call is
    rejected, the answer is not 2xx, its body is not JSON or is [null]), a
    page that is not locked raises no alert and sends the message on to the
    chat route, with [null] for the analysis. *)
Theorem failed_analysis_lets_the_message_through
    (env : Env) (message : string) (s : Page.State) :
  Page.isSystemBlocked s = false ->
  (exists e, network env 0 (Page.analyze_request message) = Throw e)
  \/ (exists response,
        network env 0 (Page.analyze_request message) = Ok response
        /\ (ok response = false
            \/ (exists e, parsed response = Throw e)
            \/ parsed response = Ok JNull)) ->
  run env (Page.handleSendMessage message s)
  = (Ok (match Wire.chat_data (network env 1 (Page.chat_request message s JNull)) with
         | Some data => data
         | None => Page.security_mode
         end,
         Page.setIsAnalyzing false s),
     [EvFetch (Page.analyze_request message);
      EvFetch (Page.chat_request message s JNull)]).
Proof.
  intros Hfree Hfail.
  assert (Hcheck : Wire.check_of_reply env (network env 0 (Page.analyze_request message))
                   = Wire.no_threat).
  { unfold Wire.check_of_reply.
    destruct Hfail as [[e ->]|(response & -> & [Hok|[[e He]|Hnull]])]; [reflexivity| | |].
    - now rewrite Hok.
    - rewrite He. now destruct (ok response).
    - rewrite Hnull. now destruct (ok response). }
  rewrite handleSendMessage_run, Hcheck, Hfree. reflexivity.
Qed.



End SendFacts.

Lemma failed_analysis_lets_the_message_through_witness :
  run Examples.offline
      (Page.handleSendMessage (platform := Examples.platform) "bonjour" Page.initial_state)
  = (Ok (Page.security_mode, Page.setIsAnalyzing false Page.initial_state),
     [EvFetch (Page.analyze_request "bonjour");
      EvFetch (Page.chat_request "bonjour" Page.initial_state JNull)]).
Proof.
  apply (failed_analysis_lets_the_message_through (platform := Examples.platform)
           Examples.offline "bonjour" Page.initial_state eq_refl).
  left. eexists. reflexivity.
Defined.


Lemma chat_health_is_200_iff_backend_answers_witness :
  exists answer,
    run Examples.backend_up Chat.GET
      = (Ok answer, [EvFetch (Chat.health_request Examples.backend_up)])
    /\ answer = {| http_status := 200%Z;
                   body := Chat.Healthy JNull (Chat.API_BASE_URL Examples.backend_up) |}.
Proof.
  destruct (chat_health_is_200_iff_backend_answers Examples.backend_up)
    as (answer & Hrun & _ & Hok & _).
  exists answer. split; [exact Hrun|]. apply Hok. reflexivity.
Defined.

(** The health check of the analyze route answers 200 in every case, after
    one call.  Its field [status] is "disconnected" when the Python server
    is not reached, does not answer 2xx or sends no JSON; otherwise it is
    the [status] of the body of the Python server when that body has one,
    and "connected" only when it has none: the body is spread last. *)
Theorem analyze_health_status_is_the_one_of_python (env : Env) :
  let call := AnalyzeHealth.health_request (Analyze.getPythonServerUrl env) in
  exists answer,
    run env AnalyzeHealth.GET = (Ok answer, [EvFetch call])
    /\ http_status answer = 200%Z
    /\ (forall health,
          Transports.attempt_outcome (network env 0 call) = Ok health ->
          Chat.lookup "status" (body answer)
          = match opt_prop (Some health) "status" with
            | Some status => Some status
            | None => Some (JStr "connected")
            end)
    /\ ((exists e, Transports.attempt_outcome (network env 0 call) = Throw e) ->
        Chat.lookup "status" (body answer) = Some (JStr "disconnected")).
Proof.
  intros call. unfold AnalyzeHealth.GET, Transports.attempt_outcome. io.
  cbn [count_fetch filter length app]. fold call.
  destruct (network env 0 call) as [response|e].
  - destruct (ok response).
    + destruct (parsed response) as [health|e].
      * eexists. split; [reflexivity|]. split; [reflexivity|]. split.
        -- intros health' [= <-]. unfold Chat.lookup.
           cbn [body rev app Chat.lookup_rev opt_prop].
           destruct health as [| | | | |fields]; reflexivity.
        -- intros [e H]. discriminate.
      * eexists. split; [reflexivity|]. split; [reflexivity|]. split.
        -- intros health' H. discriminate.
        -- reflexivity.
    + eexists. split; [reflexivity|]. split; [reflexivity|]. split.
      * intros health' H. discriminate.
      * reflexivity.
  - eexists. split; [reflexivity|]. split; [reflexivity|]. split.
    + intros health' H. discriminate.
    + reflexivity.
Qed.

Lemma analyze_health_status_is_the_one_of_python_witness :
  exists answer,
    fst (run (Examples.online (Examples.answer 200 (JObj [("status", JStr "loading")]))
                (Throw (mkError "fetch failed")))
           AnalyzeHealth.GET) = Ok answer
    /\ Chat.lookup "status" (body answer) = Some (JStr "loading").
Proof.
  destruct (analyze_health_status_is_the_one_of_python
              (Examples.online (Examples.answer 200 (JObj [("status", JStr "loading")]))
                 (Throw (mkError "fetch failed"))))
    as (answer & Hrun & _ & Hok & _).
  exists answer. split; [now rewrite Hrun|].
  exact (Hok _ eq_refl).
Defined.

(** * The route of the NetworkX agent *)

(** ** The command *)

Lemma escape_quotes_app (a b : string) :
  Networkx.escape_quotes (a ++ b)
  = (Networkx.escape_quotes a ++ Networkx.escape_quotes b)%string.
Proof.
  induction a as [|c a IH]; [reflexivity|].
  cbn [append Networkx.escape_quotes]. rewrite IH.
  destruct (Ascii.eqb c Networkx.apostrophe); reflexivity.
Qed.


Section NetworkxFacts.
Context {runtime : Networkx.Runtime}.


(** ** The reply *)

Lemma drop_app (a b : string) : drop (String.length a) (a ++ b) = b.
Proof. induction a as [|c a IH]; [now destruct b|exact IH]. Qed.

Lemma split_at_None (m s : string) : includes s m = false -> Networkx.split_at m s = None.
Proof.
  induction s as [|c s IH]; cbn [includes Networkx.split_at]; intros H;
    apply orb_false_elim in H; destruct H as [Hp Hs]; rewrite Hp; [reflexivity|].
  now rewrite (IH Hs).
Qed.

(** The first occurrence of a marker is where no occurrence starts before. *)
Lemma split_at_first (m rest : string) : forall pre,
  (forall a b, pre = (a ++ b)%string -> b <> "" ->
               String.prefix m (b ++ m ++ rest) = false) ->
  Networkx.split_at m (pre ++ m ++ rest) = Some (pre, rest).
Proof.
  induction pre as [|c pre IH]; intros Hfirst.
  - cbn [append]. destruct (m ++ rest)%string eqn:E; cbn [Networkx.split_at];
      rewrite <- E, prefix_app, drop_app; reflexivity.
  - cbn [append Networkx.split_at].
    pose proof (Hfirst "" (String c pre) eq_refl ltac:(discriminate)) as Hhere.
    cbn [append] in Hhere. rewrite Hhere.
    rewrite IH; [reflexivity|].
    intros a b -> Hb. apply (Hfirst (String c a) b eq_refl Hb).
Qed.

(** An occurrence that starts in [b] lies in [b], or runs on into what
    follows. *)
Lemma prefix_app_cases (y : string) : forall m b,
  String.prefix m (b ++ y) = true ->
  String.prefix m b = true
  \/ ((String.length b < String.length m)%nat
      /\ String.prefix (drop (String.length b) m) y = true).
Proof.
  induction m as [|a m IH]; intros b H.
  - left. now destruct b.
  - destruct b as [|c b].
    + right. split; [cbn; lia|exact H].
    + cbn [append String.prefix] in H |- *.
      destruct (ascii_dec a c) as [->|]; [|discriminate].
      destruct (IH b H) as [Hin|[Hlen Hrun]]; [now left|right].
      split; [cbn; lia|exact Hrun].
Qed.

Lemma includes_suffix (a b sub : string) :
  String.prefix sub b = true -> includes (a ++ b) sub = true.
Proof.
  intros H. destruct (prefix_split _ _ H) as [post ->]. apply includes_app.
Qed.

Lemma response_start_is_first (pre rest : string) :
  includes pre ("RESPONSE_START" ++ Networkx.newline) = false ->
  Networkx.split_at ("RESPONSE_START" ++ Networkx.newline)
    (pre ++ ("RESPONSE_START" ++ Networkx.newline) ++ rest) = Some (pre, rest).
Proof.
  intros Hpre. apply split_at_first. intros a b -> Hb.
  apply not_true_is_false. intros H.
  destruct (prefix_app_cases _ _ _ H) as [Hin|[Hlen Hrun]].
  - rewrite (includes_suffix a b _ Hin) in Hpre. discriminate.
  - destruct b as [|c b]; [contradiction|].
    cbn [String.length] in Hlen, Hrun.
    revert Hrun. clear -Hlen. cbn in Hlen.
    do 15 (destruct b as [|? b];
           [first [vm_compute; discriminate|cbn in Hlen; lia]|cbn in Hlen]); lia.
Qed.

Lemma prefix_before (c : ascii) (x : string) : forall m b,
  forallb (fun a => negb (Ascii.eqb a c)) (list_ascii_of_string m) = true ->
  String.prefix m (b ++ String c x) = true ->
  String.prefix m b = true.
Proof.
  induction m as [|a m IH]; intros b Hc H; [now destruct b|].
  cbn [list_ascii_of_string forallb] in Hc. apply andb_prop in Hc. destruct Hc as [Ha Hm].
  destruct b as [|d b]; cbn [append String.prefix] in H |- *.
  - destruct (ascii_dec a c) as [->|]; [|discriminate].
    rewrite Ascii.eqb_refl in Ha. discriminate.
  - destruct (ascii_dec a d); [|discriminate]. now apply IH.
Qed.

Lemma response_end_is_first (reply rest : string) :
  includes reply (Networkx.newline ++ "RESPONSE_END") = false ->
  Networkx.split_at (Networkx.newline ++ "RESPONSE_END")
    (reply ++ (Networkx.newline ++ "RESPONSE_END") ++ rest) = Some (reply, rest).
Proof.
  intros Hreply. apply split_at_first. intros a b -> Hb.
  apply not_true_is_false. intros H.
  assert (Hin : String.prefix (Networkx.newline ++ "RESPONSE_END") b = true).
  { destruct b as [|c b]; [contradiction|].
    change (Networkx.newline ++ "RESPONSE_END")%string
      with (String (ascii_of_nat 10) "RESPONSE_END") in *.
    cbn [append String.prefix] in H |- *.
    destruct (ascii_dec (ascii_of_nat 10) c); [|discriminate].
    apply (prefix_before (ascii_of_nat 10) ("RESPONSE_END" ++ rest)); [reflexivity|exact H]. }
  rewrite (includes_suffix a b _ Hin) in Hreply. discriminate.
Qed.

(** The reply of the agent comes back as it was printed.  When the script
    prints the reply between its two markers, with no start marker before
    and no line [RESPONSE_END] inside the reply, an answer 200 of the route
    has that reply, whole and unchanged, as its content. *)
Theorem networkx_reply_is_returned_verbatim
    (env : Env) (fields : list (string * json)) (query escaped_session : string)
    (pre reply rest stderr : string) answer calls :
  assoc "query" fields = Some (JStr query) ->
  query <> "" ->
  Networkx.replace_quotes "session_id" (Networkx.or_default (assoc "session_id" fields))
    = Ok escaped_session ->
  Networkx.execAsync (Networkx.command (Networkx.escape_quotes query) escaped_session)
    = Ok ((pre ++ ("RESPONSE_START" ++ Networkx.newline) ++ reply
             ++ (Networkx.newline ++ "RESPONSE_END") ++ rest)%string, stderr) ->
  includes pre ("RESPONSE_START" ++ Networkx.newline) = false ->
  includes reply (Networkx.newline ++ "RESPONSE_END") = false ->
  run env (Networkx.POST (Ok (JObj fields))) = (Ok answer, calls) ->
  http_status answer = 200%Z ->
  exists metadata, body answer = Networkx.Reply reply metadata.
Proof.
  intros Hq Hne Hs Hexec Hpre Hreply Hrun Hstatus.
  assert (Hsection : Networkx.section_of "RESPONSE"
                       (pre ++ ("RESPONSE_START" ++ Networkx.newline) ++ reply
                          ++ (Networkx.newline ++ "RESPONSE_END") ++ rest)
                     = Some reply).
  { unfold Networkx.section_of.
    change ("RESPONSE" ++ "_START" ++ Networkx.newline)%string
      with ("RESPONSE_START" ++ Networkx.newline)%string.
    change (Networkx.newline ++ "RESPONSE" ++ "_END")%string
      with (Networkx.newline ++ "RESPONSE_END")%string.
    rewrite (response_start_is_first pre _ Hpre).
    now rewrite (response_end_is_first reply rest Hreply). }
  revert Hrun. unfold Networkx.POST. io. cbn [prop]. rewrite Hq. cbv zeta.
  cbn [truthy]. apply String.eqb_neq in Hne. rewrite Hne. cbn [negb]. cbv beta.
  change (Networkx.replace_quotes "query" (Some (JStr query)))
    with (Ok (A := string) (Networkx.escape_quotes query)).
  cbv iota beta. rewrite Hs, Hexec, Hsection.
  destruct (match Networkx.section_of "STATS" _ with
            | Some group => Networkx.JSON_parse group
            | None => Ok (JObj [])
            end) as [stats|e];
    [|intros [= <- _]; discriminate Hstatus].
  destruct stats; cbn [prop]; intros [= <- _]; try discriminate Hstatus;
    eexists; reflexivity.
Qed.

(** A run of the script that prints no start marker is not an error for
    the route: it answers 200 with its apology as content, unless the
    statistics cannot be read.  A run that prints nothing is answered 200,
    with the apology, the confidence 0 and the counts 0. *)
Theorem networkx_apologises_with_200
    (env : Env) (fields : list (string * json)) (query escaped_session : string)
    (stdout stderr : string) :
  assoc "query" fields = Some (JStr query) ->
  query <> "" ->
  Networkx.replace_quotes "session_id" (Networkx.or_default (assoc "session_id" fields))
    = Ok escaped_session ->
  Networkx.execAsync (Networkx.command (Networkx.escape_quotes query) escaped_session)
    = Ok (stdout, stderr) ->
  includes stdout ("RESPONSE_START" ++ Networkx.newline) = false ->
  exists answer,
    run env (Networkx.POST (Ok (JObj fields))) = (Ok answer, [])
    /\ (http_status answer = 200%Z ->
        exists metadata, body answer = Networkx.Reply Networkx.apology metadata)
    /\ (stdout = "" ->
        exists session_id,
          answer = {| http_status := 200;
                      body := Networkx.Reply Networkx.apology {|
                        Networkx.confidence := 0;
                        Networkx.sources_count := Some (JNum 0);
                        Networkx.graph_hits := Some (JNum 0);
                        Networkx.memory_hits := Some (JNum 0);
                        Networkx.response_time := Some (JNum 0);
                        Networkx.provider := "networkx_hybrid";
                        Networkx.memory_context_used := true;
                        Networkx.session_id := session_id;
                        Networkx.timestamp := date_iso env |} |}).
Proof.
  intros Hq Hne Hs Hexec Hnone.
  assert (Hsection : Networkx.section_of "RESPONSE" stdout = None).
  { unfold Networkx.section_of.
    change ("RESPONSE" ++ "_START" ++ Networkx.newline)%string
      with ("RESPONSE_START" ++ Networkx.newline)%string.
    now rewrite (split_at_None _ _ Hnone). }
  unfold Networkx.POST. io. cbn [prop]. rewrite Hq. cbv zeta.
  cbn [truthy]. apply String.eqb_neq in Hne. rewrite Hne. cbn [negb]. cbv beta.
  change (Networkx.replace_quotes "query" (Some (JStr query)))
    with (Ok (A := string) (Networkx.escape_quotes query)).
  cbv iota beta. rewrite Hs, Hexec, Hsection.
  destruct (match Networkx.section_of "STATS" stdout with
            | Some group => Networkx.JSON_parse group
            | None => Ok (JObj [])
            end) as [stats|e] eqn:Hstats.
  - destruct stats; cbn [prop];
      (eexists; split; [reflexivity|]; split;
       [intros Hstatus; first [discriminate Hstatus|eexists; reflexivity]
       |intros ->; cbn in Hstats;
        first [discriminate Hstats|injection Hstats as <-; eexists; reflexivity]]).
  - eexists. split; [reflexivity|]. split; [intros Hstatus; discriminate Hstatus|].
    intros ->. cbn in Hstats. discriminate Hstats.
Qed.

End NetworkxFacts.


Lemma networkx_reply_is_returned_verbatim_witness :
  exists metadata,
    run Examples.offline
        (Networkx.POST (runtime := Examples.python_prints Examples.printed_reply)
           (Ok (JObj [("query", JStr "bonjour")])))
    = (Ok {| http_status := 200; body := Networkx.Reply "Bonjour !" metadata |}, []).
Proof.
  eexists.
  pose proof (networkx_reply_is_returned_verbatim
                (runtime := Examples.python_prints Examples.printed_reply)
                Examples.offline [("query", JStr "bonjour")] "bonjour" "default"
                "" "Bonjour !"
                (drop 37 Examples.printed_reply) "" _ [] eq_refl ltac:(discriminate) eq_refl
                eq_refl eq_refl eq_refl eq_refl eq_refl) as [metadata H].
  reflexivity.
Defined.

Lemma networkx_apologises_with_200_witness :
  exists answer,
    run Examples.offline
        (Networkx.POST (runtime := Examples.python_prints "")
           (Ok (JObj [("query", JStr "bonjour")])))
    = (Ok answer, [])
    /\ http_status answer = 200%Z
    /\ exists metadata, body answer = Networkx.Reply Networkx.apology metadata.
Proof.
  destruct (networkx_apologises_with_200 (runtime := Examples.python_prints "")
              Examples.offline [("query", JStr "bonjour")] "bonjour" "default" "" ""
              eq_refl ltac:(discriminate) eq_refl eq_refl eq_refl)
    as (answer & Hrun & _ & Hempty).
  destruct (Hempty eq_refl) as [session_id ->].
  eexists. split; [exact Hrun|]. split; [reflexivity|]. eexists. reflexivity.
Defined.

(** * The proxy of the admin route *)








